(** * GeoPulse: the synthetic geo-dataset generator, the bounded retail scan
      and the tabular export/import, embedded in Rocq.

    Sources embedded here:
    - [src/unnamed/part_002]  the Overpass (OSM) retail scanner;
    - [src/unnamed/part_003]  the generated districts, taluks, villages and
                              pincodes;
    - [src/App.tsx]           [convertToCSV], the CSV branch of
                              [handleFileUpload], [handleScanStores],
                              [scanRegions], the store filters and the
                              selection toggles.

    Conventions of the embedding.
    - A JavaScript number is a [jsnum]: [NaN], the two infinities, or an
      exact rational.  Rounding to binary64 and the sign of zero are not
      modelled: a formula such as [3000 * 2^(k-1) + jitter] gives the
      exact value of what the code computes in binary64.  Bounds and
      memberships are stated only where rounding keeps them: comparisons
      of given numbers, counts, integers got by [Math.floor], closed
      bounds, and [Math.random() * n] below [n].  A strict bound on a
      rounded sum is not stated.
    - [Math.random], [Math.sin], [Math.cos] and the network are supplied by
      the environment; they are parameters of the sections that use them.
    - [console.*] output and the advisory [onProgress] callback have no
      influence on control flow and are left out. *)

From Stdlib Require Import ZArith QArith Qround Qabs List String Ascii Bool Lia Lqa.
From Stdlib Require Import DecimalString DecimalPos DecimalZ FinFun.
Import ListNotations.

Set Implicit Arguments.
Set Warnings "-register-all".
Set Warnings "-notation-for-abbreviation".
Set Warnings "-comment-terminator-in-string".
Set Warnings "-implicit-core-hint-db".

Local Open Scope string_scope.
Local Open Scope Z_scope.

(* ================================================================== *)
(** ** JavaScript numbers *)
(* ================================================================== *)

Module JsNum.

Inductive jsnum : Type :=
| NaN
| Inf (negative : bool)
| Fin (q : Q).

Definition isNaN (x : jsnum) : bool :=
  match x with NaN => true | _ => false end.

Definition Qsign_neg (q : Q) : bool := (Qnum q <? 0)%Z.
Definition Qis_zero (q : Q) : bool := (Qnum q =? 0)%Z.

Definition add (x y : jsnum) : jsnum :=
  match x, y with
  | NaN, _ | _, NaN => NaN
  | Inf a, Inf b => if Bool.eqb a b then Inf a else NaN
  | Inf a, Fin _ => Inf a
  | Fin _, Inf b => Inf b
  | Fin p, Fin q => Fin (p + q)
  end.

Definition neg (x : jsnum) : jsnum :=
  match x with
  | NaN => NaN
  | Inf a => Inf (negb a)
  | Fin p => Fin (- p)
  end.

Definition sub (x y : jsnum) : jsnum := add x (neg y).

Definition mul (x y : jsnum) : jsnum :=
  match x, y with
  | NaN, _ | _, NaN => NaN
  | Inf a, Inf b => Inf (xorb a b)
  | Inf a, Fin q | Fin q, Inf a =>
      if Qis_zero q then NaN else Inf (xorb a (Qsign_neg q))
  | Fin p, Fin q => Fin (p * q)
  end.

(** Division; the sign of a zero divisor is not modelled, a zero divisor
    counts as [+0]. *)
Definition div (x y : jsnum) : jsnum :=
  match x, y with
  | NaN, _ | _, NaN => NaN
  | Inf _, Inf _ => NaN
  | Inf a, Fin q => Inf (xorb a (Qsign_neg q))
  | Fin _, Inf _ => Fin 0
  | Fin p, Fin q =>
      if Qis_zero q
      then (if Qis_zero p then NaN else Inf (Qsign_neg p))
      else Fin (p / q)
  end.

(** [x < y]; every comparison with [NaN] is false. *)
Definition ltb (x y : jsnum) : bool :=
  match x, y with
  | NaN, _ | _, NaN => false
  | Inf a, Inf b => a && negb b
  | Inf a, Fin _ => a
  | Fin _, Inf b => negb b
  | Fin p, Fin q => negb (Qle_bool q p)
  end.

Definition gtb (x y : jsnum) : bool := ltb y x.

(** [x === y] on numbers. *)
Definition eqb (x y : jsnum) : bool :=
  match x, y with
  | Inf a, Inf b => Bool.eqb a b
  | Fin p, Fin q => Qeq_bool p q
  | _, _ => false
  end.

(** Truthiness of a number: neither zero nor [NaN]. *)
Definition truthy (x : jsnum) : bool :=
  match x with
  | NaN => false
  | Inf _ => true
  | Fin q => negb (Qis_zero q)
  end.

Definition floor (x : jsnum) : jsnum :=
  match x with
  | Fin q => Fin (inject_Z (Qfloor q))
  | other => other
  end.

(** [Math.round]: the nearest integer, ties towards [+Infinity]. *)
Definition round (x : jsnum) : jsnum :=
  match x with
  | Fin q => Fin (inject_Z (Qfloor (q + (1 # 2))))
  | other => other
  end.

Definition abs (x : jsnum) : jsnum :=
  match x with
  | NaN => NaN
  | Inf _ => Inf false
  | Fin q => Fin (Qabs q)
  end.

(** [Math.min(...xs)] and [Math.max(...xs)]. *)
Definition min2 (x y : jsnum) : jsnum :=
  match x, y with
  | NaN, _ | _, NaN => NaN
  | _, _ => if ltb y x then y else x
  end.

Definition max2 (x y : jsnum) : jsnum :=
  match x, y with
  | NaN, _ | _, NaN => NaN
  | _, _ => if ltb x y then y else x
  end.

Definition min_list (xs : list jsnum) : jsnum := fold_left min2 xs (Inf false).
Definition max_list (xs : list jsnum) : jsnum := fold_left max2 xs (Inf true).

Definition ofZ (z : Z) : jsnum := Fin (inject_Z z).

Definition is_fin (x : jsnum) : bool :=
  match x with Fin _ => true | _ => false end.

End JsNum.

Import JsNum.

Declare Scope js_scope.
Delimit Scope js_scope with js.
Infix "+" := JsNum.add : js_scope.
Infix "-" := JsNum.sub : js_scope.
Infix "*" := JsNum.mul : js_scope.
Infix "/" := JsNum.div : js_scope.
Infix "<?" := JsNum.ltb : js_scope.
Infix ">?" := JsNum.gtb : js_scope.

(* ================================================================== *)
(** ** JavaScript strings *)
(* ================================================================== *)

Module JsString.

(** [String(z)] for an integer. *)
Definition ofZ (z : Z) : string := NilZero.string_of_int (Z.to_int z).

Fixpoint prefixb (p s : string) : bool :=
  match p, s with
  | EmptyString, _ => true
  | String a p', String b s' => Ascii.eqb a b && prefixb p' s'
  | String _ _, EmptyString => false
  end.

(** [s.includes(sub)] *)
Fixpoint includes (sub s : string) : bool :=
  prefixb sub s ||
  match s with
  | EmptyString => false
  | String _ s' => includes sub s'
  end.

(** [s.substring(0, n)] *)
Fixpoint take (n : nat) (s : string) : string :=
  match n, s with
  | S n', String c s' => String c (take n' s')
  | _, _ => EmptyString
  end.

Definition is_digit (c : ascii) : bool :=
  let n := nat_of_ascii c in (48 <=? n)%nat && (n <=? 57)%nat.

(** [s.replace(/\D/g, '')] *)
Fixpoint digits_only (s : string) : string :=
  match s with
  | EmptyString => EmptyString
  | String c s' => if is_digit c then String c (digits_only s') else digits_only s'
  end.

Definition digit_val (c : ascii) : Z := Z.of_nat (nat_of_ascii c - 48).

Fixpoint digits_value (acc : Z) (s : string) : Z :=
  match s with
  | EmptyString => acc
  | String c s' => digits_value (10 * acc + digit_val c) s'
  end.

(** The longest prefix of decimal digits and what follows it. *)
Fixpoint span_digits (s : string) : string * string :=
  match s with
  | String c s' =>
      if is_digit c
      then let '(d, r) := span_digits s' in (String c d, r)
      else (EmptyString, s)
  | EmptyString => (EmptyString, EmptyString)
  end.

(** White space of [trim], [parseInt] and [parseFloat]; the ASCII part. *)
Definition is_space (c : ascii) : bool :=
  let n := nat_of_ascii c in
  (n =? 32)%nat || ((9 <=? n)%nat && (n <=? 13)%nat).

Fixpoint trim_start (s : string) : string :=
  match s with
  | String c s' => if is_space c then trim_start s' else s
  | EmptyString => EmptyString
  end.

Fixpoint trim_end (s : string) : string :=
  match s with
  | EmptyString => EmptyString
  | String c s' =>
      match trim_end s' with
      | EmptyString => if is_space c then EmptyString else String c EmptyString
      | t => String c t
      end
  end.

(** [s.trim()] *)
Definition trim (s : string) : string := trim_end (trim_start s).

(** [s.split(sep)] for a one-character separator: never the empty list. *)
Fixpoint split (sep : ascii) (s : string) : list string :=
  match s with
  | EmptyString => [EmptyString]
  | String c s' =>
      if Ascii.eqb c sep then EmptyString :: split sep s'
      else match split sep s' with
           | [] => [String c EmptyString]
           | w :: ws => String c w :: ws
           end
  end.

(** [xs.join(sep)] *)
Fixpoint join (sep : string) (xs : list string) : string :=
  match xs with
  | [] => EmptyString
  | [x] => x
  | x :: rest => x ++ sep ++ join sep rest
  end.

(** The double-quote character, code 34. *)
Definition dquote : ascii := ascii_of_nat 34.

(** [s.replace(/QUOTE/g, QUOTE QUOTE)]: every double quote is doubled. *)
Fixpoint double_quotes (s : string) : string :=
  match s with
  | EmptyString => EmptyString
  | String c s' =>
      if Ascii.eqb c dquote
      then String c (String c (double_quotes s'))
      else String c (double_quotes s')
  end.

Definition to_lower_ascii (c : ascii) : ascii :=
  let n := nat_of_ascii c in
  if (65 <=? n)%nat && (n <=? 90)%nat then ascii_of_nat (n + 32) else c.

(** [s.toLowerCase()], on ASCII letters. *)
Fixpoint toLowerCase (s : string) : string :=
  match s with
  | EmptyString => EmptyString
  | String c s' => String (to_lower_ascii c) (toLowerCase s')
  end.

(** [xs.includes(s)] on an array of strings. *)
Definition mem (s : string) (xs : list string) : bool :=
  existsb (String.eqb s) xs.

(** *** Decimal numerals

    The hosts' [parseFloat], [Number] and number-to-string conversions are
    parameters of the developments below.  The following functions are the
    instances used in the examples: they read and write decimal numerals
    exactly (no rounding to binary64, no hexadecimal or other radix
    prefixes). *)

Definition pow10 (n : nat) : Q := inject_Z (10 ^ Z.of_nat n).

(** An exponent part [e[+-]digits] at the head of [s], and what follows. *)
Definition read_exponent (s : string) : option (Z * string) :=
  match s with
  | String c r =>
      if Ascii.eqb c "e" || Ascii.eqb c "E" then
        let '(negative, body) :=
          match r with
          | String "-" r' => (true, r')
          | String "+" r' => (false, r')
          | _ => (false, r)
          end in
        match span_digits body with
        | (EmptyString, _) => None
        | (ds, rest) =>
            Some (if negative then - digits_value 0 ds else digits_value 0 ds, rest)
        end
      else None
  | EmptyString => None
  end.

(** The longest unsigned decimal literal at the head of [s]:
    [digits], [digits.], [digits.digits] or [.digits], with an optional
    exponent; its value and what follows. *)
Definition read_decimal (s : string) : option (Q * string) :=
  let '(ip, r1) := span_digits s in
  let '(fp, r2) :=
    match r1 with
    | String "." r => span_digits r
    | _ => (EmptyString, r1)
    end in
  match ip, fp with
  | EmptyString, EmptyString => None
  | _, _ =>
      let mantissa :=
        (inject_Z (digits_value 0 ip)
         + inject_Z (digits_value 0 fp) / pow10 (String.length fp))%Q in
      match read_exponent r2 with
      | Some (e, r3) => Some (Qred (mantissa * Qpower 10 e), r3)
      | None => Some (Qred mantissa, r2)
      end
  end.

Definition read_sign (s : string) : bool * string :=
  match s with
  | String "-" r => (true, r)
  | String "+" r => (false, r)
  | _ => (false, s)
  end.

(** [parseFloat(s)] on decimal numerals: the longest numeric prefix after
    leading white space, [NaN] when there is none. *)
Definition parseFloat_decimal (s : string) : jsnum :=
  let '(negative, body) := read_sign (trim_start s) in
  if prefixb "Infinity" body then Inf negative
  else match read_decimal body with
       | Some (q, _) => Fin (if negative then - q else q)
       | None => NaN
       end.

(** [Number(s)] on decimal numerals: the whole trimmed string must be a
    numeral; the empty string is 0. *)
Definition Number_decimal (s : string) : jsnum :=
  match trim s with
  | EmptyString => Fin 0
  | t =>
      let '(negative, body) := read_sign t in
      if String.eqb body "Infinity" then Inf negative
      else match read_decimal body with
           | Some (q, EmptyString) => Fin (if negative then - q else q)
           | _ => NaN
           end
  end.

(** The first [n] digits of the fraction [num/den], for [0 <= num < den]. *)
Fixpoint fraction_digits (n : nat) (num den : Z) : string :=
  match n with
  | O => EmptyString
  | S n' =>
      if num =? 0 then EmptyString
      else String (ascii_of_nat (48 + Z.to_nat (10 * num / den)))
                  (fraction_digits n' (10 * num mod den) den)
  end.

(** Number to string: integers in full, other rationals with up to twenty
    fractional digits. *)
Definition show_decimal (x : jsnum) : string :=
  match x with
  | NaN => "NaN"
  | Inf false => "Infinity"
  | Inf true => "-Infinity"
  | Fin q =>
      let r := Qred q in
      let n := Z.abs (Qnum r) in
      let d := Zpos (Qden r) in
      let sign := if Qnum r <? 0 then "-" else EmptyString in
      match fraction_digits 20 (n mod d) d with
      | EmptyString => sign ++ ofZ (n / d)
      | frac => sign ++ ofZ (n / d) ++ "." ++ frac
      end
  end.

End JsString.

Import JsString.

(* ================================================================== *)
(** ** The data model ([src/unnamed/part_004]) *)
(* ================================================================== *)

(** JSON trees: what [JSON.stringify] is applied to. *)
Inductive json : Type :=
| JNull
| JBool (b : bool)
| JNum (n : jsnum)
| JStr (s : string)
| JArr (items : list json)
| JObj (fields : list (string * json)).

(** A property value: [undefined] or a JSON value. *)
Inductive jsval : Type :=
| VUndefined
| V (j : json).

Definition VStr (s : string) : jsval := V (JStr s).
Definition VNum (n : jsnum) : jsval := V (JNum n).
Definition VStrings (l : list string) : jsval := V (JArr (map JStr l)).

(** A position is the array [[x, y]], that is [[lng, lat]]. *)
Definition point : Type := (jsnum * jsnum)%type.
Definition ring : Type := list point.

Inductive Geometry : Type :=
| Polygon (coordinates : list ring)
| MultiPolygon (coordinates : list (list ring))
| Point (lng lat : option jsnum).

(** [GeoFeature]; the constant field [type: 'Feature'] is left out.  The
    attribute bag [properties] is an object: an insertion-ordered list of
    keys with their values. *)
Record GeoFeature : Type := mkFeature {
  id : string;
  properties : list (string * jsval);
  geometry : Geometry
}.

(** [obj[key]] *)
Fixpoint get (key : string) (obj : list (string * jsval)) : jsval :=
  match obj with
  | [] => VUndefined
  | (k, v) :: rest => if String.eqb k key then v else get key rest
  end.

Definition geocode_of (f : GeoFeature) : jsval := get "geocode" (properties f).

(* ================================================================== *)
(** ** The retail scanner ([src/unnamed/part_002]) *)
(* ================================================================== *)

Module Osm.

(** An element of the Overpass answer.  [el_center] is the optional
    [center: {lat, lon}] of a way; [el_tags] is [element.tags || {}]. *)
Record OsmElement : Type := mkElement {
  el_type : string;
  el_id : Z;
  el_lat : option jsnum;
  el_lon : option jsnum;
  el_center : option (option jsnum * option jsnum);
  el_tags : list (string * string)
}.

Definition getCategory (shopType : string) : string :=
  let s := toLowerCase shopType in
  if mem s ["supermarket"; "convenience"; "grocery"; "greengrocer"; "organic"; "frozen_food"; "spices"] then "Groceries"
  else if mem s ["food"; "bakery"; "butcher"; "seafood"; "ice_cream"; "beverages"; "coffee"; "tea"; "confectionery"; "chocolate"] then "Food & Beverages"
  else if mem s ["clothes"; "fashion"; "boutique"; "textiles"; "fabric"; "tailor"; "baby"] then "Fashion"
  else if mem s ["shoes"; "jewelry"; "bag"; "watches"; "optician"; "leather"] then "Accessories"
  else if mem s ["electronics"; "mobile_phone"; "computer"; "robot"; "hifi"; "telecommunication"; "video_games"] then "Electronics"
  else if mem s ["furniture"; "interior_decoration"; "carpet"; "lighting"; "bed"; "kitchen"; "curtain"] then "Home & Living"
  else if mem s ["hardware"; "doityourself"; "paint"; "trade"; "building_materials"; "glaziery"; "flooring"] then "Hardware & DIY"
  else if mem s ["chemist"; "pharmacy"; "medical_supply"; "nutrition_supplements"; "hearing_aids"] then "Health"
  else if mem s ["cosmetics"; "hairdresser"; "beauty"; "salon"; "tattoo"; "perfumery"] then "Beauty"
  else if mem s ["car"; "motorcycle"; "tyres"; "bicycle"; "car_repair"; "car_parts"] then "Automotive"
  else if mem s ["books"; "stationery"; "newsagent"; "copy"; "bookmaker"] then "Books & Stationery"
  else if mem s ["gift"; "toys"; "musical_instrument"; "art"; "craft"; "photo"; "camera"; "music"] then "Gifts & Hobbies"
  else if mem s ["alcohol"; "wine"; "tobacco"; "e-cigarette"] then "Liquor & Tobacco"
  else if mem s ["department_store"; "general"; "mall"; "shopping_centre"] then "Department Stores"
  else "General Retail".

(** [tags[key]]: the tag's value, [None] for [undefined]. *)
Fixpoint tag (key : string) (tags : list (string * string)) : option string :=
  match tags with
  | [] => None
  | (k, v) :: rest => if String.eqb k key then Some v else tag key rest
  end.

(** Truthiness of a tag value: a non-empty string. *)
Definition truthy_tag (v : option string) : bool :=
  match v with
  | Some (String _ _) => true
  | _ => false
  end.

(** [a || b || ... ]: the first truthy alternative. *)
Fixpoint first_truthy (alts : list (option string)) : option string :=
  match alts with
  | [] => None
  | a :: rest => if truthy_tag a then a else first_truthy rest
  end.

Definition or_else (v : option string) (default : string) : string :=
  match v with
  | Some (String c s) => String c s
  | _ => default
  end.

Definition opt_str (v : option string) : jsval :=
  match v with
  | Some s => VStr s
  | None => VUndefined
  end.

Definition opt_num (v : option jsnum) : jsval :=
  match v with
  | Some n => VNum n
  | None => VUndefined
  end.

(** [parseInt(s)], radix 10: leading white space, an optional sign, then
    the longest run of digits; [NaN] when there is no digit.  (The
    hexadecimal prefix is not modelled: [String] of an integer has none.) *)
Definition parseInt (s : string) : jsnum :=
  let t := trim_start s in
  let '(negative, body) :=
    match t with
    | String "-" r => (true, r)
    | String "+" r => (false, r)
    | _ => (false, t)
    end in
  match fst (span_digits body) with
  | EmptyString => NaN
  | ds => let v := digits_value 0 ds in JsNum.ofZ (if negative then - v else v)
  end.

(** [x || 0] on a number. *)
Definition or_zero (x : jsnum) : jsnum := if JsNum.truthy x then x else Fin 0.

Section Transform.

(** [Math.sin] on a finite argument, as the host computes it. *)
Variable sinQ : Q -> Q.
(** [parseFloat], as the host computes it. *)
Variable parseFloat : string -> jsnum.

Definition Math_sin (x : jsnum) : jsnum :=
  match x with
  | Fin q => Fin (sinQ q)
  | _ => NaN
  end.

(** Lines 72-84: the rating the tags provide, [None] for [undefined].  The
    first key present with a truthy value decides; its value is kept when
    it parses to a number. *)
Definition parsed_rating (tags : list (string * string)) : option jsnum :=
  let keep v := let parsed := parseFloat v in
                if isNaN parsed then None else Some parsed in
  if truthy_tag (tag "stars" tags) then keep (or_else (tag "stars" tags) EmptyString)
  else if truthy_tag (tag "rating" tags) then keep (or_else (tag "rating" tags) EmptyString)
  else if truthy_tag (tag "addr:rate" tags) then keep (or_else (tag "addr:rate" tags) EmptyString)
  else None.

(** Lines 86-89. *)
Definition normalize_rating (rating : option jsnum) : option jsnum :=
  match rating with
  | Some r => if (r >? Fin 5)%js then Some (r / Fin 2)%js else Some r
  | None => None
  end.

(** Lines 93-101: the rating made up from the element's id. *)
Definition synthetic_rating (element_id : Z) : jsnum :=
  let idNum := or_zero (parseInt (digits_only (JsString.ofZ element_id))) in
  let seed := (Math_sin idNum * Fin 10000)%js in
  let rand := (seed - JsNum.floor seed)%js in
  let rating := (Fin 3.5 + rand * Fin 1.5)%js in
  (JsNum.round (rating * Fin 10) / Fin 10)%js.

Definition rating_of (element : OsmElement) : jsnum :=
  match normalize_rating (parsed_rating (el_tags element)) with
  | Some r => r
  | None => synthetic_rating (el_id element)
  end.

Definition transformToGeoFeature (element : OsmElement) : GeoFeature :=
  let isWay := String.eqb (el_type element) "way" in
  let lat := if isWay
             then match el_center element with Some c => fst c | None => None end
             else el_lat element in
  let lng := if isWay
             then match el_center element with Some c => snd c | None => None end
             else el_lon element in
  let tags := el_tags element in
  let name := or_else (first_truthy [tag "name" tags; tag "brand" tags; tag "shop" tags])
                      "Retail Store" in
  let shopType := or_else (tag "shop" tags) "store" in
  let category := getCategory shopType in
  let street := or_else (tag "addr:street" tags) EmptyString in
  let city := or_else (tag "addr:city" tags) EmptyString in
  let postcode := or_else (tag "addr:postcode" tags) EmptyString in
  let vicinity :=
    or_else (Some (join ", " (filter (fun s => negb (String.eqb s EmptyString)) [street; city; postcode])))
            "Bengaluru" in
  let rating := rating_of element in
  let userRatings :=
    (JsNum.floor (JsNum.abs (Math_sin (parseInt (JsString.ofZ (el_id element))) * Fin 500))
     + Fin 5)%js in
  let sid := JsString.ofZ (el_id element) in
  {| id := "osm-" ++ sid;
     properties :=
       [ ("id", VStr sid);
         ("geocode", VStr ("OSM-" ++ take 6 sid));
         ("name", VStr name);
         ("type", VStr "Store");
         ("description", VStr ("Retail Store (" ++ shopType ++ ")."));
         ("category", VStr category);
         ("subCategory", VStr shopType);
         ("vicinity", VStr vicinity);
         ("phone", opt_str (first_truthy [tag "phone" tags; tag "contact:phone" tags;
                                          tag "contact:mobile" tags]));
         ("website", opt_str (first_truthy [tag "website" tags; tag "contact:website" tags;
                                            tag "url" tags]));
         ("openingHours", opt_str (first_truthy [tag "opening_hours" tags]));
         ("rating", VNum rating);
         ("userRatingsTotal", VNum userRatings);
         ("isOpenNow", VUndefined);
         ("keyMarkets", VStrings [shopType; category]) ];
     geometry := Point lng lat |}.

End Transform.

(** *** Errors, the network and the event trace *)

(** A thrown value: an [Error] (or [DOMException]) with its [name] and
    [message]. *)
Record JsError : Type := mkError {
  err_name : string;
  err_message : string
}.

(** [error.message || error.toString()]: with an empty message,
    [toString()] yields the name. *)
Definition error_text (e : JsError) : string :=
  match err_message e with
  | EmptyString => err_name e
  | m => m
  end.

(** The bounding box of a query, [(south, west, north, east)].  The query
    text sent to the server is determined by these four numbers. *)
Record BBox : Type := mkBBox {
  south : jsnum;
  west : jsnum;
  north : jsnum;
  east : jsnum
}.

(** What [response.json()] gives: the parsed [data.elements] ([None] when
    the key is missing, read as [[]]), or a rejection. *)
Inductive JsonBody : Type :=
| BodyData (elements : option (list OsmElement))
| BodyInvalid (e : JsError).

(** What [await fetch(...)] gives: a response with its status, or a
    rejection (network failure, or [AbortError] after the 120 s timer). *)
Inductive FetchOutcome : Type :=
| Response (status : Z) (body : JsonBody)
| Rejected (e : JsError).

(** Observable effects, in the order they happen.  [EvCall] is a marker for
    the entry of [fetchRetailStoresBounded]; it is not an effect of the
    source and is recorded so that the recursion can be spoken about. *)
Inductive Event : Type :=
| EvCall (depth : nat) (box : BBox)
| EvFetch (box : BBox) (attempt : nat)
| EvSleep (ms : jsnum).

Inductive result (A : Type) : Type :=
| Ok (a : A)
| Throw (e : JsError).
Arguments Ok {A} a.
Arguments Throw {A} e.

Section Scanner.

Variable sinQ : Q -> Q.
Variable parseFloat : string -> jsnum.

(** The environment: the state of the outside world, the server's answer to
    a POST and the next value of [Math.random]. *)
Variable World : Type.
Variable fetch : BBox -> World -> FetchOutcome * World.
Variable random : World -> Q * World.

Record State : Type := mkState {
  world : World;
  trace : list Event
}.

(** An asynchronous computation: it runs on a state and settles, fulfilled
    or rejected. *)
Definition M (A : Type) : Type := State -> result A * State.

Definition log (ev : Event) (st : State) : State :=
  {| world := world st; trace := trace st ++ [ev] |}.

(** [await new Promise(resolve => setTimeout(resolve, ms))] *)
Definition sleep (ms : jsnum) (st : State) : State := log (EvSleep ms) st.

Definition do_fetch (box : BBox) (attempt : nat) (st : State) : FetchOutcome * State :=
  let '(out, w) := fetch box (world st) in
  (out, {| world := w; trace := trace st ++ [EvFetch box attempt] |}).

Definition do_random (st : State) : Q * State :=
  let '(r, w) := random (world st) in
  (r, {| world := w; trace := trace st |}).

(** [response.ok] *)
Definition response_ok (status : Z) : bool := (200 <=? status) && (status <=? 299).

(** Line 199: the elements that carry coordinates. *)
Definition truthy_opt (x : option jsnum) : bool :=
  match x with
  | Some n => JsNum.truthy n
  | None => false
  end.

Definition has_coordinates (el : OsmElement) : bool :=
  (truthy_opt (el_lat el) && truthy_opt (el_lon el)) ||
  match el_center el with
  | Some (clat, clon) => truthy_opt clat && truthy_opt clon
  | None => false
  end.

(** [3000 * Math.pow(2, attempt - 1) + (Math.random() * 1000)] *)
Definition backoff_delay (attempt : nat) (r : Q) : jsnum :=
  (Fin 3000 * Fin (inject_Z (2 ^ Z.of_nat (attempt - 1))) + (Fin r * Fin 1000))%js.

(** The body of [executeOverpassQuery], lines 143-213, with the recursive
    call as the parameter [self]. *)
Definition executeOverpassQuery_body
    (self : nat -> M (list GeoFeature))
    (query : BBox) (attempt : nat) : M (list GeoFeature) :=
  fun st =>
  let on_catch (err : JsError) (st' : State) :=
    if String.eqb (err_name err) "AbortError" && (attempt <=? 2)%nat
    then self (attempt + 1)%nat st'
    else (Throw err, st') in
  let '(outcome, st1) := do_fetch query attempt st in
  match outcome with
  | Rejected err => on_catch err st1
  | Response status body =>
      if negb (response_ok status) then
        if (status =? 429) && (attempt <=? 5)%nat then
          let '(r, st2) := do_random st1 in
          self (attempt + 1)%nat (sleep (backoff_delay attempt r) st2)
        else if ((status =? 504) || (status =? 502)) && (attempt <=? 2)%nat then
          self (attempt + 1)%nat (sleep (Fin 2000) st1)
        else
          on_catch (mkError "Error" ("OSM_ERROR_" ++ JsString.ofZ status)) st1
      else
        match body with
        | BodyInvalid err => on_catch err st1
        | BodyData elements =>
            let elements := match elements with Some els => els | None => [] end in
            (Ok (map (transformToGeoFeature sinQ parseFloat)
                     (filter has_coordinates elements)), st1)
        end
  end.

(** The recursion is on [attempt], which only grows and never passes 6; the
    budget counts the attempts that remain. *)
Fixpoint executeOverpassQuery_from (budget : nat) (query : BBox) (attempt : nat)
  : M (list GeoFeature) :=
  executeOverpassQuery_body
    (fun attempt' st =>
       match budget with
       | O => (Throw (mkError "RangeError" "attempt budget exceeded"), st)
       | S budget' => executeOverpassQuery_from budget' query attempt' st
       end)
    query attempt.

Definition executeOverpassQuery (query : BBox) (attempt : nat) : M (list GeoFeature) :=
  executeOverpassQuery_from (6 - attempt) query attempt.

(** Lines 294-308: the loop over the quadrants.  A fulfilled quadrant is
    appended and followed by the 200 ms pause; a rejected one is skipped. *)
Fixpoint scan_quadrants (recurse : BBox -> M (list GeoFeature))
    (quadrants : list BBox) (results : list GeoFeature) : M (list GeoFeature) :=
  fun st =>
  match quadrants with
  | [] => (Ok results, st)
  | q :: rest =>
      match recurse q st with
      | (Ok qRes, st1) =>
          scan_quadrants recurse rest (results ++ qRes) (sleep (Fin 200) st1)
      | (Throw _, st1) =>
          scan_quadrants recurse rest results st1
      end
  end.

Definition is_rate_limit (errorMsg : string) : bool :=
  includes "OSM_ERROR_429" errorMsg.

Definition is_gateway_or_timeout (errorMsg : string) : bool :=
  includes "OSM_ERROR_504" errorMsg || includes "OSM_ERROR_502" errorMsg
  || includes "timeout" errorMsg.

Definition rate_limit_error : JsError :=
  mkError "Error" "Server is too busy (Rate Limit). Please wait a few minutes and try again.".

Definition quadrants_of (box : BBox) : list BBox :=
  let midLat := ((south box + north box) / Fin 2)%js in
  let midLng := ((west box + east box) / Fin 2)%js in
  [ mkBBox (south box) (west box) midLat midLng;     (* SW *)
    mkBBox (south box) midLng midLat (east box);     (* SE *)
    mkBBox midLat (west box) (north box) midLng;     (* NW *)
    mkBBox midLat midLng (north box) (east box) ].   (* NE *)

(** The body of [fetchRetailStoresBounded], lines 246-320, with the
    recursive call as the parameter [self]. *)
Definition fetchRetailStoresBounded_body
    (self : BBox -> nat -> M (list GeoFeature))
    (box : BBox) (depth : nat) : M (list GeoFeature) :=
  fun st0 =>
  let st := log (EvCall depth box) st0 in
  match executeOverpassQuery box 1 st with
  | (Ok features, st1) => (Ok features, st1)
  | (Throw error, st1) =>
      let errorMsg := error_text error in
      if is_rate_limit errorMsg then (Throw rate_limit_error, st1)
      else if (depth <? 2)%nat && is_gateway_or_timeout errorMsg then
        scan_quadrants (fun q => self q (depth + 1)%nat) (quadrants_of box) [] st1
      else if (0 <? depth)%nat then (Ok [], st1)
      else (Throw error, st1)
  end.

(** The recursion is on [depth], which only grows and stops at 2; the
    budget counts the levels that remain. *)
Fixpoint fetchRetailStoresBounded_from (budget : nat) (box : BBox) (depth : nat)
  : M (list GeoFeature) :=
  fetchRetailStoresBounded_body
    (fun box' depth' st =>
       match budget with
       | O => (Throw (mkError "RangeError" "depth budget exceeded"), st)
       | S budget' => fetchRetailStoresBounded_from budget' box' depth' st
       end)
    box depth.

Definition fetchRetailStoresBounded (box : BBox) (depth : nat) : M (list GeoFeature) :=
  fetchRetailStoresBounded_from (2 - depth) box depth.

End Scanner.

(** *** Reading a trace *)

(** The depths of the calls of [fetchRetailStoresBounded], in order. *)
Definition call_depths (evs : list Event) : list nat :=
  flat_map (fun ev => match ev with EvCall d _ => [d] | _ => [] end) evs.

(** The boxes queried by the calls of [fetchRetailStoresBounded], in order. *)
Definition call_boxes (evs : list Event) : list BBox :=
  flat_map (fun ev => match ev with EvCall _ b => [b] | _ => [] end) evs.

Definition is_fetch (ev : Event) : bool :=
  match ev with EvFetch _ _ => true | _ => false end.

(** The number of POSTs sent. *)
Definition count_fetches (evs : list Event) : nat := List.length (filter is_fetch evs).

(** The number of calls made at a given depth. *)
Definition calls_at (depth : nat) (evs : list Event) : nat :=
  count_occ Nat.eq_dec (call_depths evs) depth.

(** The pauses taken, in order. *)
Definition sleeps (evs : list Event) : list jsnum :=
  flat_map (fun ev => match ev with EvSleep ms => [ms] | _ => [] end) evs.

(** What one quadrant adds to the scan of its parent (lines 296-307): its
    features and the 200 ms pause when it is fulfilled, nothing when it is
    rejected. *)
Definition quadrant_contribution {World : Type}
    (recurse : BBox -> State World -> result (list GeoFeature) * State World)
    (q : BBox) (st : State World) : list GeoFeature * State World :=
  match recurse q st with
  | (Ok qRes, st1) => (qRes, sleep (Fin 200) st1)
  | (Throw _, st1) => ([], st1)
  end.

(** The events of a query that is answered 429 on each of its six
    attempts: a POST and a back-off pause five times, then the last POST. *)
Fixpoint rate_limited_events (box : BBox) (attempt : nat) (jitters : list Q)
  : list Event :=
  match jitters with
  | [] => [EvFetch box attempt]
  | j :: rest =>
      EvFetch box attempt
      :: EvSleep (Fin (3000 * inject_Z (2 ^ Z.of_nat (attempt - 1)) + j))
      :: rate_limited_events box (S attempt) rest
  end.

(** The error of a 429 that outlived its retries. *)
Definition error_429 : JsError := mkError "Error" "OSM_ERROR_429".

(** The number of calls in a full quadrant recursion of the given height:
    1 + 4 + ... + 4^height. *)
Fixpoint tree_size (height : nat) : nat :=
  match height with
  | O => 1
  | S h => 1 + 4 * tree_size h
  end.

(** The events of one query: no call of the scanner, at most [n] POSTs. *)
Definition query_events (n : nat) (evs : list Event) : Prop :=
  call_depths evs = [] /\ (count_fetches evs <= n)%nat.

(** The events of a scan whose calls lie at depths [lo..hi], with at most
    [leaves] calls at depth [hi], at most [calls] calls in all and at most
    six POSTs per call. *)
Definition scan_events (lo hi leaves calls : nat) (evs : list Event) : Prop :=
  Forall (fun d => lo <= d <= hi)%nat (call_depths evs) /\
  (calls_at hi evs <= leaves)%nat /\
  (List.length (call_depths evs) <= calls)%nat /\
  (count_fetches evs <= 6 * List.length (call_depths evs))%nat.

(** *** Endpoints used in the scenarios *)

Definition bbox_eqb (a b : BBox) : bool :=
  JsNum.eqb (south a) (south b) && JsNum.eqb (west a) (west b) &&
  JsNum.eqb (north a) (north b) && JsNum.eqb (east a) (east b).

(** The box of the concrete scenario. *)
Definition scenario_box : BBox :=
  mkBBox (Fin 12.90) (Fin 77.55) (Fin 13.00) (Fin 77.65).

(** A shop node at the south-west corner of a box. *)
Definition node_in (box : BBox) (node_id : Z) : OsmElement :=
  {| el_type := "node"; el_id := node_id;
     el_lat := Some (south box); el_lon := Some (west box);
     el_center := None;
     el_tags := [("shop", "bakery")] |}.

(** The position of a box in a list of boxes. *)
Fixpoint box_index (box : BBox) (boxes : list BBox) : option Z :=
  match boxes with
  | [] => None
  | b :: rest =>
      if bbox_eqb box b then Some 0
      else match box_index box rest with
           | Some k => Some (k + 1)
           | None => None
           end
  end.

(** The mocked endpoint of the scenario: 504 for the full box, 200 with three
    nodes for each of its four quadrants, 500 for any other box. *)
Definition scenario_fetch (box : BBox) (w : unit) : FetchOutcome * unit :=
  if bbox_eqb box scenario_box then (Response 504 (BodyData None), w)
  else match box_index box (quadrants_of scenario_box) with
       | Some k =>
           (Response 200
              (BodyData (Some [node_in box (10 * k + 1); node_in box (10 * k + 2);
                               node_in box (10 * k + 3)])), w)
       | None => (Response 500 (BodyData None), w)
       end.

(** Endpoints that give every box the same status, and a [Math.random]
    that always draws one half. *)
Definition always_status (status : Z) (box : BBox) (w : unit) : FetchOutcome * unit :=
  (Response status (BodyData None), w).

Definition random_half (w : unit) : Q * unit := (1 # 2, w).

(** The rejection of a [fetch] whose controller was aborted by the 120 s
    timer of line 154: a [DOMException] named [AbortError].  The message is
    the host's (this is the wording of Chromium); no host words it with
    [timeout]. *)
Definition abort_error : JsError :=
  mkError "AbortError" "signal is aborted without reason".

(** An endpoint that never answers in time: every [fetch] is aborted by the
    timer. *)
Definition never_answers (box : BBox) (w : unit) : FetchOutcome * unit :=
  (Rejected abort_error, w).

(** A stand-in for [Math.sin] in the examples. *)
Definition sin_zero (x : Q) : Q := 0.

Definition initial_state : State unit := {| world := tt; trace := [] |}.

(** *** Ratings: what the tags provide *)

Definition rating_keys : list string := ["stars"; "rating"; "addr:rate"].

(** The value of the first rating key that is present and not empty. *)
Definition first_present_rating (tags : list (string * string)) : option string :=
  first_truthy [tag "stars" tags; tag "rating" tags; tag "addr:rate" tags].

(** The tags provide the parseable numeric rating [v] under one of the
    rating keys. *)
Definition provides_rating (parseFloat : string -> jsnum)
    (element : OsmElement) (v : jsnum) : Prop :=
  exists key s,
    In key rating_keys /\ tag key (el_tags element) = Some s /\
    parseFloat s = v /\ isNaN v = false.

(** The rating a provided value [v] stands for. *)
Definition rating_from (v : jsnum) : jsnum :=
  if (v >? Fin 5)%js then (v / Fin 2)%js else v.

(** The statement that an element with a parseable rating under one of the
    keys gets its rating from such a value, and not from the fallback. *)
Definition rating_taken_from_tags (sinQ : Q -> Q) (parseFloat : string -> jsnum)
    (element : OsmElement) : Prop :=
  (exists v, provides_rating parseFloat element v) ->
  exists v, provides_rating parseFloat element v /\
            get "rating" (properties (transformToGeoFeature sinQ parseFloat element))
            = VNum (rating_from v).

(** A node whose [stars] tag does not parse while its [rating] tag does. *)
Definition unparseable_stars_node : OsmElement :=
  {| el_type := "node"; el_id := 1;
     el_lat := Some (Fin 12.95); el_lon := Some (Fin 77.60);
     el_center := None;
     el_tags := [("shop", "bakery"); ("stars", "N/A"); ("rating", "2")] |}.

(** A node rated 8 on a scale of 10. *)
Definition eight_stars_node : OsmElement :=
  {| el_type := "node"; el_id := 2;
     el_lat := Some (Fin 12.95); el_lon := Some (Fin 77.60);
     el_center := None;
     el_tags := [("shop", "bakery"); ("stars", "8")] |}.

(** *** Stores whose identifiers share their first six digits *)

Definition node_1234567890 : OsmElement :=
  {| el_type := "node"; el_id := 1234567890;
     el_lat := Some (Fin 12.95); el_lon := Some (Fin 77.60);
     el_center := None; el_tags := [("shop", "bakery")] |}.

Definition node_1234567891 : OsmElement :=
  {| el_type := "node"; el_id := 1234567891;
     el_lat := Some (Fin 12.96); el_lon := Some (Fin 77.61);
     el_center := None; el_tags := [("shop", "books")] |}.

(** A way that carries the same number as the first node: node and way
    identifiers are separate number spaces in OSM. *)
Definition way_1234567890 : OsmElement :=
  {| el_type := "way"; el_id := 1234567890;
     el_lat := None; el_lon := None;
     el_center := Some (Some (Fin 12.97), Some (Fin 77.62));
     el_tags := [("shop", "mall")] |}.

(** An endpoint that answers every box with these three elements. *)
Definition three_shops_fetch (box : BBox) (w : unit) : FetchOutcome * unit :=
  (Response 200 (BodyData (Some [node_1234567890; node_1234567891; way_1234567890])), w).

(** The stores collection after scanning the scenario box there. *)
Definition scanned_three_shops : list GeoFeature :=
  match fst (fetchRetailStoresBounded sin_zero parseFloat_decimal three_shops_fetch
               random_half scenario_box 0 initial_state) with
  | Ok features => features
  | Throw _ => []
  end.

End Osm.

(* ================================================================== *)
(** ** Uniqueness of geocodes and ids *)
(* ================================================================== *)

(** Within each collection the geocodes are pairwise distinct, and across
    all collections the feature ids are pairwise distinct. *)
Definition uniqueness_invariant (collections : list (list GeoFeature)) : Prop :=
  Forall (fun c => NoDup (map geocode_of c)) collections /\
  NoDup (map id (List.concat collections)).

(* ================================================================== *)
(** ** The generated datasets ([src/unnamed/part_003]) *)
(* ================================================================== *)

Module GeoData.

(** *** Geometric helpers *)

(** Lines 7-15.  A ring is an array of two-element arrays by its type, which
    leaves the length test and the [NaN] tests. *)
Definition isValidRing (r : ring) : bool :=
  if (List.length r <? 3)%nat then false
  else forallb (fun p => negb (isNaN (fst p)) && negb (isNaN (snd p))) r.

(** Lines 21-27: the loop over the edges [(vs[j], vs[i])], [j] trailing [i].
    The abscissa of a crossing is an exact quotient here and a rounded one
    in the source; what is stated of the test rests on the comparisons of
    the ordinates, or on crossings that binary64 computes exactly. *)
Fixpoint ray_cast (x y : jsnum) (vj : point) (vs : list point) (inside : bool) : bool :=
  match vs with
  | [] => inside
  | vi :: rest =>
      let '(xi, yi) := vi in
      let '(xj, yj) := vj in
      let intersect :=
        negb (Bool.eqb (yi >? y)%js (yj >? y)%js)
        && (x <? (xj - xi) * (y - yi) / (yj - yi) + xi)%js in
      ray_cast x y vi rest (if intersect then negb inside else inside)
  end.

(** Lines 18-29. *)
Definition isPointInPolygon (p : point) (vs : list point) : bool :=
  match vs with
  | [] => false
  | v0 :: _ => ray_cast (fst p) (snd p) (last vs v0) vs false
  end.

Record Landmark : Type := mkLandmark {
  lm_lat : jsnum;
  lm_lng : jsnum;
  lm_name : string
}.

Definition LOC_CITY : Landmark := mkLandmark (Fin 12.9716) (Fin 77.5946) "Bengaluru City".
Definition LOC_AIRPORT : Landmark :=
  mkLandmark (Fin 13.1986) (Fin 77.7066) "Kempegowda Int. (KIA)".

Record TalukMeta : Type := mkTaluk {
  t_name : string;
  t_district : string;
  t_coords : ring;
  t_population : jsnum;
  t_literacyRate : jsnum;
  t_center : jsnum * jsnum;            (* [lat, lng] *)
  t_crops : option (list string);
  t_keyMarkets : option (list string)
}.

Record PincodeDef : Type := mkPincode {
  p_code : string;
  p_lat : jsnum;
  p_lng : jsnum;
  p_areaName : string;
  p_district : string;
  p_markets : option (list string)
}.

(** *** The tables of the source; coordinates are [[lng, lat]] *)

Definition J_Nelamangala_Doddaballapur_BlrNorth : point := (Fin 77.42, Fin 13.18).
Definition J_Doddaballapur_Devanahalli_BlrNorth : point := (Fin 77.61, Fin 13.21).
Definition J_Devanahalli_Hoskote_BlrEast : point := (Fin 77.74, Fin 13.08).
Definition J_BlrNorth_BlrEast_BlrSouth : point := (Fin 77.61, Fin 12.97).
Definition J_BlrSouth_BlrEast_Anekal : point := (Fin 77.66, Fin 12.87).
Definition J_BlrSouth_Anekal_West : point := (Fin 77.53, Fin 12.82).

Definition COORDS_NELAMANGALA : ring :=
  [ J_Nelamangala_Doddaballapur_BlrNorth;
    (Fin 77.45, Fin 13.10);
    (Fin 77.48, Fin 13.02);
    (Fin 77.42, Fin 12.96);
    (Fin 77.35, Fin 12.98);
    (Fin 77.25, Fin 13.05);
    (Fin 77.22, Fin 13.15);
    (Fin 77.28, Fin 13.25);
    (Fin 77.35, Fin 13.22);
    J_Nelamangala_Doddaballapur_BlrNorth ].

Definition COORDS_DODDABALLAPUR : ring :=
  [ J_Nelamangala_Doddaballapur_BlrNorth;
    (Fin 77.38, Fin 13.25);
    (Fin 77.35, Fin 13.35);
    (Fin 77.40, Fin 13.45);
    (Fin 77.45, Fin 13.55);
    (Fin 77.55, Fin 13.52);
    (Fin 77.65, Fin 13.48);
    (Fin 77.62, Fin 13.35);
    J_Doddaballapur_Devanahalli_BlrNorth;
    (Fin 77.52, Fin 13.20);
    J_Nelamangala_Doddaballapur_BlrNorth ].

Definition COORDS_DEVANAHALLI : ring :=
  [ J_Doddaballapur_Devanahalli_BlrNorth;
    (Fin 77.62, Fin 13.35);
    (Fin 77.68, Fin 13.42);
    (Fin 77.78, Fin 13.40);
    (Fin 77.85, Fin 13.30);
    (Fin 77.82, Fin 13.20);
    (Fin 77.78, Fin 13.15);
    J_Devanahalli_Hoskote_BlrEast;
    (Fin 77.68, Fin 13.15);
    J_Doddaballapur_Devanahalli_BlrNorth ].

Definition COORDS_HOSKOTE : ring :=
  [ J_Devanahalli_Hoskote_BlrEast;
    (Fin 77.78, Fin 13.15);
    (Fin 77.88, Fin 13.12);
    (Fin 77.92, Fin 13.00);
    (Fin 77.88, Fin 12.90);
    (Fin 77.80, Fin 12.92);
    (Fin 77.75, Fin 12.95);
    J_Devanahalli_Hoskote_BlrEast ].

Definition COORDS_BLR_NORTH : ring :=
  [ J_Nelamangala_Doddaballapur_BlrNorth;
    (Fin 77.52, Fin 13.20);
    J_Doddaballapur_Devanahalli_BlrNorth;
    (Fin 77.68, Fin 13.15);
    J_Devanahalli_Hoskote_BlrEast;
    (Fin 77.70, Fin 13.05);
    (Fin 77.65, Fin 13.00);
    J_BlrNorth_BlrEast_BlrSouth;
    (Fin 77.55, Fin 12.98);
    (Fin 77.50, Fin 13.00);
    (Fin 77.48, Fin 13.02);
    (Fin 77.45, Fin 13.10);
    J_Nelamangala_Doddaballapur_BlrNorth ].

Definition COORDS_BLR_EAST : ring :=
  [ J_BlrNorth_BlrEast_BlrSouth;
    (Fin 77.65, Fin 13.00);
    (Fin 77.70, Fin 13.05);
    J_Devanahalli_Hoskote_BlrEast;
    (Fin 77.75, Fin 12.95);
    (Fin 77.80, Fin 12.92);
    (Fin 77.75, Fin 12.88);
    J_BlrSouth_BlrEast_Anekal;
    (Fin 77.65, Fin 12.92);
    J_BlrNorth_BlrEast_BlrSouth ].

Definition COORDS_BLR_SOUTH : ring :=
  [ J_BlrNorth_BlrEast_BlrSouth;
    (Fin 77.65, Fin 12.92);
    J_BlrSouth_BlrEast_Anekal;
    (Fin 77.60, Fin 12.85);
    J_BlrSouth_Anekal_West;
    (Fin 77.48, Fin 12.88);
    (Fin 77.48, Fin 12.95);
    (Fin 77.55, Fin 12.98);
    J_BlrNorth_BlrEast_BlrSouth ].

Definition COORDS_ANEKAL : ring :=
  [ J_BlrSouth_Anekal_West;
    (Fin 77.60, Fin 12.85);
    J_BlrSouth_BlrEast_Anekal;
    (Fin 77.75, Fin 12.88);
    (Fin 77.82, Fin 12.80);
    (Fin 77.78, Fin 12.70);
    (Fin 77.70, Fin 12.65);
    (Fin 77.60, Fin 12.68);
    (Fin 77.52, Fin 12.75);
    J_BlrSouth_Anekal_West ].

Definition RAILWAY_STATIONS : list Landmark :=
  [ mkLandmark (Fin 12.9781) (Fin 77.5697) "KSR Bengaluru City Junction (SBC)";
    mkLandmark (Fin 13.0238) (Fin 77.5529) "Yesvantpur Junction (YPR)";
    mkLandmark (Fin 12.9904) (Fin 77.6526) "Sir M. Visvesvaraya Terminal, Bengaluru (SMVT)";
    mkLandmark (Fin 13.0005) (Fin 77.6753) "Krishnarajapuram Railway Station (KJM)";
    mkLandmark (Fin 12.9936) (Fin 77.5980) "Bengaluru Cantonment Railway Station (BNC)";
    mkLandmark (Fin 13.1017) (Fin 77.5962) "Yelahanka Junction (YNK)";
    mkLandmark (Fin 12.9908) (Fin 77.7286) "Whitefield Railway Station (WFD)";
    mkLandmark (Fin 13.0163) (Fin 77.6433) "Banaswadi Railway Station (BAND)";
    mkLandmark (Fin 12.9060) (Fin 77.4880) "Kengeri Railway Station (KGI)";
    mkLandmark (Fin 12.9079) (Fin 77.6970) "Carmelaram Railway Station (CRLM)" ].

Definition talukDataRaw : list TalukMeta :=
  [ {| t_name := "Doddaballapur"; t_district := "Bengaluru Rural"; t_coords := COORDS_DODDABALLAPUR;
       t_population := Fin 297587; t_literacyRate := Fin 78.2;
       t_center := (Fin 13.40, Fin 77.55);
       t_crops := Some ["Ragi"; "Maize"; "Silk"];
       t_keyMarkets := Some ["Apparel Park"; "Weaving"] |};
    {| t_name := "Devanahalli"; t_district := "Bengaluru Rural"; t_coords := COORDS_DEVANAHALLI;
       t_population := Fin 209622; t_literacyRate := Fin 84.5;
       t_center := (Fin 13.25, Fin 77.75);
       t_crops := Some ["Grapes"; "Vegetables"; "Flowers"];
       t_keyMarkets := Some ["Aerospace"; "Logistics"] |};
    {| t_name := "Nelamangala"; t_district := "Bengaluru Rural"; t_coords := COORDS_NELAMANGALA;
       t_population := Fin 232145; t_literacyRate := Fin 76.8;
       t_center := (Fin 13.10, Fin 77.30);
       t_crops := Some ["Ragi"; "Arecanut"; "Coconut"];
       t_keyMarkets := Some ["Industrial"; "Warehousing"] |};
    {| t_name := "Hoskote"; t_district := "Bengaluru Rural"; t_coords := COORDS_HOSKOTE;
       t_population := Fin 270818; t_literacyRate := Fin 81.3;
       t_center := (Fin 13.05, Fin 77.85);
       t_crops := Some ["Vegetables"; "Flowers"; "Tomato"];
       t_keyMarkets := Some ["Auto Components"; "Logistics"] |};
    {| t_name := "Bengaluru North"; t_district := "Bengaluru Urban"; t_coords := COORDS_BLR_NORTH;
       t_population := Fin 1200000; t_literacyRate := Fin 88.5;
       t_center := (Fin 13.08, Fin 77.55);
       t_crops := None;
       t_keyMarkets := Some ["Peenya Industrial"; "Research Inst."; "Aerospace"] |};
    {| t_name := "Bengaluru East"; t_district := "Bengaluru Urban"; t_coords := COORDS_BLR_EAST;
       t_population := Fin 1100000; t_literacyRate := Fin 89.2;
       t_center := (Fin 13.00, Fin 77.75);
       t_crops := None;
       t_keyMarkets := Some ["IT/BT"; "Whitefield Cluster"; "Tech Parks"] |};
    {| t_name := "Bengaluru South"; t_district := "Bengaluru Urban"; t_coords := COORDS_BLR_SOUTH;
       t_population := Fin 1500000; t_literacyRate := Fin 90.1;
       t_center := (Fin 12.92, Fin 77.58);
       t_crops := None;
       t_keyMarkets := Some ["Software"; "Education Hub"; "Heavy Engg"] |};
    {| t_name := "Anekal"; t_district := "Bengaluru Urban"; t_coords := COORDS_ANEKAL;
       t_population := Fin 600000; t_literacyRate := Fin 82.4;
       t_center := (Fin 12.75, Fin 77.65);
       t_crops := Some ["Ragi"; "Floriculture"];
       t_keyMarkets := Some ["Electronic City"; "Textiles"] |} ].

Definition REAL_VILLAGE_NAMES : list (string * list string) :=
  [ ("Devanahalli",
     ["Avati"; "Bidalur"; "Kundana"; "Vijayapura"; "Channarayapatna"; "Kannamangala"; "Koira"; "Sathanur"; "Yeliyur"; "Venkatagirikote"; "Sadahalli"; "Devanahalli Town"]);
    ("Doddaballapur",
     ["Tubagere"; "Sasalu"; "Madhure"; "Doddabelavangala"; "Melekote"; "Raghunathapura"; "Konaghatta"; "Heggadihalli"; "Aroodi"; "Kadur"; "Doddaballapur Ind. Area"]);
    ("Hoskote",
     ["Anugondanahalli"; "Jadigenahalli"; "Nandagudi"; "Sulibele"; "Mugabal"; "Kalkunte"; "Doddagattiganabbe"; "Vagata"; "Muthasandra"; "Hoskote Town"; "Thavarekere"]);
    ("Nelamangala",
     ["Sompura"; "T. Begur"; "Kulumepalya"; "Dabaspet"; "Thyamagondlu"; "Baraguru"; "Manne"; "Nidavanda"; "Mahadevapura"; "Nelamangala Town"; "Arishinakunte"]);
    ("Anekal",
     ["Sarjapura"; "Attibele"; "Jigani"; "Marsur"; "Mugalur"; "Dommasandra"; "Neriga"; "Chandapura"; "Mayasandra"; "Indlavadi"; "Anekal Town"; "Hebbagodi"]);
    ("Bengaluru North",
     ["Hesaraghatta"; "Gopalapura"; "Singanayakanahalli"; "Bagalur"; "Kadalagere"; "Chikkabanavara"; "Srigandhada Kaval"; "Yelahanka New Town"; "Jakkur"; "Thanisandra"]);
    ("Bengaluru East",
     ["Varthur"; "Gunjur"; "Sorahunase"; "Immadihalli"; "Mullur"; "Panathur"; "Balagere"; "Hoodi"; "Kadugodi"; "Bellandur"]);
    ("Bengaluru South",
     ["Kengeri"; "Begur"; "Hulimavu"; "Gottigere"; "Tataguni"; "Agara"; "Uttarahalli"; "Konanakunte"; "Anjanapura"; "Vasanthapura"]) ].

Definition REAL_VILLAGE_LOCATIONS : list (string * (jsnum * jsnum)) :=
  [ ("Avati", (Fin 13.303, Fin 77.726));
    ("Bidalur", (Fin 13.218, Fin 77.693));
    ("Kundana", (Fin 13.208, Fin 77.636));
    ("Vijayapura", (Fin 13.293, Fin 77.801));
    ("Channarayapatna", (Fin 13.220, Fin 77.750));
    ("Kannamangala", (Fin 13.180, Fin 77.730));
    ("Koira", (Fin 13.220, Fin 77.660));
    ("Sathanur", (Fin 13.140, Fin 77.650));
    ("Yeliyur", (Fin 13.190, Fin 77.720));
    ("Venkatagirikote", (Fin 13.240, Fin 77.710));
    ("Sadahalli", (Fin 13.190, Fin 77.680));
    ("Devanahalli Town", (Fin 13.248, Fin 77.713));
    ("Tubagere", (Fin 13.350, Fin 77.450));
    ("Sasalu", (Fin 13.260, Fin 77.450));
    ("Madhure", (Fin 13.220, Fin 77.440));
    ("Doddabelavangala", (Fin 13.380, Fin 77.380));
    ("Melekote", (Fin 13.320, Fin 77.510));
    ("Raghunathapura", (Fin 13.280, Fin 77.520));
    ("Konaghatta", (Fin 13.310, Fin 77.540));
    ("Heggadihalli", (Fin 13.380, Fin 77.480));
    ("Aroodi", (Fin 13.400, Fin 77.420));
    ("Kadur", (Fin 13.300, Fin 77.400));
    ("Doddaballapur Ind. Area", (Fin 13.280, Fin 77.530));
    ("Anugondanahalli", (Fin 13.010, Fin 77.820));
    ("Jadigenahalli", (Fin 13.060, Fin 77.850));
    ("Nandagudi", (Fin 13.150, Fin 77.880));
    ("Sulibele", (Fin 13.120, Fin 77.810));
    ("Mugabal", (Fin 13.040, Fin 77.860));
    ("Kalkunte", (Fin 13.080, Fin 77.750));
    ("Doddagattiganabbe", (Fin 13.060, Fin 77.800));
    ("Vagata", (Fin 13.110, Fin 77.860));
    ("Muthasandra", (Fin 13.020, Fin 77.790));
    ("Hoskote Town", (Fin 13.070, Fin 77.795));
    ("Thavarekere", (Fin 13.000, Fin 77.820));
    ("Sompura", (Fin 13.240, Fin 77.230));
    ("T. Begur", (Fin 13.150, Fin 77.300));
    ("Kulumepalya", (Fin 13.120, Fin 77.350));
    ("Dabaspet", (Fin 13.240, Fin 77.240));
    ("Thyamagondlu", (Fin 13.200, Fin 77.280));
    ("Baraguru", (Fin 13.180, Fin 77.250));
    ("Manne", (Fin 13.220, Fin 77.320));
    ("Nidavanda", (Fin 13.260, Fin 77.220));
    ("Mahadevapura", (Fin 13.120, Fin 77.380));
    ("Nelamangala Town", (Fin 13.095, Fin 77.390));
    ("Arishinakunte", (Fin 13.130, Fin 77.420));
    ("Sarjapura", (Fin 12.860, Fin 77.780));
    ("Attibele", (Fin 12.780, Fin 77.770));
    ("Jigani", (Fin 12.780, Fin 77.640));
    ("Marsur", (Fin 12.800, Fin 77.700));
    ("Mugalur", (Fin 12.880, Fin 77.750));
    ("Dommasandra", (Fin 12.890, Fin 77.750));
    ("Neriga", (Fin 12.920, Fin 77.760));
    ("Chandapura", (Fin 12.800, Fin 77.700));
    ("Mayasandra", (Fin 12.750, Fin 77.720));
    ("Indlavadi", (Fin 12.740, Fin 77.680));
    ("Anekal Town", (Fin 12.710, Fin 77.690));
    ("Hebbagodi", (Fin 12.840, Fin 77.670));
    ("Hesaraghatta", (Fin 13.140, Fin 77.480));
    ("Gopalapura", (Fin 13.160, Fin 77.460));
    ("Singanayakanahalli", (Fin 13.120, Fin 77.560));
    ("Bagalur", (Fin 13.140, Fin 77.640));
    ("Kadalagere", (Fin 13.170, Fin 77.600));
    ("Chikkabanavara", (Fin 13.070, Fin 77.510));
    ("Srigandhada Kaval", (Fin 12.990, Fin 77.500));
    ("Yelahanka New Town", (Fin 13.100, Fin 77.580));
    ("Jakkur", (Fin 13.070, Fin 77.600));
    ("Thanisandra", (Fin 13.050, Fin 77.630));
    ("Varthur", (Fin 12.940, Fin 77.740));
    ("Gunjur", (Fin 12.920, Fin 77.740));
    ("Sorahunase", (Fin 12.950, Fin 77.750));
    ("Immadihalli", (Fin 12.960, Fin 77.760));
    ("Mullur", (Fin 12.910, Fin 77.730));
    ("Panathur", (Fin 12.930, Fin 77.700));
    ("Balagere", (Fin 12.940, Fin 77.720));
    ("Hoodi", (Fin 12.990, Fin 77.710));
    ("Kadugodi", (Fin 12.995, Fin 77.760));
    ("Bellandur", (Fin 12.930, Fin 77.670));
    ("Kengeri", (Fin 12.910, Fin 77.480));
    ("Begur", (Fin 12.880, Fin 77.630));
    ("Hulimavu", (Fin 12.870, Fin 77.600));
    ("Gottigere", (Fin 12.860, Fin 77.580));
    ("Tataguni", (Fin 12.850, Fin 77.520));
    ("Agara", (Fin 12.920, Fin 77.640));
    ("Uttarahalli", (Fin 12.900, Fin 77.540));
    ("Konanakunte", (Fin 12.890, Fin 77.570));
    ("Anjanapura", (Fin 12.860, Fin 77.560));
    ("Vasanthapura", (Fin 12.890, Fin 77.540)) ].

Definition REAL_PINCODES : list PincodeDef :=
  [ mkPincode "560001" (Fin 12.975) (Fin 77.605) "M.G. Road"
      "Bengaluru Urban" (Some ["High St Retail"; "Corporate HQs"]);
    mkPincode "560002" (Fin 12.965) (Fin 77.580) "City Market"
      "Bengaluru Urban" (Some ["Wholesale Flowers"; "Vegetable Market"; "Hardware"]);
    mkPincode "560003" (Fin 13.000) (Fin 77.570) "Malleswaram"
      "Bengaluru Urban" (Some ["Silk Sarees"; "Flower Market"; "Street Food"]);
    mkPincode "560004" (Fin 12.940) (Fin 77.575) "Basavanagudi"
      "Bengaluru Urban" (Some ["Spices"; "Traditional Textiles"; "Religious Goods"]);
    mkPincode "560005" (Fin 13.005) (Fin 77.610) "Fraser Town"
      "Bengaluru Urban" (Some ["Food"; "Bakery"]);
    mkPincode "560009" (Fin 12.980) (Fin 77.575) "Gandhinagar"
      "Bengaluru Urban" (Some ["Cinema"; "Wholesale"]);
    mkPincode "560020" (Fin 12.990) (Fin 77.575) "Seshadripuram"
      "Bengaluru Urban" (Some ["Book Stores"; "Coaching Centers"]);
    mkPincode "560025" (Fin 12.965) (Fin 77.600) "Richmond Town"
      "Bengaluru Urban" (Some ["Furniture"; "Lifestyle Boutiques"]);
    mkPincode "560027" (Fin 12.960) (Fin 77.590) "Wilson Garden"
      "Bengaluru Urban" (Some ["Offices"]);
    mkPincode "560046" (Fin 13.000) (Fin 77.600) "Benson Town"
      "Bengaluru Urban" (Some ["Residential"]);
    mkPincode "560053" (Fin 12.970) (Fin 77.580) "Cottonpet"
      "Bengaluru Urban" (Some ["Wholesale Textiles"]);
    mkPincode "560006" (Fin 13.015) (Fin 77.590) "J.C. Nagar"
      "Bengaluru Urban" (Some ["Automobile Spares"; "Furniture"]);
    mkPincode "560012" (Fin 13.030) (Fin 77.550) "IISC"
      "Bengaluru Urban" (Some ["Education"]);
    mkPincode "560013" (Fin 13.050) (Fin 77.540) "Jalahalli"
      "Bengaluru Urban" (Some ["BEL"; "Industry"]);
    mkPincode "560015" (Fin 13.070) (Fin 77.530) "Gangamma Circle"
      "Bengaluru Urban" (Some ["Residential"]);
    mkPincode "560022" (Fin 13.020) (Fin 77.540) "Yeshwanthpur"
      "Bengaluru Urban" (Some ["APMC Yard"; "Wholesale Grains"; "Transport"]);
    mkPincode "560024" (Fin 13.045) (Fin 77.590) "Hebbal"
      "Bengaluru Urban" (Some ["Tech Parks"; "Real Estate"]);
    mkPincode "560032" (Fin 13.030) (Fin 77.595) "R.T. Nagar"
      "Bengaluru Urban" (Some ["Retail"; "Residential"]);
    mkPincode "560054" (Fin 13.040) (Fin 77.550) "Mathikere"
      "Bengaluru Urban" (Some ["Student Services"; "Retail"]);
    mkPincode "560057" (Fin 13.040) (Fin 77.510) "Dasarahalli"
      "Bengaluru Urban" (Some ["Peenya Ind. Estate"; "Manufacturing"]);
    mkPincode "560058" (Fin 13.030) (Fin 77.500) "Peenya"
      "Bengaluru Urban" (Some ["Heavy Industries"]);
    mkPincode "560064" (Fin 13.100) (Fin 77.590) "Yelahanka"
      "Bengaluru Urban" (Some ["Aerospace"; "Ceramics"; "Defence"]);
    mkPincode "560092" (Fin 13.065) (Fin 77.595) "Sahakara Nagar"
      "Bengaluru Urban" (Some ["Residential"; "Retail"]);
    mkPincode "560094" (Fin 13.030) (Fin 77.570) "Sanjay Nagar"
      "Bengaluru Urban" (Some ["Residential"; "Institutes"]);
    mkPincode "560097" (Fin 13.080) (Fin 77.560) "Vidyaranyapura"
      "Bengaluru Urban" (Some ["Residential"; "Schools"]);
    mkPincode "560063" (Fin 13.060) (Fin 77.540) "Jalahalli West"
      "Bengaluru Urban" (Some ["Air Force"; "Electronics"]);
    mkPincode "560090" (Fin 13.060) (Fin 77.520) "Chikkabanavara"
      "Bengaluru Urban" (Some ["Railway Hub"]);
    mkPincode "560008" (Fin 12.975) (Fin 77.625) "Ulsoor"
      "Bengaluru Urban" (Some ["Jewellery"; "Boutiques"]);
    mkPincode "560016" (Fin 13.000) (Fin 77.660) "Ramamurthy Nagar"
      "Bengaluru Urban" (Some ["Residential"]);
    mkPincode "560017" (Fin 12.955) (Fin 77.655) "Old Airport Rd"
      "Bengaluru Urban" (Some ["Aerospace"; "Hotels"]);
    mkPincode "560033" (Fin 13.000) (Fin 77.630) "Maruthi Sevanagar"
      "Bengaluru Urban" (Some ["Residential"]);
    mkPincode "560036" (Fin 13.010) (Fin 77.690) "Krishnarajapuram"
      "Bengaluru Urban" (Some ["Railway"; "Market"]);
    mkPincode "560037" (Fin 12.955) (Fin 77.700) "Marathahalli"
      "Bengaluru Urban" (Some ["Electronics"; "Factory Outlets"]);
    mkPincode "560038" (Fin 12.975) (Fin 77.640) "Indiranagar"
      "Bengaluru Urban" (Some ["F&B"; "Fashion"; "Startups"]);
    mkPincode "560043" (Fin 13.020) (Fin 77.650) "Kalyan Nagar"
      "Bengaluru Urban" (Some ["Retail"; "Dining"]);
    mkPincode "560045" (Fin 13.030) (Fin 77.610) "Nagawara"
      "Bengaluru Urban" (Some ["Tech Park"]);
    mkPincode "560048" (Fin 12.990) (Fin 77.690) "Mahadevapura"
      "Bengaluru Urban" (Some ["Tech Parks"; "Corporate"]);
    mkPincode "560049" (Fin 13.020) (Fin 77.720) "Virgonagar"
      "Bengaluru Urban" (Some ["Industrial"]);
    mkPincode "560066" (Fin 12.970) (Fin 77.750) "Whitefield"
      "Bengaluru Urban" (Some ["IT Services"; "Malls"; "Intl Schools"]);
    mkPincode "560067" (Fin 13.000) (Fin 77.760) "Kadugodi"
      "Bengaluru Urban" (Some ["Logistics"; "Warehousing"]);
    mkPincode "560071" (Fin 12.950) (Fin 77.630) "Domlur"
      "Bengaluru Urban" (Some ["IT"; "Offices"]);
    mkPincode "560077" (Fin 13.050) (Fin 77.630) "Kothanur"
      "Bengaluru Urban" (Some ["Residential"]);
    mkPincode "560093" (Fin 12.980) (Fin 77.660) "C.V. Raman Nagar"
      "Bengaluru Urban" (Some ["DRDO"; "Tech"]);
    mkPincode "560105" (Fin 13.000) (Fin 77.780) "Seegehalli"
      "Bengaluru Urban" (Some ["Residential"]);
    mkPincode "560011" (Fin 12.930) (Fin 77.585) "Jayanagar"
      "Bengaluru Urban" (Some ["Shopping Complex"; "Retail"; "Jewellery"]);
    mkPincode "560019" (Fin 12.940) (Fin 77.560) "Hanumanthnagar"
      "Bengaluru Urban" (Some ["Residential"]);
    mkPincode "560028" (Fin 12.910) (Fin 77.570) "Thyagarajanagar"
      "Bengaluru Urban" (Some ["Residential"]);
    mkPincode "560029" (Fin 12.920) (Fin 77.600) "BTM 1st Stage"
      "Bengaluru Urban" (Some ["Residential"]);
    mkPincode "560030" (Fin 12.930) (Fin 77.610) "Adugodi"
      "Bengaluru Urban" (Some ["Tech"; "Police"]);
    mkPincode "560034" (Fin 12.930) (Fin 77.625) "Koramangala"
      "Bengaluru Urban" (Some ["Startups"; "F&B"; "Lifestyle"]);
    mkPincode "560035" (Fin 12.905) (Fin 77.700) "Sarjapur Road"
      "Bengaluru Urban" (Some ["IT/BT"; "Schools"]);
    mkPincode "560041" (Fin 12.920) (Fin 77.590) "Jayanagar 9th Block"
      "Bengaluru Urban" (Some ["Residential"]);
    mkPincode "560047" (Fin 12.945) (Fin 77.615) "Vivek Nagar"
      "Bengaluru Urban" (Some ["Residential"]);
    mkPincode "560050" (Fin 12.940) (Fin 77.555) "Hanumanthnagar"
      "Bengaluru Urban" (Some ["Residential"; "Small Retail"]);
    mkPincode "560061" (Fin 12.890) (Fin 77.540) "Subramanyapura"
      "Bengaluru Urban" (Some ["Residential"; "Real Estate"]);
    mkPincode "560062" (Fin 12.870) (Fin 77.550) "Doddakallasandra"
      "Bengaluru Urban" (Some ["Residential"]);
    mkPincode "560068" (Fin 12.900) (Fin 77.625) "Bommanahalli"
      "Bengaluru Urban" (Some ["Garment Mfg"; "Textiles"]);
    mkPincode "560069" (Fin 12.920) (Fin 77.590) "Jayanagar 4th T Block"
      "Bengaluru Urban" (Some ["Residential"]);
    mkPincode "560070" (Fin 12.920) (Fin 77.570) "Banashankari II Stage"
      "Bengaluru Urban" (Some ["Commercial"]);
    mkPincode "560076" (Fin 12.910) (Fin 77.605) "BTM Layout"
      "Bengaluru Urban" (Some ["Paying Guest Acc"; "Coaching"; "IT"]);
    mkPincode "560078" (Fin 12.905) (Fin 77.585) "JP Nagar"
      "Bengaluru Urban" (Some ["Arts"; "Culture"; "Retail"]);
    mkPincode "560083" (Fin 12.820) (Fin 77.590) "Bannerghatta"
      "Bengaluru Urban" (Some ["National Park"; "Tourism"]);
    mkPincode "560085" (Fin 12.925) (Fin 77.545) "Banashankari"
      "Bengaluru Urban" (Some ["Retail"; "Transport Hub"]);
    mkPincode "560099" (Fin 12.820) (Fin 77.680) "Bommasandra"
      "Bengaluru Urban" (Some ["Industrial Area"; "Pharma"]);
    mkPincode "560100" (Fin 12.845) (Fin 77.665) "Electronic City"
      "Bengaluru Urban" (Some ["IT Campus"; "Hardware Mfg"; "Biotech"]);
    mkPincode "560102" (Fin 12.910) (Fin 77.650) "HSR Layout"
      "Bengaluru Urban" (Some ["Startups"; "Co-working"; "Fashion"]);
    mkPincode "560103" (Fin 12.930) (Fin 77.680) "Bellandur"
      "Bengaluru Urban" (Some ["Tech SEZ"; "Real Estate"]);
    mkPincode "560010" (Fin 12.985) (Fin 77.555) "Rajajinagar"
      "Bengaluru Urban" (Some ["Industrial Estate"; "Malls"]);
    mkPincode "560018" (Fin 12.960) (Fin 77.550) "Chamrajpet"
      "Bengaluru Urban" (Some ["Wholesale"]);
    mkPincode "560021" (Fin 12.995) (Fin 77.560) "Srirampura"
      "Bengaluru Urban" (Some ["Textiles"]);
    mkPincode "560023" (Fin 12.970) (Fin 77.540) "Magadi Road"
      "Bengaluru Urban" (Some ["Transport"]);
    mkPincode "560026" (Fin 12.950) (Fin 77.530) "Mysore Road"
      "Bengaluru Urban" (Some ["Timber"; "Transport"]);
    mkPincode "560039" (Fin 12.950) (Fin 77.520) "Nayandahalli"
      "Bengaluru Urban" (Some ["Transit"]);
    mkPincode "560040" (Fin 12.960) (Fin 77.535) "Vijayanagar"
      "Bengaluru Urban" (Some ["Books"; "Clothing"]);
    mkPincode "560056" (Fin 12.950) (Fin 77.510) "Bangalore University"
      "Bengaluru Urban" (Some ["Education"]);
    mkPincode "560059" (Fin 12.920) (Fin 77.490) "Kengeri Satellite Town"
      "Bengaluru Urban" (Some ["Residential"]);
    mkPincode "560060" (Fin 12.900) (Fin 77.480) "Kengeri"
      "Bengaluru Urban" (Some ["Education"; "Transport"]);
    mkPincode "560072" (Fin 12.965) (Fin 77.510) "Nagarbhavi"
      "Bengaluru Urban" (Some ["Education (University)"; "Residential"]);
    mkPincode "560073" (Fin 13.050) (Fin 77.500) "Nagasandra"
      "Bengaluru Urban" (Some ["Industry"]);
    mkPincode "560074" (Fin 12.890) (Fin 77.450) "Kumbalgodu"
      "Bengaluru Urban" (Some ["Industry"; "Education"]);
    mkPincode "560079" (Fin 12.970) (Fin 77.520) "Magadi Road (West)"
      "Bengaluru Urban" (Some ["Wholesale"]);
    mkPincode "560091" (Fin 12.980) (Fin 77.490) "Viswaneedam"
      "Bengaluru Urban" (Some ["Small Industries"]);
    mkPincode "560096" (Fin 13.010) (Fin 77.520) "Nandini Layout"
      "Bengaluru Urban" (Some ["Residential"]);
    mkPincode "560098" (Fin 12.920) (Fin 77.510) "Rajarajeshwari Nagar"
      "Bengaluru Urban" (Some ["Residential"; "Temples"]);
    mkPincode "562110" (Fin 13.200) (Fin 77.700) "Bial (Airport)"
      "Bengaluru Rural" (Some ["Airport Services"]);
    mkPincode "562114" (Fin 13.250) (Fin 77.230) "Dobbaspet"
      "Bengaluru Rural" (Some ["Industrial Area"; "Logistics"]);
    mkPincode "562123" (Fin 13.095) (Fin 77.395) "Nelamangala"
      "Bengaluru Rural" (Some ["Warehousing"; "Silk Weaving"]);
    mkPincode "562125" (Fin 13.110) (Fin 77.460) "Shivakote"
      "Bengaluru Urban" (Some ["Agriculture"]);
    mkPincode "562129" (Fin 13.070) (Fin 77.795) "Hoskote"
      "Bengaluru Rural" (Some ["Auto Components"; "Industrial"]);
    mkPincode "562135" (Fin 12.950) (Fin 77.850) "Tavarekere"
      "Bengaluru Rural" (Some ["Brick Kilns"; "Agro"]);
    mkPincode "562149" (Fin 13.170) (Fin 77.560) "Rajanukunte"
      "Bengaluru Urban" (Some ["Residential"; "Resorts"]);
    mkPincode "562157" (Fin 13.245) (Fin 77.710) "Devanahalli"
      "Bengaluru Rural" (Some ["Logistics"; "Agro Processing"; "Tourism"]);
    mkPincode "562162" (Fin 13.150) (Fin 77.450) "Arishinakunte"
      "Bengaluru Rural" (Some ["Agro"]);
    mkPincode "562163" (Fin 13.200) (Fin 77.420) "Thyamagondlu"
      "Bengaluru Rural" (Some ["Agro"]);
    mkPincode "562164" (Fin 13.180) (Fin 77.520) "Heggunda"
      "Bengaluru Rural" (Some ["Agriculture"]);
    mkPincode "561203" (Fin 13.290) (Fin 77.540) "Doddaballapur"
      "Bengaluru Rural" (Some ["Apparel Park"; "Powerloom"]);
    mkPincode "561204" (Fin 13.380) (Fin 77.380) "Doddabelavangala"
      "Bengaluru Rural" (Some ["Rural Market"]);
    mkPincode "561205" (Fin 13.350) (Fin 77.450) "Tubagere"
      "Bengaluru Rural" (Some ["Sericulture"; "Vegetables"]);
    mkPincode "560089" (Fin 13.140) (Fin 77.490) "Hesaraghatta"
      "Bengaluru Urban" (Some ["Farms"; "Research Inst"]);
    mkPincode "562106" (Fin 12.780) (Fin 77.700) "Anekal"
      "Bengaluru Urban" (Some ["Textiles"; "Small Scale Ind"]);
    mkPincode "562107" (Fin 12.750) (Fin 77.600) "Jigani"
      "Bengaluru Urban" (Some ["Granite"; "Manufacturing"]) ].
Definition villagePrefixes : list string :=
  ["Doda"; "Chikka"; "Malla"; "Golla"; "Hosa"; "Byra"; "Kumba"; "Sidda"; "Rama"; "Shiva"; "Nara"].
Definition villageSuffixes : list string :=
  ["pura"; "halli"; "kere"; "gudda"; "palya"; "sandra"; "kote"; "ur"; "pete"; "gere"].

Definition waterSources : list string :=
  ["Borewell"; "Kaveri Connection"; "Local Lake/Tank"; "Panchayat Supply"].
Definition roads : list string := ["Asphalted"; "Concrete"; "Gravel/Mud"; "All-weather"].
Definition buses : list string := ["Hourly"; "Every 30 mins"; "Twice a day"; "Irregular"].

(** [Math.PI] *)
Definition Math_PI : jsnum := Fin 3.141592653589793.

(** [obj[key]] on the two lookup tables. *)
Fixpoint lookup {A : Type} (key : string) (table : list (string * A)) : option A :=
  match table with
  | [] => None
  | (k, v) :: rest => if String.eqb k key then Some v else lookup key rest
  end.

(** [arr[Math.floor(x)]] for a finite index: [None] is [undefined]. *)
Definition at_index {A : Type} (arr : list A) (i : Z) : option A :=
  if i <? 0 then None else nth_error arr (Z.to_nat i).

Definition opt_strings (v : option (list string)) : jsval :=
  match v with
  | Some l => VStrings l
  | None => VUndefined
  end.

(** A string or [undefined] spliced into a string. *)
Definition splice (v : option string) : string :=
  match v with
  | Some s => s
  | None => "undefined"
  end.

(** [String(n).padStart(2, '0')] *)
Definition padStart2 (s : string) : string :=
  match s with
  | String c EmptyString => String "0" (String c EmptyString)
  | EmptyString => "00"
  | _ => s
  end.

(** Where a village was placed: the centre handed to
    [createVillageFeature], the taluk it was placed for, and whether it
    comes from the curated tables.  This record is not part of the source;
    it is kept next to [generatedVillages] so that a village can be related
    to its centre. *)
Record Site : Type := mkSite {
  site_id : string;
  site_lat : jsnum;
  site_lng : jsnum;
  site_taluk : TalukMeta;
  site_curated : bool
}.

Section Generator.

(** [Math.sqrt], [Math.cos] and [Math.sin] on finite arguments, and
    [Math.random]. *)
Variable sqrtQ cosQ sinQ : Q -> Q.
Variable Rand : Type.
Variable random : Rand -> Q * Rand.

Definition Math_sqrt (x : jsnum) : jsnum :=
  match x with
  | Fin q => if Qle_bool 0 q then Fin (sqrtQ q) else NaN
  | Inf false => Inf false
  | _ => NaN
  end.

Definition Math_cos (x : jsnum) : jsnum :=
  match x with Fin q => Fin (cosQ q) | _ => NaN end.

Definition Math_sin (x : jsnum) : jsnum :=
  match x with Fin q => Fin (sinQ q) | _ => NaN end.

(** [Math.floor(Math.random() * n)] for a draw [r]. *)
Definition floor_scaled (r : Q) (n : Z) : Z := Qfloor (r * inject_Z n).

(** Lines 48-50. *)
Definition getDistanceKm (lat1 lng1 lat2 lng2 : jsnum) : jsnum :=
  (Math_sqrt ((lat2 - lat1) * (lat2 - lat1) + (lng2 - lng1) * (lng2 - lng1)) * Fin 111)%js.

(** Lines 70-82. *)
Definition getNearestStation (lat lng : jsnum) : string * jsnum :=
  let step (acc : jsnum * Landmark) (station : Landmark) :=
    let dist := getDistanceKm lat lng (lm_lat station) (lm_lng station) in
    if (dist <? fst acc)%js then (dist, station) else acc in
  let '(minDistance, nearest) :=
    fold_left step RAILWAY_STATIONS
              (Inf false, hd (mkLandmark NaN NaN EmptyString) RAILWAY_STATIONS) in
  (lm_name nearest, minDistance).

(** Lines 35-42: the vertices [i, i+1, ...] of the polygon, [n] of them.
    The coordinates are exact sums here and rounded ones in the source. *)
Fixpoint organic_points (n : nat) (i sides : Z)
    (centerLat centerLng baseRadius : jsnum) (g : Rand) : list point * Rand :=
  match n with
  | O => ([], g)
  | S n' =>
      let angle := (Fin (inject_Z i) * Fin 2 * Math_PI / Fin (inject_Z sides))%js in
      let '(d, g1) := random g in
      let r := (baseRadius * (Fin 0.8 + Fin d * Fin 0.4))%js in
      let p := ((centerLng + r * Math_cos angle)%js,
                (centerLat + r * Math_sin angle * Fin 0.85)%js) in
      let '(ps, g2) := organic_points n' (i + 1) sides centerLat centerLng baseRadius g1 in
      (p :: ps, g2)
  end.

(** Lines 32-45.  With no vertex at all, [points[0]] is [undefined]; the
    ring is then too short to be valid either way, and the closing entry is
    left out. *)
Definition generateOrganicPolygon (centerLat centerLng baseRadius : jsnum) (g : Rand)
  : list ring * Rand :=
  let '(d, g1) := random g in
  let sides := 6 + floor_scaled d 4 in
  let '(points, g2) :=
    organic_points (Z.to_nat sides) 0 sides centerLat centerLng baseRadius g1 in
  ([(points ++ match points with p0 :: _ => [p0] | [] => [] end)%list], g2).

(** *** Taluks and districts *)

Definition talukFeature (i : nat) (t : TalukMeta) (g : Rand) : GeoFeature * Rand :=
  let distToCity :=
    getDistanceKm (fst (t_center t)) (snd (t_center t)) (lm_lat LOC_CITY) (lm_lng LOC_CITY) in
  let distToAirport :=
    getDistanceKm (fst (t_center t)) (snd (t_center t))
                  (lm_lat LOC_AIRPORT) (lm_lng LOC_AIRPORT) in
  let nearestRly := getNearestStation (fst (t_center t)) (snd (t_center t)) in
  let tId := "taluk-" ++ JsString.ofZ (Z.of_nat i) in
  let geocode := "KAT" ++ padStart2 (JsString.ofZ (Z.of_nat i + 1)) in
  let '(d1, g1) := random g in
  let '(d2, g2) := random g1 in
  let '(d3, g3) := random g2 in
  ({| id := tId;
      properties :=
        [ ("id", VStr tId);
          ("geocode", VStr geocode);
          ("name", VStr (t_name t));
          ("district", VStr (t_district t));
          ("type", VStr "Taluk");
          ("population", VNum (t_population t));
          ("literacyRate", VNum (t_literacyRate t));
          ("areaSqKm", VNum (Fin 200 + Fin d1 * Fin 100)%js);
          ("description", VStr ("Administrative Taluk in " ++ t_district t));
          ("nearestCity", VStr (lm_name LOC_CITY));
          ("distanceToCityKm", VNum distToCity);
          ("nearestAirport", VStr (lm_name LOC_AIRPORT));
          ("distanceToAirportKm", VNum distToAirport);
          ("nearestRailway", VStr (fst nearestRly));
          ("distanceToRailwayKm", VNum (snd nearestRly));
          ("sexRatio", VNum (Fin 930 + JsNum.ofZ (floor_scaled d2 40))%js);
          ("mainCrops", opt_strings (t_crops t));
          ("keyMarkets", opt_strings (t_keyMarkets t));
          ("numVillages", VNum (Fin 150 + JsNum.ofZ (floor_scaled d3 100))%js);
          ("schoolCount", VNum (JsNum.floor (t_population t / Fin 2500)%js));
          ("hospitalCount", VNum (JsNum.floor (t_population t / Fin 15000)%js)) ];
      geometry := Polygon [t_coords t] |}, g3).

(** [talukDataRaw.map((t, i) => ...)] from index [i] on. *)
Fixpoint talukFeatures (i : nat) (ts : list TalukMeta) (g : Rand)
  : list GeoFeature * Rand :=
  match ts with
  | [] => ([], g)
  | t :: rest =>
      let '(f, g1) := talukFeature i t g in
      let '(fs, g2) := talukFeatures (S i) rest g1 in
      (f :: fs, g2)
  end.

Definition districtFeatures : list GeoFeature :=
  [ {| id := "dist-rural";
       properties :=
         [ ("id", VStr "dist-rural");
           ("geocode", VStr "KAD01");
           ("name", VStr "Bengaluru Rural");
           ("type", VStr "District");
           ("description", VStr "District surrounding Bengaluru Urban.");
           ("population", VNum (Fin 990923));
           ("literacyRate", VNum (Fin 77.93));
           ("areaSqKm", VNum (Fin 2298));
           ("nearestCity", VStr (lm_name LOC_CITY));
           ("distanceToCityKm", VNum (Fin 0));
           ("nearestAirport", VStr (lm_name LOC_AIRPORT));
           ("distanceToAirportKm", VNum (Fin 0));
           ("sexRatio", VNum (Fin 946));
           ("numTaluks", VNum (Fin 4));
           ("economicFocus", VStr "Agriculture, Textiles, Industrial Parks") ];
       geometry :=
         MultiPolygon [[COORDS_DODDABALLAPUR]; [COORDS_DEVANAHALLI];
                       [COORDS_NELAMANGALA]; [COORDS_HOSKOTE]] |};
    {| id := "dist-urban";
       properties :=
         [ ("id", VStr "dist-urban");
           ("geocode", VStr "KAD02");
           ("name", VStr "Bengaluru Urban");
           ("type", VStr "District");
           ("description", VStr "The capital district of Karnataka.");
           ("population", VNum (Fin 9621551));
           ("literacyRate", VNum (Fin 87.67));
           ("areaSqKm", VNum (Fin 2196));
           ("nearestCity", VStr (lm_name LOC_CITY));
           ("distanceToCityKm", VNum (Fin 0));
           ("nearestAirport", VStr (lm_name LOC_AIRPORT));
           ("distanceToAirportKm", VNum (Fin 15));
           ("sexRatio", VNum (Fin 916));
           ("numTaluks", VNum (Fin 5));
           ("economicFocus", VStr "IT/BT, Services, Manufacturing, Aerospace") ];
       geometry :=
         MultiPolygon [[COORDS_BLR_NORTH]; [COORDS_BLR_EAST];
                       [COORDS_BLR_SOUTH]; [COORDS_ANEKAL]] |} ].

(** *** Villages *)

(** The module-level state of lines 461-463, with [Math.random] and the
    sites. *)
Record GenState : Type := mkGen {
  rng : Rand;
  vId : Z;
  villageGeocodeCounter : Z;
  generatedVillages : list GeoFeature;
  sites : list Site
}.

Definition with_rng (g : Rand) (st : GenState) : GenState :=
  mkGen g (vId st) (villageGeocodeCounter st) (generatedVillages st) (sites st).

Definition draw (st : GenState) : Q * GenState :=
  let '(d, g) := random (rng st) in (d, with_rng g st).

(** [generatedVillages.push(feature)] *)
Definition push_village (f : GeoFeature) (site : Site) (st : GenState) : GenState :=
  mkGen (rng st) (vId st) (villageGeocodeCounter st)
        (generatedVillages st ++ [f])%list (sites st ++ [site])%list.

(** Lines 466-516.  [areaSqKm] and [literacyRate] are exact sums here; in
    the source the largest draws of [Math.random] round them up to 3 and
    to 90. *)
Definition createVillageFeature (name : string) (lat lng : jsnum)
    (talukName districtName : string) (crops keyMarkets : option (list string))
    (st : GenState) : option GeoFeature * GenState :=
  let '(poly, g1) := generateOrganicPolygon lat lng (Fin 0.005) (rng st) in
  let distToCity := getDistanceKm lat lng (lm_lat LOC_CITY) (lm_lng LOC_CITY) in
  let distToAirport := getDistanceKm lat lng (lm_lat LOC_AIRPORT) (lm_lng LOC_AIRPORT) in
  let nearestRly := getNearestStation lat lng in
  let vIDString := "village-" ++ JsString.ofZ (vId st) in
  let geocode := "KAV" ++ JsString.ofZ (villageGeocodeCounter st) in
  let '(d_pop, g2) := random g1 in
  let population := (Fin 500 + JsNum.ofZ (floor_scaled d_pop 4000))%js in
  let st2 := mkGen g2 (vId st + 1) (villageGeocodeCounter st + 1)
                   (generatedVillages st) (sites st) in
  if isValidRing (hd [] poly) then
    let '(d_area, g3) := random g2 in
    let '(d_lit, g4) := random g3 in
    let '(d_water, g5) := random g4 in
    let '(d_road, g6) := random g5 in
    let '(d_bus, g7) := random g6 in
    let '(d_school, g8) := random g7 in
    (Some {| id := vIDString;
             properties :=
               [ ("id", VStr vIDString);
                 ("geocode", VStr geocode);
                 ("name", VStr name);
                 ("type", VStr "Village");
                 ("district", VStr districtName);
                 ("taluk", VStr talukName);
                 ("population", VNum population);
                 ("areaSqKm", VNum (Fin 1 + Fin d_area * Fin 2)%js);
                 ("literacyRate", VNum (Fin 60 + Fin d_lit * Fin 30)%js);
                 ("nearestCity", VStr (lm_name LOC_CITY));
                 ("distanceToCityKm", VNum distToCity);
                 ("nearestAirport", VStr (lm_name LOC_AIRPORT));
                 ("distanceToAirportKm", VNum distToAirport);
                 ("nearestRailway", VStr (fst nearestRly));
                 ("distanceToRailwayKm", VNum (snd nearestRly));
                 ("description", VStr ("A village in " ++ talukName ++ " taluk."));
                 ("waterSource", Osm.opt_str (at_index waterSources (floor_scaled d_water 4)));
                 ("roadCondition", Osm.opt_str (at_index roads (floor_scaled d_road 4)));
                 ("busFrequency", Osm.opt_str (at_index buses (floor_scaled d_bus 4)));
                 ("householdCount", VNum (JsNum.floor (population / Fin 4.5)%js));
                 ("schoolCount", VNum (JsNum.ofZ (floor_scaled d_school 3)));
                 ("mainCrops", opt_strings crops);
                 ("keyMarkets", opt_strings keyMarkets) ];
             geometry := Polygon poly |},
     with_rng g8 st2)
  else (None, st2).

(** Lines 529-538: the curated villages of a taluk, at their known places. *)
Fixpoint place_real (taluk : TalukMeta) (names : list string) (count : nat)
    (st : GenState) : nat * GenState :=
  match names with
  | [] => (count, st)
  | name :: rest =>
      match lookup name REAL_VILLAGE_LOCATIONS with
      | Some (lat, lng) =>
          match createVillageFeature name lat lng (t_name taluk) (t_district taluk)
                                     (t_crops taluk) (t_keyMarkets taluk) st with
          | (Some feature, st1) =>
              place_real taluk rest (S count)
                (push_village feature (mkSite (id feature) lat lng taluk true) st1)
          | (None, st1) => place_real taluk rest count st1
          end
      | None => place_real taluk rest count st
      end
  end.

(** Lines 541-559: the sampling loop; [attempts_left] is [400 - attempts]. *)
Fixpoint fill_random (attempts_left : nat) (taluk : TalukMeta)
    (minLat maxLat minLng maxLng : jsnum) (count : nat) (st : GenState)
  : nat * GenState :=
  match attempts_left with
  | O => (count, st)
  | S attempts_left' =>
      if (count <? 35)%nat then
        let '(d_lat, st1) := draw st in
        let lat := (minLat + Fin d_lat * (maxLat - minLat))%js in
        let '(d_lng, st2) := draw st1 in
        let lng := (minLng + Fin d_lng * (maxLng - minLng))%js in
        if isNaN lat || isNaN lng then
          fill_random attempts_left' taluk minLat maxLat minLng maxLng count st2
        else if isPointInPolygon (lng, lat) (t_coords taluk) then
          let '(d_prefix, st3) := draw st2 in
          let '(d_suffix, st4) := draw st3 in
          let name :=
            splice (at_index villagePrefixes (floor_scaled d_prefix 11)) ++
            splice (at_index villageSuffixes (floor_scaled d_suffix 10)) in
          match createVillageFeature name lat lng (t_name taluk) (t_district taluk)
                                     (t_crops taluk) (t_keyMarkets taluk) st4 with
          | (Some feature, st5) =>
              fill_random attempts_left' taluk minLat maxLat minLng maxLng (S count)
                (push_village feature (mkSite (id feature) lat lng taluk false) st5)
          | (None, st5) =>
              fill_random attempts_left' taluk minLat maxLat minLng maxLng count st5
          end
        else
          fill_random attempts_left' taluk minLat maxLat minLng maxLng count st2
      else (count, st)
  end.

(** Lines 518-560: the body of [talukDataRaw.forEach]. *)
Definition placeVillages (st : GenState) (taluk : TalukMeta) : GenState :=
  let lats := map snd (t_coords taluk) in
  let lngs := map fst (t_coords taluk) in
  let minLat := JsNum.min_list lats in
  let maxLat := JsNum.max_list lats in
  let minLng := JsNum.min_list lngs in
  let maxLng := JsNum.max_list lngs in
  let realNames :=
    match lookup (t_name taluk) REAL_VILLAGE_NAMES with
    | Some names => names
    | None => []
    end in
  let '(count, st1) := place_real taluk realNames 0 st in
  snd (fill_random 400 taluk minLat maxLat minLng maxLng count st1).

Definition initial_gen (g : Rand) : GenState := mkGen g 0 1001 [] [].

Definition generateVillages (g : Rand) : GenState :=
  fold_left placeVillages talukDataRaw (initial_gen g).

(** *** Pincodes *)

(** What [voronoi.cellPolygon(i)] does: it throws, or it yields a polygon
    or [null]. *)
Inductive Cell : Type :=
| CellThrows
| CellPolygon (poly : option ring).

(** Lines 717-745, the feature of one entry.  [areaSqKm] and
    [literacyRate] are exact sums here; in the source the largest draws of
    [Math.random] round the literacy rate up to 95. *)
Definition pincodeFeature (p : PincodeDef) (poly : ring)
    (population : jsnum) (poStatus : string) (d_area d_lit d_delivery : Q) : GeoFeature :=
  let distToCity := getDistanceKm (p_lat p) (p_lng p) (lm_lat LOC_CITY) (lm_lng LOC_CITY) in
  let distToAirport :=
    getDistanceKm (p_lat p) (p_lng p) (lm_lat LOC_AIRPORT) (lm_lng LOC_AIRPORT) in
  let nearestRly := getNearestStation (p_lat p) (p_lng p) in
  let pId := "pin-" ++ p_code p in
  let suffix := if String.eqb poStatus "Head Post Office" then "H.O"
                else if String.eqb poStatus "Sub Post Office" then "S.O" else "B.O" in
  let poName := p_areaName p ++ " " ++ suffix in
  let geocode := "KAP" ++ p_code p in
  {| id := pId;
     properties :=
       [ ("id", VStr pId);
         ("geocode", VStr geocode);
         ("name", VStr (p_code p ++ " - " ++ p_areaName p));
         ("type", VStr "Pincode");
         ("district", VStr (p_district p));
         ("population", VNum population);
         ("areaSqKm", VNum (Fin 10 + Fin d_area * Fin 20)%js);
         ("literacyRate", VNum (Fin 75 + Fin d_lit * Fin 20)%js);
         ("nearestCity", VStr (lm_name LOC_CITY));
         ("distanceToCityKm", VNum distToCity);
         ("nearestAirport", VStr (lm_name LOC_AIRPORT));
         ("distanceToAirportKm", VNum distToAirport);
         ("nearestRailway", VStr (fst nearestRly));
         ("distanceToRailwayKm", VNum (snd nearestRly));
         ("postOfficeStatus", VStr poStatus);
         ("postOfficeName", VStr poName);
         ("deliveryStatus",
          VStr (if Qlt_le_dec 0.05 d_delivery then "Delivery Available" else "Non-Delivery"));
         ("householdCount", VNum (JsNum.floor (population / Fin 4)%js));
         ("keyMarkets", VStrings (match p_markets p with Some l => l | None => [] end)) ];
     geometry := Polygon [poly] |}.

(** Lines 701-747: the loop over [REAL_PINCODES] from index [i] on; a throw
    ends it and keeps what was pushed (the [catch] of line 748). *)
Fixpoint pincodeLoop (cellPolygon : nat -> Cell) (i : nat) (defs : list PincodeDef)
    (g : Rand) (generatedPincodes : list GeoFeature) : list GeoFeature * Rand :=
  match defs with
  | [] => (generatedPincodes, g)
  | p :: rest =>
      match cellPolygon i with
      | CellThrows => (generatedPincodes, g)
      | CellPolygon poly =>
          let '(d_pop, g1) := random g in
          let population := (Fin 20000 + JsNum.ofZ (floor_scaled d_pop 80000))%js in
          let '(d_head, g2) := random g1 in
          let '(poStatus, g3) :=
            if Qlt_le_dec 0.8 d_head then ("Head Post Office", g2)
            else let '(d_sub, g2') := random g2 in
                 (if Qlt_le_dec 0.4 d_sub then "Sub Post Office" else "Branch Post Office",
                  g2') in
          match poly with
          | Some r =>
              if isValidRing r then
                let '(d_area, g4) := random g3 in
                let '(d_lit, g5) := random g4 in
                let '(d_delivery, g6) := random g5 in
                pincodeLoop cellPolygon (S i) rest g6
                  (generatedPincodes
                   ++ [pincodeFeature p r population poStatus d_area d_lit d_delivery])%list
              else pincodeLoop cellPolygon (S i) rest g3 generatedPincodes
          | None => pincodeLoop cellPolygon (S i) rest g3 generatedPincodes
          end
      end
  end.

(** Lines 697-750.  [voronoi] is [None] when [Delaunay.from] or
    [delaunay.voronoi] throws. *)
Definition generatePincodes (voronoi : option (nat -> Cell)) (g : Rand)
  : list GeoFeature * Rand :=
  match voronoi with
  | None => ([], g)
  | Some cellPolygon => pincodeLoop cellPolygon 0 REAL_PINCODES g []
  end.

(** *** The module as a whole, in the order of its top-level statements *)

Record Dataset : Type := mkDataset {
  taluksData : list GeoFeature;
  districtsData : list GeoFeature;
  villagesData : list GeoFeature;
  villageSites : list Site;
  pincodesData : list GeoFeature
}.

Definition geoData (voronoi : option (nat -> Cell)) (g : Rand) : Dataset :=
  let '(taluks, g1) := talukFeatures 0 talukDataRaw g in
  let vs := generateVillages g1 in
  let '(pincodes, _) := generatePincodes voronoi (rng vs) in
  mkDataset taluks districtFeatures (generatedVillages vs) (sites vs) pincodes.

End Generator.

(** *** Stand-ins for the environment in the examples *)

(** A linear congruential generator in the place of [Math.random]. *)
Definition lcg (seed : Z) : Q * Z :=
  let next := (1103515245 * seed + 12345) mod 2147483648 in
  (next # 2147483648, next).

(** Crude stand-ins for the square root, the cosine and the sine. *)
Definition sqrt_floor (x : Q) : Q := inject_Z (Z.sqrt (Qfloor x)).
Definition cos_one (x : Q) : Q := 1.
Definition sin_zero (x : Q) : Q := 0.

(** A tessellation that gives every seed the clipping rectangle. *)
Definition voronoiBounds_ring : ring :=
  [ (Fin 77.10, Fin 12.50); (Fin 78.10, Fin 12.50); (Fin 78.10, Fin 13.65);
    (Fin 77.10, Fin 13.65); (Fin 77.10, Fin 12.50) ].

Definition rectangle_cells (i : nat) : Cell := CellPolygon (Some voronoiBounds_ring).

Definition example_dataset : Dataset :=
  geoData sqrt_floor cos_one sin_zero lcg (Some rectangle_cells) 42.

(** The centre of a village of a dataset. *)
Definition site_of (village_id : string) (d : Dataset) : option Site :=
  find (fun s => String.eqb (site_id s) village_id) (villageSites d).

(** The point-in-polygon test on the centre of a village and the polygon
    of the taluk it was placed for. *)
Definition inside_own_taluk (s : Site) : bool :=
  isPointInPolygon (site_lng s, site_lat s) (t_coords (site_taluk s)).

(** The statement that every village of a dataset passes that test. *)
Definition villages_inside_taluk (d : Dataset) : Prop :=
  forall s, In s (villageSites d) -> inside_own_taluk s = true.

(** The sites and the villages go together, and every sampled site passes
    the test. *)
Definition sites_ok {Rand : Type} (st : GenState Rand) : Prop :=
  map site_id (sites st) = map id (generatedVillages st) /\
  Forall (fun s => site_curated s = false -> inside_own_taluk s = true) (sites st).

(** The id and the geocode of the village numbered [k]. *)
Definition village_id (k : Z) : string := "village-" ++ JsString.ofZ k.
Definition village_geocode (k : Z) : jsval := VStr ("KAV" ++ JsString.ofZ (1001 + k)).

(** The villages made so far carry the numbers [ks], in this order. *)
Definition numbered {Rand : Type} (ks : list Z) (st : GenState Rand) : Prop :=
  map id (generatedVillages st) = map village_id ks /\
  map geocode_of (generatedVillages st) = map village_geocode ks /\
  Forall (fun k => 0 <= k < vId st) ks /\
  NoDup ks /\
  0 <= vId st /\
  villageGeocodeCounter st = 1001 + vId st.

(** The numbers [0, 1, ..., n-1]. *)
Definition upto (n : nat) : list Z := map Z.of_nat (seq 0 n).

(** The villages made so far carry the numbers 0, 1, 2, ... without a gap. *)
Definition sequential {Rand : Type} (st : GenState Rand) : Prop :=
  numbered (upto (List.length (generatedVillages st))) st /\
  vId st = Z.of_nat (List.length (generatedVillages st)).

(** The bounding box of a taluk, as [placeVillages] computes it. *)
Definition taluk_bounds (t : TalukMeta) : jsnum * jsnum * jsnum * jsnum :=
  (JsNum.min_list (map snd (t_coords t)), JsNum.max_list (map snd (t_coords t)),
   JsNum.min_list (map fst (t_coords t)), JsNum.max_list (map fst (t_coords t))).

Definition finite_bounds (t : TalukMeta) : bool :=
  let '(a, b, c, d) := taluk_bounds t in
  JsNum.is_fin a && JsNum.is_fin b && JsNum.is_fin c && JsNum.is_fin d.

Definition finite_location (entry : string * (jsnum * jsnum)) : bool :=
  JsNum.is_fin (fst (snd entry)) && JsNum.is_fin (snd (snd entry)).

(** The ids and geocodes of taluks and pincodes. *)
Definition taluk_id (i : nat) : string := "taluk-" ++ JsString.ofZ (Z.of_nat i).
Definition taluk_geocode (i : nat) : string :=
  "KAT" ++ padStart2 (JsString.ofZ (Z.of_nat i + 1)).
Definition pin_id (code : string) : string := "pin-" ++ code.
Definition pin_geocode (code : string) : string := "KAP" ++ code.

Definition first_char (s : string) : option ascii :=
  match s with
  | String c _ => Some c
  | EmptyString => None
  end.

(** A list of strings without repetition. *)
Fixpoint nodupb (l : list string) : bool :=
  match l with
  | [] => true
  | x :: rest => negb (JsString.mem x rest) && nodupb rest
  end.

End GeoData.

(* ================================================================== *)
(** ** Tabular export and import ([src/App.tsx]) *)
(* ================================================================== *)

Module Csv.

(** The line feed, code 10. *)
Definition LF : ascii := ascii_of_nat 10.

(** [s.includes(c)] for a character. *)
Definition has_char (c : ascii) (s : string) : bool := includes (String c EmptyString) s.

(** *** [JSON.stringify] *)

Definition hex_digit (n : nat) : ascii :=
  if (n <? 10)%nat then ascii_of_nat (48 + n) else ascii_of_nat (87 + n).

(** The escape of one character inside a JSON string. *)
Definition escape_char (c : ascii) : string :=
  let n := nat_of_ascii c in
  if (n =? 34)%nat then String "\" (String dquote EmptyString)
  else if (n =? 92)%nat then "\\"
  else if (n =? 8)%nat then "\b"
  else if (n =? 9)%nat then "\t"
  else if (n =? 10)%nat then "\n"
  else if (n =? 12)%nat then "\f"
  else if (n =? 13)%nat then "\r"
  else if (n <? 32)%nat
       then "\u00" ++ String (hex_digit (n / 16)) (String (hex_digit (n mod 16)) EmptyString)
  else String c EmptyString.

Fixpoint escape (s : string) : string :=
  match s with
  | EmptyString => EmptyString
  | String c s' => escape_char c ++ escape s'
  end.

(** A string between double quotes. *)
Definition wrap (s : string) : string := String dquote (s ++ String dquote EmptyString).

Definition quote (s : string) : string := wrap (escape s).

Definition geometry_json (g : Geometry) : json :=
  let position (p : point) := JArr [JNum (fst p); JNum (snd p)] in
  let linear (r : ring) := JArr (map position r) in
  let optional (x : option jsnum) := match x with Some n => JNum n | None => JNull end in
  match g with
  | Polygon rings =>
      JObj [("type", JStr "Polygon"); ("coordinates", JArr (map linear rings))]
  | MultiPolygon polys =>
      JObj [("type", JStr "MultiPolygon");
            ("coordinates", JArr (map (fun rings => JArr (map linear rings)) polys))]
  | Point lng lat =>
      JObj [("type", JStr "Point"); ("coordinates", JArr [optional lng; optional lat])]
  end.

(** The own property [key] of an object set to [value]: what a spread or
    an assignment to an ordinary key does.  The keys are kept in the order
    of their first insertion; JavaScript lists the keys that are array
    indices ahead of the others, which is not modelled, and nothing is
    stated about the order of the keys of an object that was written
    to. *)
Fixpoint set_prop (key : string) (value : jsval) (obj : list (string * jsval))
  : list (string * jsval) :=
  match obj with
  | [] => [(key, value)]
  | (k, v) :: rest =>
      if String.eqb k key then (k, value) :: rest
      else (k, v) :: set_prop key value rest
  end.

(** [obj[key] = value] on an object made by the literal [{}], for a value
    that is a string, a number or [undefined].  The key [__proto__] names
    the accessor that every such object inherits from [Object.prototype];
    its setter ignores a value of these kinds, so the assignment makes no
    property.  Any other key becomes an own property. *)
Definition assign (key : string) (value : jsval) (obj : list (string * jsval))
  : list (string * jsval) :=
  if String.eqb key "__proto__" then obj else set_prop key value obj.

(** [{...a, ...b}] *)
Definition spread (a b : list (string * jsval)) : list (string * jsval) :=
  fold_left (fun acc kv => set_prop (fst kv) (snd kv) acc) b a.

(** [a === b] on property values; arrays and objects are compared by
    identity, and no imported object is identical to one of a feature. *)
Definition strict_eq (a b : jsval) : bool :=
  match a, b with
  | VUndefined, VUndefined => true
  | V JNull, V JNull => true
  | V (JBool x), V (JBool y) => Bool.eqb x y
  | V (JNum x), V (JNum y) => JsNum.eqb x y
  | V (JStr x), V (JStr y) => String.eqb x y
  | _, _ => false
  end.

(** [allKeys.add(k)] on the insertion-ordered set of keys. *)
Definition add_key (keys : list string) (k : string) : list string :=
  if mem k keys then keys else (keys ++ [k])%list.

(** Lines 298-300 of [App.tsx]. *)
Definition all_keys (features : list GeoFeature) : list string :=
  fold_left (fun acc f => fold_left add_key (map fst (properties f)) acc) features [].

Section Conversions.

(** The host's number-to-string conversion and [Number(string)]. *)
Variable num_to_string : jsnum -> string.
Variable Number : string -> jsnum.

(** A number in JSON: non-finite numbers are written [null]. *)
Definition json_number (n : jsnum) : string :=
  match n with
  | Fin _ => num_to_string n
  | _ => "null"
  end.

Fixpoint stringify (j : json) : string :=
  match j with
  | JNull => "null"
  | JBool b => if b then "true" else "false"
  | JNum n => json_number n
  | JStr s => quote s
  | JArr items => "[" ++ join "," (map stringify items) ++ "]"
  | JObj fields =>
      "{" ++ join "," (map (fun '(k, v) => quote k ++ ":" ++ stringify v) fields) ++ "}"
  end.

(** The geometry column of a feature. *)
Definition geometry_cell (f : GeoFeature) : string :=
  wrap (double_quotes (stringify (geometry_json (geometry f)))).

(** Lines 306-321: one field of a row. *)
Definition cell (f : GeoFeature) (header : string) : string :=
  if String.eqb header "geometry" then geometry_cell f
  else match get header (properties f) with
       | VUndefined => EmptyString
       | V (JStr s) =>
           let val := double_quotes s in
           if includes "," val then wrap val else val
       | V (JNum n) => num_to_string n
       | V (JBool b) => if b then "true" else "false"
       | V j => wrap (double_quotes (stringify j))
       end.

Definition headers_of (features : list GeoFeature) : list string :=
  (all_keys features ++ ["geometry"])%list.

(** Lines 294-326 of [App.tsx]. *)
Definition convertToCSV (features : list GeoFeature) : string :=
  match features with
  | [] => EmptyString
  | _ =>
      let headers := headers_of features in
      join (String LF EmptyString)
           (join "," headers :: map (fun f => join "," (map (cell f) headers)) features)
  end.

(** Lines 551-556: the value of a field, [None] for a row that is too short. *)
Definition field_value (field : option string) : jsval :=
  match field with
  | None => VUndefined
  | Some raw =>
      let val := trim raw in
      if negb (isNaN (Number val)) && negb (String.eqb val EmptyString)
      then VNum (Number val)
      else VStr val
  end.

(** Lines 547-555: the record of one row, [obj[h] = val] for each header
    in turn. *)
Definition record_of (headers row : list string) : list (string * jsval) :=
  fold_left
    (fun obj hi => assign (fst hi) (field_value (nth_error row (snd hi))) obj)
    (combine headers (seq 0 (List.length headers)))
    [].

(** Lines 542-560: the CSV branch of the import. *)
Definition parseCSV (content : string) : list (list (string * jsval)) :=
  let lines := split LF content in
  let headers := map trim (split "," (hd EmptyString lines)) in
  map (fun line => record_of headers (split "," line))
      (filter (fun line => negb (String.eqb (trim line) EmptyString)) (tl lines)).

(** Lines 566-578: [updateCollection], on the features of a collection. *)
Definition updateCollection (dataToImport : list (list (string * jsval)))
    (features : list GeoFeature) : list GeoFeature :=
  map (fun feature =>
         match find (fun d => strict_eq (get "geocode" d) (geocode_of feature)) dataToImport with
         | Some record =>
             {| id := id feature;
                properties := spread (properties feature) record;
                geometry := geometry feature |}
         | None => feature
         end)
      features.

(** Export, import and merge back onto the same features. *)
Definition roundtrip (features : list GeoFeature) : list GeoFeature :=
  updateCollection (parseCSV (convertToCSV features)) features.

End Conversions.

(** *** What the round trip is to preserve *)

(** Equality of JSON values, numbers compared as numbers. *)
Fixpoint json_eqb (a b : json) : bool :=
  match a, b with
  | JNull, JNull => true
  | JBool x, JBool y => Bool.eqb x y
  | JNum x, JNum y => JsNum.eqb x y
  | JStr x, JStr y => String.eqb x y
  | JArr xs, JArr ys =>
      (fix all2 (xs ys : list json) : bool :=
         match xs, ys with
         | [], [] => true
         | x :: xs', y :: ys' => json_eqb x y && all2 xs' ys'
         | _, _ => false
         end) xs ys
  | JObj xs, JObj ys =>
      (fix all2 (xs ys : list (string * json)) : bool :=
         match xs, ys with
         | [], [] => true
         | (k, x) :: xs', (k', y) :: ys' => String.eqb k k' && json_eqb x y && all2 xs' ys'
         | _, _ => false
         end) xs ys
  | _, _ => false
  end.

Definition same_value (a b : jsval) : bool :=
  match a, b with
  | VUndefined, VUndefined => true
  | V x, V y => json_eqb x y
  | _, _ => false
  end.

(** The text of a quoted CSV field: the quotes removed, doubled quotes
    halved. *)
Fixpoint undouble (s : string) : string :=
  match s with
  | String a (String b rest as tail) =>
      if Ascii.eqb a dquote && Ascii.eqb b dquote then String a (undouble rest)
      else String a (undouble tail)
  | other => other
  end.

Definition unwrap (s : string) : option string :=
  match s with
  | String a rest =>
      if Ascii.eqb a dquote then
        match rev (list_ascii_of_string rest) with
        | z :: inner =>
            if Ascii.eqb z dquote
            then Some (undouble (string_of_list_ascii (rev inner)))
            else None
        | [] => None
        end
      else None
  | EmptyString => None
  end.

(** A feature [f] and what the round trip made of it: every attribute other
    than the geometry column has an equal value, and the geometry column
    holds the text of the feature's geometry. *)
Definition preserved (num_to_string : jsnum -> string) (f f' : GeoFeature) : Prop :=
  id f' = id f /\
  geometry f' = geometry f /\
  (forall key, key <> "geometry" ->
     same_value (get key (properties f')) (get key (properties f)) = true) /\
  (exists text,
     get "geometry" (properties f') = VStr text /\
     unwrap text = Some (stringify num_to_string (geometry_json (geometry f)))).

(** The round-trip statement for a list of features. *)
Definition roundtrip_preserves (num_to_string : jsnum -> string)
    (Number : string -> jsnum) (features : list GeoFeature) : Prop :=
  Forall2 (preserved num_to_string) features (roundtrip num_to_string Number features).

(** A small collection for the examples. *)
Definition two_plain_features : list GeoFeature :=
  [ {| id := "a";
       properties := [("geocode", VStr "G1"); ("name", VStr "Alpha");
                      ("population", VNum (Fin 120))];
       geometry := Point (Some (Fin 77.5)) (Some (Fin 12.9)) |};
    {| id := "b";
       properties := [("geocode", VStr "G2"); ("name", VStr "Beta");
                      ("population", VNum (Fin 78.2))];
       geometry := Polygon [[(Fin 1, Fin 2); (Fin 3, Fin 4); (Fin 5, Fin 6);
                             (Fin 1, Fin 2)]] |} ].

End Csv.
(* ================================================================== *)
(** ** The scan of the selected regions ([src/App.tsx]) *)
(* ================================================================== *)

Module Scan.
Import Osm.

(** What the handler leaves behind: the [stores] state, whether the filter
    bar is shown, and the text of the [alert], if one was raised. *)
Record Outcome : Type := mkOutcome {
  stores_after : list GeoFeature;
  filter_bar : bool;
  alert : option string
}.

Section Handler.

Variable sinQ : Q -> Q.
Variable parseFloat : string -> jsnum.
Variable World : Type.
Variable fetch : BBox -> World -> FetchOutcome * World.
Variable random : World -> Q * World.

(** Lines 484-505 of [App.tsx]: the loop over [regionsToScan].  Each region
    is scanned at depth 0; a rejection leaves the loop for the [catch]. *)
Fixpoint scan_regions (regionsToScan : list BBox) (allStores : list GeoFeature)
  : M World (list GeoFeature) :=
  fun st =>
  match regionsToScan with
  | [] => (Ok allStores, st)
  | region :: rest =>
      match fetchRetailStoresBounded sinQ parseFloat fetch random region 0 st with
      | (Ok results, st1) => scan_regions rest (allStores ++ results)%list st1
      | (Throw e, st1) => (Throw e, st1)
      end
  end.

(** A run of [n] rate-limited attempts on a box: the endpoint answers 429
    [n] times in a row and [Math.random] is drawn once after each answer
    (line 170).  The result holds the draws, in order, and the world that
    is left; it is [None] when one of the answers is not a 429. *)
Fixpoint rate_limited_run (box : BBox) (n : nat) (w : World) : option (list Q * World) :=
  match n with
  | O => Some ([], w)
  | S n' =>
      match fetch box w with
      | (Response status _, w1) =>
          if (status =? 429)%Z then
            let '(r, w2) := random w1 in
            match rate_limited_run box n' w2 with
            | Some (draws, w') => Some (r :: draws, w')
            | None => None
            end
          else None
      | (Rejected _, _) => None
      end
  end.

(** [scanRegions.filter((_, idx) => selectedRegionIndices.has(idx))] *)
Definition selected_regions (scanRegions : list BBox) (selectedRegionIndices : list nat)
  : list BBox :=
  map fst
      (filter (fun ri => existsb (Nat.eqb (snd ri)) selectedRegionIndices)
              (combine scanRegions (seq 0 (List.length scanRegions)))).

(** Lines 466-475 of [App.tsx]: the regions to scan, [None] when nothing
    is selected and the user declines to scan everything.  [confirmed] is
    the answer of [window.confirm]. *)
Definition regions_to_scan (scanRegions : list BBox) (selectedRegionIndices : list nat)
    (confirmed : bool) : option (list BBox) :=
  match selected_regions scanRegions selectedRegionIndices with
  | [] => if confirmed then Some scanRegions else None
  | regionsToScan => Some regionsToScan
  end.

(** Lines 464-521 of [App.tsx].  [stores] and [showFilterBar] are the state
    before the call. *)
Definition handleScanStores (scanRegions : list BBox) (selectedRegionIndices : list nat)
    (confirmed : bool) (stores : list GeoFeature) (showFilterBar : bool)
    (st : State World) : Outcome * State World :=
  match regions_to_scan scanRegions selectedRegionIndices confirmed with
  | None => (mkOutcome stores showFilterBar None, st)
  | Some regionsToScan =>
      match scan_regions regionsToScan [] st with
      | (Ok allStores, st1) =>
          (mkOutcome allStores true
             (match allStores with
              | [] => Some "No stores found in scanned sectors."
              | _ => None
              end), st1)
      | (Throw _, st1) =>
          (mkOutcome stores showFilterBar
             (Some "Scan failed. Check network connection or try again later."), st1)
      end
  end.

End Handler.

(** *** Endpoints for the examples *)

(** An endpoint that plays a script: the answers it has yet to give, one
    per POST whatever the box; once the script is over it answers 200 with
    no element. *)
Definition Script : Type := list FetchOutcome.

Definition scripted (box : BBox) (w : Script) : FetchOutcome * Script :=
  match w with
  | answer :: rest => (answer, rest)
  | [] => (Response 200 (BodyData (Some [])), [])
  end.

(** A [Math.random] that always draws one half and leaves the script
    alone. *)
Definition steady (w : Script) : Q * Script := (1 # 2, w).

Definition rate_limited : FetchOutcome := Response 429 (BodyData None).

(** The events of rate-limited attempts from [attempt] on, one per jitter:
    the POST and the back-off pause that follows it.  The jitter of a draw
    [r] of [Math.random] is [r * 1000]. *)
Definition jitters_of (draws : list Q) : list Q := map (fun r => r * 1000)%Q draws.

Fixpoint backoff_events (box : BBox) (attempt : nat) (jitters : list Q) : list Event :=
  match jitters with
  | [] => []
  | j :: rest =>
      EvFetch box attempt
      :: EvSleep (Fin (3000 * inject_Z (2 ^ Z.of_nat (attempt - 1)) + j))
      :: backoff_events box (S attempt) rest
  end.

(** An endpoint that answers the scenario box with 504 and every other box
    with 429. *)
Definition busy_quadrants (box : BBox) (w : unit) : FetchOutcome * unit :=
  if bbox_eqb box scenario_box
  then (Response 504 (BodyData None), w)
  else (Response 429 (BodyData None), w).

(** An endpoint that answers every box with the same fetch rejection. *)
Definition always_rejected (e : JsError) (box : BBox) (w : unit) : FetchOutcome * unit :=
  (Rejected e, w).

(** A way that carries [lat] and [lon] of its own and no [center]. *)
Definition way_without_center : OsmElement :=
  {| el_type := "way"; el_id := 77;
     el_lat := Some (Fin 12.95); el_lon := Some (Fin 77.60);
     el_center := None; el_tags := [("shop", "bakery")] |}.

End Scan.
(* ================================================================== *)
(** ** Shapes and ranges in the generated datasets *)
(* ================================================================== *)

Module GeoProps.
Import GeoData.

(** A position with finite coordinates. *)
Definition fin_point (p : Q * Q) : point := (Fin (fst p), Fin (snd p)).

(** The position [p] has finite coordinates that differ from the centre
    by at most [dlng] and [dlat]. *)
Definition near (clat clng dlat dlng : Q) (p : point) : Prop :=
  exists px py,
    p = (Fin px, Fin py) /\
    (Qabs (px - clng) <= dlng)%Q /\ (Qabs (py - clat) <= dlat)%Q.

(** A ring that ends where it starts. *)
Definition closed_ring (r : ring) : Prop :=
  exists p0 ps, r = (p0 :: ps ++ [p0])%list.

(** The attribute is a finite number from [lo] to [hi], both included:
    a sum such as [1 + Math.random() * 2] stays below 3 in exact
    arithmetic and may be rounded to 3. *)
Definition number_between (lo hi : Q) (v : jsval) : Prop :=
  exists q, v = VNum (Fin q) /\ (lo <= q <= hi)%Q.

(** The attribute is the integer [n]. *)
Definition integer (n : Z) (v : jsval) : Prop :=
  exists q, v = VNum (Fin q) /\ (q == inject_Z n)%Q.

(** The attribute is one of the given strings. *)
Definition one_of (choices : list string) (v : jsval) : Prop :=
  exists s, v = VStr s /\ In s choices.

(** The attributes of a village that are drawn at random: the population
    is an integer from 500 to 4499, the number of households is the
    population divided by 4.5 and rounded down, and so on. *)
Definition village_attributes (f : GeoFeature) : Prop :=
  (exists population households : Z,
     integer population (get "population" (properties f)) /\
     500 <= population <= 4499 /\
     integer households (get "householdCount" (properties f)) /\
     (inject_Z households * 4.5 <= inject_Z population
      < (inject_Z households + 1) * 4.5)%Q) /\
  number_between 1 3 (get "areaSqKm" (properties f)) /\
  number_between 60 90 (get "literacyRate" (properties f)) /\
  (exists schools : Z,
     integer schools (get "schoolCount" (properties f)) /\ 0 <= schools <= 2) /\
  one_of waterSources (get "waterSource" (properties f)) /\
  one_of roads (get "roadCondition" (properties f)) /\
  one_of buses (get "busFrequency" (properties f)).

(** The village [f] was placed for a taluk of the table, and names it and
    its district. *)
Definition village_of_taluk (f : GeoFeature) (s : Site) : Prop :=
  id f = site_id s /\
  In (site_taluk s) talukDataRaw /\
  get "taluk" (properties f) = VStr (t_name (site_taluk s)) /\
  get "district" (properties f) = VStr (t_district (site_taluk s)) /\
  get "mainCrops" (properties f) = opt_strings (t_crops (site_taluk s)) /\
  get "keyMarkets" (properties f) = opt_strings (t_keyMarkets (site_taluk s)).

(** The polygon of the village [f] is one closed ring of 7 to 10 finite
    positions, each within two base radii (0.01 degrees) of the centre the
    village was placed at, in latitude and in longitude. *)
Definition village_polygon (f : GeoFeature) (s : Site) : Prop :=
  exists clat clng r,
    site_lat s = Fin clat /\ site_lng s = Fin clng /\
    geometry f = Polygon [r] /\
    closed_ring r /\ (7 <= List.length r <= 10)%nat /\
    Forall (near clat clng 0.01 0.01) r.

(** The entries of the pincode table that yield a feature, with their
    cells: those before the first cell that throws whose cell is a valid
    ring. *)
Fixpoint kept_pincodes (cellPolygon : nat -> Cell) (i : nat) (defs : list PincodeDef)
  : list (PincodeDef * ring) :=
  match defs with
  | [] => []
  | p :: rest =>
      match cellPolygon i with
      | CellThrows => []
      | CellPolygon (Some r) =>
          if isValidRing r then (p, r) :: kept_pincodes cellPolygon (S i) rest
          else kept_pincodes cellPolygon (S i) rest
      | CellPolygon None => kept_pincodes cellPolygon (S i) rest
      end
  end.

(** What a pincode feature takes from its entry of the table and from its
    cell. *)
Definition pincode_of_entry (entry : PincodeDef * ring) (f : GeoFeature) : Prop :=
  let p := fst entry in
  id f = "pin-" ++ p_code p /\
  geocode_of f = VStr ("KAP" ++ p_code p) /\
  get "name" (properties f) = VStr (p_code p ++ " - " ++ p_areaName p) /\
  get "district" (properties f) = VStr (p_district p) /\
  get "keyMarkets" (properties f)
    = VStrings (match p_markets p with Some l => l | None => [] end) /\
  geometry f = Polygon [snd entry].

(** The attributes of a pincode that are drawn at random. *)
Definition pincode_attributes (f : GeoFeature) : Prop :=
  (exists population households : Z,
     integer population (get "population" (properties f)) /\
     20000 <= population <= 99999 /\
     integer households (get "householdCount" (properties f)) /\
     (inject_Z households * 4 <= inject_Z population < (inject_Z households + 1) * 4)%Q) /\
  number_between 10 30 (get "areaSqKm" (properties f)) /\
  number_between 75 95 (get "literacyRate" (properties f)) /\
  one_of ["Delivery Available"; "Non-Delivery"] (get "deliveryStatus" (properties f)) /\
  (exists area status suffix,
     In (status, suffix) [("Head Post Office", "H.O"); ("Sub Post Office", "S.O");
                          ("Branch Post Office", "B.O")] /\
     get "postOfficeStatus" (properties f) = VStr status /\
     get "postOfficeName" (properties f) = VStr (area ++ " " ++ suffix)).

End GeoProps.
(* ================================================================== *)
(** ** Reading records *)
(* ================================================================== *)

Module CsvProps.
Import Csv.

(** The position of the last header equal to [key], counted from [i]. *)
Fixpoint last_index (key : string) (headers : list string) (i : nat) : option nat :=
  match headers with
  | [] => None
  | h :: rest =>
      match last_index key rest (S i) with
      | Some j => Some j
      | None => if String.eqb h key then Some i else None
      end
  end.

(** The last entry of an object literal under [key]. *)
Definition last_entry (key : string) (entries : list (string * jsval)) : option jsval :=
  option_map snd (find (fun kv => String.eqb (fst kv) key) (rev entries)).

(** What a merge leaves of a feature: the same id and geometry and at
    least the same attribute keys. *)
Definition kept (f f' : GeoFeature) : Prop :=
  id f' = id f /\
  geometry f' = geometry f /\
  incl (map fst (properties f)) (map fst (properties f')).

End CsvProps.
(* ================================================================== *)
(** ** Filters and selections ([src/App.tsx]) *)
(* ================================================================== *)

Module Filters.

(** [a >= b] on numbers. *)
Definition geb (a b : jsnum) : bool :=
  match a, b with
  | NaN, _ | _, NaN => false
  | _, _ => negb (a <? b)%js
  end.

(** [s.properties.category]: by its type a string or [undefined]. *)
Definition category_of (s : GeoFeature) : option string :=
  match get "category" (properties s) with
  | V (JStr c) => Some c
  | _ => None
  end.

(** [s.properties.rating]: by its type a number or [undefined]. *)
Definition rating_of (s : GeoFeature) : option jsnum :=
  match get "rating" (properties s) with
  | V (JNum r) => Some r
  | _ => None
  end.

(** Lines 405-407: [selectedCategories.has(s.properties.category || '')],
    when a category is selected at all. *)
Definition category_passes (selectedCategories : list string) (s : GeoFeature) : bool :=
  match selectedCategories with
  | [] => true
  | _ => mem (Osm.or_else (category_of s) EmptyString) selectedCategories
  end.

(** Lines 411-421: the rating reaches one of the selected buckets, when a
    bucket is selected at all. *)
Definition rating_passes (selectedRatings : list jsnum) (s : GeoFeature) : bool :=
  match selectedRatings with
  | [] => true
  | _ =>
      match rating_of s with
      | None => false
      | Some r => existsb (fun stars => geb r stars) selectedRatings
      end
  end.

(** Lines 402-425: [filteredStores]. *)
Definition filteredStores (stores : list GeoFeature)
    (selectedCategories : list string) (selectedRatings : list jsnum) : list GeoFeature :=
  filter (fun s => category_passes selectedCategories s && rating_passes selectedRatings s)
         stores.

(** [array.sort()] on strings: the ascending order of the code units.  The
    order is total, so the outcome does not depend on the sorting method;
    an insertion sort stands for it. *)
Fixpoint insert_sorted (x : string) (sorted : list string) : list string :=
  match sorted with
  | [] => [x]
  | y :: rest => if String.leb x y then x :: y :: rest else y :: insert_sorted x rest
  end.

Definition sort (l : list string) : list string := fold_right insert_sorted [] l.

(** Each string is below the next one. *)
Fixpoint ascending (l : list string) : Prop :=
  match l with
  | x :: (y :: _) as rest => String.ltb x y = true /\ ascending rest
  | _ => True
  end.

(** Lines 393-399: [availableCategories]; [cats.add] is the insertion into
    an ordered set, as in the export. *)
Definition availableCategories (stores : list GeoFeature) : list string :=
  sort (fold_left (fun cats s =>
                     match category_of s with
                     | Some (String c rest) => Csv.add_key cats (String c rest)
                     | _ => cats
                     end)
                  stores []).

(** Lines 427-432 and 454-462: [toggleCategory] and [toggleRegion], on the
    elements of the selection. *)
Definition toggle {A : Type} (eqb : A -> A -> bool) (selection : list A) (x : A) : list A :=
  if existsb (eqb x) selection
  then filter (fun y => negb (eqb x y)) selection
  else (selection ++ [x])%list.

Definition toggleCategory (selectedCategories : list string) (cat : string) : list string :=
  toggle String.eqb selectedCategories cat.

Definition toggleRegion (selectedRegionIndices : list nat) (index : nat) : list nat :=
  toggle Nat.eqb selectedRegionIndices index.

(** Lines 357-379: the box of a scan region, from the first ring of the
    polygon of a taluk. *)
Definition region_bbox (ring : list point) : Osm.BBox :=
  let lats := map snd ring in
  let lngs := map fst ring in
  {| Osm.south := JsNum.min_list lats;
     Osm.west := JsNum.min_list lngs;
     Osm.north := JsNum.max_list lats;
     Osm.east := JsNum.max_list lngs |}.

End Filters.

(* ================================================================== *)
(** * Properties *)
(* ================================================================== *)

Unset Implicit Arguments.

(** ** The retail scanner *)

Module OsmFacts.
Import Osm.
Local Open Scope list_scope.

Section ScannerFacts.

Variable sinQ : Q -> Q.
Variable parseFloat : string -> jsnum.
Variable World : Type.
Variable fetch : BBox -> World -> FetchOutcome * World.
Variable random : World -> Q * World.

Local Notation State := (State World).
Local Notation exec := (executeOverpassQuery sinQ parseFloat fetch random).
Local Notation exec_body := (executeOverpassQuery_body sinQ parseFloat fetch random).
Local Notation bounded := (fetchRetailStoresBounded sinQ parseFloat fetch random).
Local Notation bounded_body := (fetchRetailStoresBounded_body sinQ parseFloat fetch random).

(** [executeOverpassQuery] satisfies the recursive equation of the source:
    the attempt budget of the embedding is never exhausted. *)
Lemma executeOverpassQuery_unfold (query : BBox) (attempt : nat) (st : State) :
  exec query attempt st = exec_body (exec query) query attempt st.
Proof.
  unfold executeOverpassQuery.
  destruct (6 - attempt)%nat as [|b] eqn:Hb.
  - (* attempt >= 6: no branch of the body calls itself *)
    simpl. unfold executeOverpassQuery_body.
    assert (H5 : (attempt <=? 5)%nat = false) by (apply Nat.leb_gt; lia).
    assert (H2 : (attempt <=? 2)%nat = false) by (apply Nat.leb_gt; lia).
    rewrite H5, H2.
    destruct (do_fetch fetch query attempt st) as [[status body|err] st1];
      rewrite ?andb_false_r; try reflexivity.
    destruct (negb _); try reflexivity.
    destruct body; rewrite ?andb_false_r; reflexivity.
  - assert (Hb' : (6 - (attempt + 1))%nat = b) by lia.
    change (executeOverpassQuery_from sinQ parseFloat fetch random (S b) query attempt st)
      with (exec_body (executeOverpassQuery_from sinQ parseFloat fetch random b query)
                      query attempt st).
    unfold executeOverpassQuery_body. cbv beta.
    rewrite Hb'. reflexivity.
Qed.

(** Likewise [fetchRetailStoresBounded]: the depth budget is never
    exhausted, the function is the one the source defines. *)
Lemma fetchRetailStoresBounded_unfold (box : BBox) (depth : nat) (st : State) :
  bounded box depth st = bounded_body (bounded) box depth st.
Proof.
  unfold fetchRetailStoresBounded.
  destruct (2 - depth)%nat as [|b] eqn:Hb.
  - simpl. unfold fetchRetailStoresBounded_body.
    assert (H2 : (depth <? 2)%nat = false) by (apply Nat.ltb_ge; lia).
    rewrite H2. reflexivity.
  - assert (Hb' : (2 - (depth + 1))%nat = b) by lia.
    change (fetchRetailStoresBounded_from sinQ parseFloat fetch random (S b) box depth st)
      with (bounded_body (fetchRetailStoresBounded_from sinQ parseFloat fetch random b)
                         box depth st).
    unfold fetchRetailStoresBounded_body. cbv beta.
    rewrite Hb'. reflexivity.
Qed.

(** *** One query against particular answers *)

(** A 2xx answer settles the query at once with the transformed elements
    that carry coordinates. *)
Lemma exec_success (box : BBox) (attempt : nat) (st : State)
    (status : Z) (elements : option (list OsmElement)) (w' : World) :
  fetch box (world st) = (Response status (BodyData elements), w') ->
  response_ok status = true ->
  exec box attempt st =
    (Ok (map (transformToGeoFeature sinQ parseFloat)
             (filter has_coordinates
                     match elements with Some els => els | None => [] end)),
     {| world := w'; trace := trace st ++ [EvFetch box attempt] |}).
Proof.
  intros Hf Hok.
  rewrite executeOverpassQuery_unfold.
  unfold executeOverpassQuery_body, do_fetch.
  rewrite Hf, Hok. reflexivity.
Qed.

(** A non-2xx answer at the given attempt, one step of the body. *)
Lemma exec_step_gateway (box : BBox) (attempt : nat) (st : State)
    (status : Z) (body : JsonBody) (w' : World) :
  fetch box (world st) = (Response status body, w') ->
  status = 504 \/ status = 502 ->
  (attempt <= 2)%nat ->
  exec box attempt st =
    exec box (attempt + 1)
         {| world := w';
            trace := trace st ++ [EvFetch box attempt; EvSleep (Fin 2000)] |}.
Proof.
  intros Hf Hs Ha.
  rewrite executeOverpassQuery_unfold.
  unfold executeOverpassQuery_body, do_fetch.
  rewrite Hf.
  apply Nat.leb_le in Ha.
  destruct Hs; subst status; cbn [response_ok negb]; rewrite Ha;
    simpl; unfold sleep, log; simpl; rewrite <- app_assoc; reflexivity.
Qed.

Lemma exec_give_up_gateway (box : BBox) (attempt : nat) (st : State)
    (status : Z) (body : JsonBody) (w' : World) :
  fetch box (world st) = (Response status body, w') ->
  status = 504 \/ status = 502 ->
  (2 < attempt)%nat ->
  exec box attempt st =
    (Throw (mkError "Error" ("OSM_ERROR_" ++ JsString.ofZ status)%string),
     {| world := w'; trace := trace st ++ [EvFetch box attempt] |}).
Proof.
  intros Hf Hs Ha.
  rewrite executeOverpassQuery_unfold.
  unfold executeOverpassQuery_body, do_fetch.
  rewrite Hf.
  apply Nat.leb_gt in Ha.
  destruct Hs; subst status; cbn [response_ok negb]; rewrite Ha;
    simpl; reflexivity.
Qed.

(** An endpoint that answers a box with 504 (or 502) every time: the query
    is sent three times, two seconds apart, and rejected with
    [OSM_ERROR_<status>]. *)
Lemma exec_gateway (box : BBox) (status : Z) (st : State) :
  status = 504 \/ status = 502 ->
  (forall w, exists body w', fetch box w = (Response status body, w')) ->
  exists st',
    exec box 1 st =
      (Throw (mkError "Error" ("OSM_ERROR_" ++ JsString.ofZ status)%string), st') /\
    trace st' = trace st ++ [EvFetch box 1; EvSleep (Fin 2000);
                             EvFetch box 2; EvSleep (Fin 2000);
                             EvFetch box 3].
Proof.
  intros Hs Hall.
  destruct (Hall (world st)) as (b1 & w1 & H1).
  rewrite (exec_step_gateway box 1 st status b1 w1 H1 Hs) by lia.
  set (st1 := {| world := w1; trace := _ |}).
  destruct (Hall (world st1)) as (b2 & w2 & H2).
  rewrite (exec_step_gateway box (1 + 1) st1 status b2 w2 H2 Hs) by lia.
  set (st2 := {| world := w2; trace := _ |}).
  destruct (Hall (world st2)) as (b3 & w3 & H3).
  rewrite (exec_give_up_gateway box (1 + 1 + 1) st2 status b3 w3 H3 Hs) by lia.
  eexists. split; [reflexivity|].
  subst st2 st1. simpl. rewrite <- !app_assoc. reflexivity.
Qed.

(** *** The quadrant loop *)

Lemma scan_quadrants_cons (recurse : BBox -> M World (list GeoFeature))
    (q : BBox) (rest : list BBox) (results : list GeoFeature) (st : State) :
  scan_quadrants recurse (q :: rest) results st =
    scan_quadrants recurse rest
      (results ++ fst (quadrant_contribution recurse q st))
      (snd (quadrant_contribution recurse q st)).
Proof.
  unfold quadrant_contribution. simpl.
  destruct (recurse q st) as [[qRes|e] st1]; simpl.
  - reflexivity.
  - rewrite app_nil_r. reflexivity.
Qed.

(** The loop never rejects: whatever the quadrants do, it is fulfilled. *)
Lemma scan_quadrants_fulfilled (recurse : BBox -> M World (list GeoFeature))
    (qs : list BBox) (results : list GeoFeature) (st : State) :
  exists l st', scan_quadrants recurse qs results st = (Ok l, st').
Proof.
  revert results st. induction qs as [|q qs IH]; intros results st.
  - simpl. eauto.
  - rewrite scan_quadrants_cons. apply IH.
Qed.


(** The four quadrants of a split, scanned in the order SW, SE, NW, NE, each
    on the state its predecessor left. *)
Lemma split_into_quadrants
    (box : BBox) (depth : nat) (st st1 : State) (error : JsError) :
  exec box 1 (log (EvCall depth box) st) = (Throw error, st1) ->
  is_rate_limit (error_text error) = false ->
  (depth < 2)%nat ->
  is_gateway_or_timeout (error_text error) = true ->
  bounded box depth st =
    scan_quadrants (fun q => bounded q (depth + 1)) (quadrants_of box) [] st1.
Proof.
  intros Hq Hrate Hd Hgw.
  rewrite fetchRetailStoresBounded_unfold.
  unfold fetchRetailStoresBounded_body.
  rewrite Hq, Hrate, Hgw.
  apply Nat.ltb_lt in Hd. rewrite Hd. reflexivity.
Qed.

(** The pause of line 303 in the trace: a fulfilled quadrant is followed
    by one pause of 200 ms, a rejected one by none. *)
Lemma quadrant_pacing (recurse : BBox -> M World (list GeoFeature))
    (q : BBox) (st : State) :
  trace (snd (quadrant_contribution recurse q st)) =
    trace (snd (recurse q st))
    ++ match fst (recurse q st) with
       | Ok _ => [EvSleep (Fin 200)]
       | Throw _ => []
       end.
Proof.
  unfold quadrant_contribution.
  destruct (recurse q st) as [[qRes|e] st1]; cbn [fst snd].
  - reflexivity.
  - rewrite app_nil_r. reflexivity.
Qed.

(** The split on a gateway failure.  When the query of a call fails with
    an error that is not the rate limit:
    - if the depth is below 2 and the error is of the gateway/timeout kind
      (its text contains [OSM_ERROR_504], [OSM_ERROR_502] or [timeout]), the
      box is cut at the midpoint latitude and longitude into the quadrants
      SW, SE, NW, NE; these are scanned one after the other at depth + 1,
      each on the state its predecessor left; a fulfilled quadrant adds its
      features and is followed by a 200 ms pause, a rejected one adds
      nothing; the call is fulfilled with the concatenation;
    - otherwise (depth 2 reached, or another kind of error) the call is
      fulfilled with the empty list when depth > 0 and rejected with the
      error itself when depth = 0. *)
Theorem quadrant_split_on_gateway_failure
    (box : BBox) (depth : nat) (st st1 : State) (error : JsError) :
  exec box 1 (log (EvCall depth box) st) = (Throw error, st1) ->
  is_rate_limit (error_text error) = false ->
  ((depth < 2)%nat -> is_gateway_or_timeout (error_text error) = true ->
     let midLat := ((south box + north box) / Fin 2)%js in
     let midLng := ((west box + east box) / Fin 2)%js in
     let recurse := fun q => bounded q (depth + 1) in
     let sw := quadrant_contribution recurse
                 (mkBBox (south box) (west box) midLat midLng) st1 in
     let se := quadrant_contribution recurse
                 (mkBBox (south box) midLng midLat (east box)) (snd sw) in
     let nw := quadrant_contribution recurse
                 (mkBBox midLat (west box) (north box) midLng) (snd se) in
     let ne := quadrant_contribution recurse
                 (mkBBox midLat midLng (north box) (east box)) (snd nw) in
     bounded box depth st = (Ok (fst sw ++ fst se ++ fst nw ++ fst ne), snd ne))
  /\
  ((2 <= depth)%nat \/ is_gateway_or_timeout (error_text error) = false ->
     ((0 < depth)%nat -> bounded box depth st = (Ok [], st1)) /\
     (depth = 0%nat -> bounded box depth st = (Throw error, st1))).
Proof.
  intros Hq Hrate. split.
  - intros Hd Hgw. cbv zeta.
    rewrite (split_into_quadrants box depth st st1 error Hq Hrate Hd Hgw).
    unfold quadrants_of.
    rewrite !scan_quadrants_cons. cbn [scan_quadrants app].
    rewrite <- !app_assoc. reflexivity.
  - intros Hno.
    assert (Hcond : ((depth <? 2)%nat && is_gateway_or_timeout (error_text error)) = false).
    { destruct Hno as [Hd | Hgw].
      - apply Nat.ltb_ge in Hd. rewrite Hd. reflexivity.
      - rewrite Hgw. apply andb_false_r. }
    split; intros Hd;
      rewrite fetchRetailStoresBounded_unfold;
      unfold fetchRetailStoresBounded_body;
      rewrite Hq, Hrate, Hcond.
    + apply Nat.ltb_lt in Hd. rewrite Hd. reflexivity.
    + subst depth. reflexivity.
Qed.

(** *** A fetch that times out *)

(** One rejected fetch, one step of the body. *)
Lemma exec_step_abort (box : BBox) (attempt : nat) (st : State)
    (e : JsError) (w' : World) :
  fetch box (world st) = (Rejected e, w') ->
  err_name e = "AbortError"%string ->
  (attempt <= 2)%nat ->
  exec box attempt st =
    exec box (attempt + 1) {| world := w'; trace := trace st ++ [EvFetch box attempt] |}.
Proof.
  intros Hf Hn Ha.
  rewrite executeOverpassQuery_unfold. unfold executeOverpassQuery_body, do_fetch.
  rewrite Hf, Hn. apply Nat.leb_le in Ha. rewrite Ha. reflexivity.
Qed.

Lemma exec_rejected_final (box : BBox) (attempt : nat) (st : State)
    (e : JsError) (w' : World) :
  fetch box (world st) = (Rejected e, w') ->
  err_name e <> "AbortError"%string \/ (2 < attempt)%nat ->
  exec box attempt st =
    (Throw e, {| world := w'; trace := trace st ++ [EvFetch box attempt] |}).
Proof.
  intros Hf Hn.
  rewrite executeOverpassQuery_unfold. unfold executeOverpassQuery_body, do_fetch.
  rewrite Hf.
  destruct Hn as [Hn | Ha].
  - apply String.eqb_neq in Hn. rewrite Hn. reflexivity.
  - apply Nat.leb_gt in Ha. rewrite Ha, andb_false_r. reflexivity.
Qed.

(** A box whose fetch is aborted every time: the query is sent three times
    and rejected with the [AbortError]. *)
Lemma exec_aborted (box : BBox) (e : JsError) (st : State) :
  err_name e = "AbortError"%string ->
  (forall w, exists w', fetch box w = (Rejected e, w')) ->
  exists st',
    exec box 1 st = (Throw e, st') /\
    trace st' = trace st ++ [EvFetch box 1; EvFetch box 2; EvFetch box 3].
Proof.
  intros Hn Hall.
  destruct (Hall (world st)) as (w1 & H1).
  rewrite (exec_step_abort box 1 st e w1 H1 Hn) by lia.
  set (st1 := {| world := w1; trace := _ |}).
  destruct (Hall (world st1)) as (w2 & H2).
  rewrite (exec_step_abort box (1 + 1) st1 e w2 H2 Hn) by lia.
  set (st2 := {| world := w2; trace := _ |}).
  destruct (Hall (world st2)) as (w3 & H3).
  rewrite (exec_rejected_final box (1 + 1 + 1) st2 e w3 H3) by (right; lia).
  eexists. split; [reflexivity|].
  subst st2 st1. cbn [trace]. rewrite <- !app_assoc. reflexivity.
Qed.

(** The scan of such a box does not split, at any depth, as long as the
    text of the [AbortError] holds none of the three markers of line 278:
    after the three POSTs the call is rejected with the [AbortError] at
    depth 0 and fulfilled with the empty list below; no quadrant is
    scanned. *)
Lemma aborted_fetch_is_not_split (box : BBox) (depth : nat) (e : JsError) (st : State) :
  err_name e = "AbortError"%string ->
  is_rate_limit (error_text e) = false ->
  is_gateway_or_timeout (error_text e) = false ->
  (forall w, exists w', fetch box w = (Rejected e, w')) ->
  exists st',
    bounded box depth st = (if (0 <? depth)%nat then Ok [] else Throw e, st') /\
    trace st' = trace st ++ [EvCall depth box; EvFetch box 1; EvFetch box 2; EvFetch box 3].
Proof.
  intros Hn Hrate Hgw Hall.
  destruct (exec_aborted box e (log (EvCall depth box) st) Hn Hall) as (st' & He & Ht).
  exists st'. split.
  - rewrite fetchRetailStoresBounded_unfold. unfold fetchRetailStoresBounded_body.
    rewrite He, Hrate, Hgw, andb_false_r.
    destruct (0 <? depth)%nat; reflexivity.
  - rewrite Ht. unfold log. cbn [trace]. rewrite <- app_assoc. reflexivity.
Qed.

(** *** The rate limit *)

Lemma exec_step_429 (box : BBox) (attempt : nat) (st : State)
    (body : JsonBody) (w' : World) :
  fetch box (world st) = (Response 429 body, w') ->
  (attempt <= 5)%nat ->
  exec box attempt st =
    exec box (attempt + 1)
         {| world := snd (random w');
            trace := trace st ++
                     [EvFetch box attempt;
                      EvSleep (Fin (3000 * inject_Z (2 ^ Z.of_nat (attempt - 1))
                                    + fst (random w') * 1000))] |}.
Proof.
  intros Hf Ha.
  rewrite executeOverpassQuery_unfold.
  unfold executeOverpassQuery_body, do_fetch, do_random.
  rewrite Hf. cbn [response_ok negb world trace].
  apply Nat.leb_le in Ha. rewrite Ha.
  change ((429 =? 429) && true) with true. cbv iota.
  destruct (random w') as [r w2]. cbn [fst snd].
  unfold sleep, log, backoff_delay. cbn [world trace JsNum.add JsNum.mul].
  rewrite <- app_assoc. reflexivity.
Qed.

Lemma exec_give_up_429 (box : BBox) (attempt : nat) (st : State)
    (body : JsonBody) (w' : World) :
  fetch box (world st) = (Response 429 body, w') ->
  (5 < attempt)%nat ->
  exec box attempt st =
    (Throw error_429, {| world := w'; trace := trace st ++ [EvFetch box attempt] |}).
Proof.
  intros Hf Ha.
  rewrite executeOverpassQuery_unfold.
  unfold executeOverpassQuery_body, do_fetch.
  rewrite Hf. cbn [response_ok negb world trace].
  assert (H5 : (attempt <=? 5)%nat = false) by (apply Nat.leb_gt; lia).
  assert (H2 : (attempt <=? 2)%nat = false) by (apply Nat.leb_gt; lia).
  rewrite H5, H2. reflexivity.
Qed.

(** A box answered 429 every time: starting at [attempt], the query is
    retried until attempt 6 and then rejected with [OSM_ERROR_429]. *)
Lemma exec_rate_limited (box : BBox) :
  (forall w, exists body w', fetch box w = (Response 429 body, w')) ->
  forall (n attempt : nat) (st : State),
    (attempt + n = 6)%nat ->
    exists st' draws,
      exec box attempt st = (Throw error_429, st') /\
      trace st' = trace st ++
                  rate_limited_events box attempt (map (fun r => r * 1000)%Q draws) /\
      List.length draws = n /\
      Forall (fun r => exists w, r = fst (random w)) draws.
Proof.
  intros Hall n. induction n as [|n IH]; intros attempt st Hn.
  - destruct (Hall (world st)) as (b & w1 & Hf).
    rewrite (exec_give_up_429 box attempt st b w1 Hf) by lia.
    exists {| world := w1; trace := trace st ++ [EvFetch box attempt] |}, [].
    repeat split; constructor.
  - destruct (Hall (world st)) as (b & w1 & Hf).
    rewrite (exec_step_429 box attempt st b w1 Hf) by lia.
    set (st1 := {| world := _; trace := _ |}).
    destruct (IH (attempt + 1)%nat st1 ltac:(lia)) as (st' & draws & He & Ht & Hl & Hd).
    exists st', (fst (random w1) :: draws).
    repeat split.
    + exact He.
    + rewrite Ht. subst st1. cbn [trace map rate_limited_events].
      rewrite <- app_assoc. cbn [app].
      replace (attempt + 1)%nat with (S attempt) by lia. reflexivity.
    + simpl. lia.
    + constructor; [eauto | exact Hd].
Qed.

(** A 429 that outlives the retries of [executeOverpassQuery] ends the call
    at any depth, with no further query. *)
Lemma no_split_on_rate_limit (box : BBox) (depth : nat) (st st1 : State)
    (error : JsError) :
  exec box 1 (log (EvCall depth box) st) = (Throw error, st1) ->
  is_rate_limit (error_text error) = true ->
  bounded box depth st = (Throw rate_limit_error, st1).
Proof.
  intros Hq Hrate.
  rewrite fetchRetailStoresBounded_unfold.
  unfold fetchRetailStoresBounded_body.
  rewrite Hq, Hrate. reflexivity.
Qed.

(** C4.  A box that is answered HTTP 429 every time, scanned at any depth:
    the query is sent six times, that is retried five times; the pause
    before retry k is 3000 * 2^(k-1) ms plus a jitter in [0, 1000) (the
    jitter is [Math.random() * 1000]); after the fifth retry the call is
    rejected with the rate-limit error, and the trace holds no other call:
    the box is not split. *)
Theorem rate_limit_retries_then_fatal (box : BBox) (depth : nat) (st : State) :
  (forall w, exists body w', fetch box w = (Response 429 body, w')) ->
  (forall w, 0 <= fst (random w) < 1)%Q ->
  exists st' jitters,
    bounded box depth st = (Throw rate_limit_error, st') /\
    trace st' = trace st ++ EvCall depth box :: rate_limited_events box 1 jitters /\
    List.length jitters = 5%nat /\
    Forall (fun j => 0 <= j < 1000)%Q jitters.
Proof.
  intros Hall Hrand.
  destruct (exec_rate_limited box Hall 5 1 (log (EvCall depth box) st) eq_refl)
    as (st' & draws & He & Ht & Hl & Hd).
  exists st', (map (fun r => r * 1000)%Q draws).
  repeat split.
  - apply no_split_on_rate_limit with (error := error_429); [exact He | reflexivity].
  - rewrite Ht. unfold log. cbn [trace]. rewrite <- app_assoc. reflexivity.
  - rewrite length_map. exact Hl.
  - apply Forall_map. eapply Forall_impl; [|exact Hd].
    cbv beta. intros r [w ->]. destruct (Hrand w). split; lra.
Qed.

(** *** Bounds that hold against every endpoint *)

Lemma call_depths_app (a b : list Event) :
  call_depths (a ++ b) = call_depths a ++ call_depths b.
Proof. apply flat_map_app. Qed.

Lemma count_fetches_app (a b : list Event) :
  count_fetches (a ++ b) = (count_fetches a + count_fetches b)%nat.
Proof. unfold count_fetches. rewrite filter_app, length_app. reflexivity. Qed.

Lemma calls_at_app (d : nat) (a b : list Event) :
  calls_at d (a ++ b) = (calls_at d a + calls_at d b)%nat.
Proof. unfold calls_at. rewrite call_depths_app. apply count_occ_app. Qed.

Lemma query_events_step (n : nat) (pre evs : list Event) :
  call_depths pre = [] -> (count_fetches pre <= 1)%nat ->
  query_events n evs -> query_events (S n) (pre ++ evs).
Proof.
  intros Hc Hf [Hc' Hf']. split.
  - rewrite call_depths_app, Hc, Hc'. reflexivity.
  - rewrite count_fetches_app. lia.
Qed.

Lemma exec_body_trace (self : nat -> M World (list GeoFeature)) (n : nat) :
  (forall a st, exists evs,
      trace (snd (self a st)) = trace st ++ evs /\ query_events n evs) ->
  forall query attempt st, exists evs,
      trace (snd (exec_body self query attempt st)) = trace st ++ evs /\
      query_events (S n) evs.
Proof.
  intros Hself query attempt st.
  assert (Hend : forall w : World, exists evs,
             trace (mkState w (trace st ++ [EvFetch query attempt]))
             = trace st ++ evs /\ query_events (S n) evs).
  { intros w. exists [EvFetch query attempt]. split; [reflexivity|].
    split; [reflexivity | unfold count_fetches; simpl; lia]. }
  assert (Hgo : forall st1 pre,
             trace st1 = trace st ++ pre ->
             call_depths pre = [] -> (count_fetches pre <= 1)%nat ->
             exists evs,
               trace (snd (self (attempt + 1)%nat st1)) = trace st ++ evs /\
               query_events (S n) evs).
  { intros st1 pre Hpre Hc Hf.
    destruct (Hself (attempt + 1)%nat st1) as (evs & Ht & Hq).
    exists (pre ++ evs). split.
    - rewrite Ht, Hpre, app_assoc. reflexivity.
    - apply query_events_step; assumption. }
  unfold executeOverpassQuery_body, do_fetch, do_random.
  destruct (fetch query (world st)) as [[status body|err] w1]; cbn [world trace].
  - destruct (negb (response_ok status)).
    + destruct ((status =? 429) && (attempt <=? 5)%nat).
      * destruct (random w1) as [r w2].
        apply Hgo with (pre := [EvFetch query attempt; EvSleep (backoff_delay attempt r)]).
        -- unfold sleep, log. cbn [trace]. rewrite <- app_assoc. reflexivity.
        -- reflexivity.
        -- unfold count_fetches; simpl; lia.
      * destruct (((status =? 504) || (status =? 502)) && (attempt <=? 2)%nat).
        -- apply Hgo with (pre := [EvFetch query attempt; EvSleep (Fin 2000)]).
           ++ unfold sleep, log. cbn [trace]. rewrite <- app_assoc. reflexivity.
           ++ reflexivity.
           ++ unfold count_fetches; simpl; lia.
        -- destruct (_ && _).
           ++ apply Hgo with (pre := [EvFetch query attempt]);
                [reflexivity | reflexivity | unfold count_fetches; simpl; lia].
           ++ apply Hend.
    + destruct body as [els|err].
      * apply Hend.
      * destruct (_ && _).
        -- apply Hgo with (pre := [EvFetch query attempt]);
             [reflexivity | reflexivity | unfold count_fetches; simpl; lia].
        -- apply Hend.
  - destruct (_ && _).
    + apply Hgo with (pre := [EvFetch query attempt]);
        [reflexivity | reflexivity | unfold count_fetches; simpl; lia].
    + apply Hend.
Qed.

Lemma exec_from_trace (budget : nat) (query : BBox) (attempt : nat) (st : State) :
  exists evs,
    trace (snd (executeOverpassQuery_from sinQ parseFloat fetch random
                  budget query attempt st)) = trace st ++ evs /\
    query_events (S budget) evs.
Proof.
  revert attempt st. induction budget as [|b IH]; intros attempt st.
  - change (executeOverpassQuery_from sinQ parseFloat fetch random 0 query attempt st)
      with (exec_body (fun _ st' => (Throw (mkError "RangeError" "attempt budget exceeded"), st'))
                      query attempt st).
    apply exec_body_trace. intros a st'. exists []. split.
    + simpl. rewrite app_nil_r. reflexivity.
    + split; [reflexivity | unfold count_fetches; simpl; lia].
  - change (executeOverpassQuery_from sinQ parseFloat fetch random (S b) query attempt st)
      with (exec_body (executeOverpassQuery_from sinQ parseFloat fetch random b query)
                      query attempt st).
    apply exec_body_trace. intros a st'. apply IH.
Qed.

(** One query sends at most six POSTs. *)
Lemma exec_trace (query : BBox) (st : State) :
  exists evs,
    trace (snd (exec query 1 st)) = trace st ++ evs /\ query_events 6 evs.
Proof. apply (exec_from_trace 5 query 1 st). Qed.

Lemma scan_events_nil (lo hi : nat) : scan_events lo hi 0 0 [].
Proof. repeat split; simpl; auto. Qed.

Lemma scan_events_sleep (lo hi : nat) (ms : jsnum) : scan_events lo hi 0 0 [EvSleep ms].
Proof. repeat split; simpl; auto. Qed.

Lemma scan_events_app (lo hi l1 c1 l2 c2 : nat) (a b : list Event) :
  scan_events lo hi l1 c1 a -> scan_events lo hi l2 c2 b ->
  scan_events lo hi (l1 + l2) (c1 + c2) (a ++ b).
Proof.
  intros (Fa & La & Ca & Qa) (Fb & Lb & Cb & Qb). repeat split.
  - rewrite call_depths_app. apply Forall_app. split; assumption.
  - rewrite calls_at_app. lia.
  - rewrite call_depths_app, length_app. lia.
  - rewrite count_fetches_app, call_depths_app, length_app. lia.
Qed.

Lemma scan_events_weaken (lo lo' hi l c l' c' : nat) (evs : list Event) :
  (lo' <= lo)%nat -> (l <= l')%nat -> (c <= c')%nat ->
  scan_events lo hi l c evs -> scan_events lo' hi l' c' evs.
Proof.
  intros Hlo Hl Hc (F & L & C & Q). repeat split; try lia.
  eapply Forall_impl; [|exact F]. cbv beta. intros d Hd. lia.
Qed.

(** The events of the first part of a call: its marker and its query. *)
Lemma scan_events_call (depth hi : nat) (box : BBox) (evs : list Event) :
  (depth <= hi)%nat -> query_events 6 evs ->
  scan_events depth hi (if (depth =? hi)%nat then 1 else 0) 1 (EvCall depth box :: evs).
Proof.
  intros Hd [Hc Hf]. unfold scan_events, calls_at.
  change (EvCall depth box :: evs) with ([EvCall depth box] ++ evs).
  rewrite call_depths_app, count_fetches_app, Hc. cbn [call_depths flat_map app].
  repeat split.
  - constructor; [lia | constructor].
  - cbn. destruct (Nat.eq_dec depth hi) as [E|E].
    + apply Nat.eqb_eq in E. rewrite E. lia.
    + lia.
  - simpl. lia.
  - unfold count_fetches at 1. simpl. lia.
Qed.

Lemma scan_quadrants_trace (recurse : BBox -> M World (list GeoFeature))
    (lo hi leaves calls : nat) :
  (forall q st, exists evs,
      trace (snd (recurse q st)) = trace st ++ evs /\
      scan_events lo hi leaves calls evs) ->
  forall qs results st, exists evs,
      trace (snd (scan_quadrants recurse qs results st)) = trace st ++ evs /\
      scan_events lo hi (List.length qs * leaves) (List.length qs * calls) evs.
Proof.
  intros Hrec qs. induction qs as [|q qs IH]; intros results st.
  - exists []. split; [simpl; rewrite app_nil_r; reflexivity | apply scan_events_nil].
  - cbn [scan_quadrants].
    destruct (Hrec q st) as (evs1 & Ht1 & He1).
    destruct (recurse q st) as [[qRes|e] st1]; cbn [snd] in Ht1.
    + destruct (IH (results ++ qRes) (sleep (Fin 200) st1)) as (evs2 & Ht2 & He2).
      exists (evs1 ++ [EvSleep (Fin 200)] ++ evs2). split.
      * rewrite Ht2. unfold sleep, log. cbn [trace]. rewrite Ht1.
        rewrite <- !app_assoc. reflexivity.
      * cbn [List.length]. replace (S (List.length qs) * leaves)%nat
          with (leaves + (0 + List.length qs * leaves))%nat by lia.
        replace (S (List.length qs) * calls)%nat
          with (calls + (0 + List.length qs * calls))%nat by lia.
        apply scan_events_app; [exact He1|].
        apply scan_events_app; [apply scan_events_sleep | exact He2].
    + destruct (IH results st1) as (evs2 & Ht2 & He2).
      exists (evs1 ++ evs2). split.
      * rewrite Ht2, Ht1, <- app_assoc. reflexivity.
      * cbn [List.length]. replace (S (List.length qs) * leaves)%nat
          with (leaves + List.length qs * leaves)%nat by lia.
        replace (S (List.length qs) * calls)%nat
          with (calls + List.length qs * calls)%nat by lia.
        apply scan_events_app; assumption.
Qed.

Lemma bounded_body_trace (self : BBox -> nat -> M World (list GeoFeature))
    (depth hi leaves calls : nat) :
  (depth <= hi)%nat ->
  (forall q st, exists evs,
      trace (snd (self q (depth + 1)%nat st)) = trace st ++ evs /\
      scan_events (depth + 1) hi leaves calls evs) ->
  forall box st, exists evs,
      trace (snd (bounded_body self box depth st)) = trace st ++ evs /\
      scan_events depth hi ((if (depth =? hi)%nat then 1 else 0) + 4 * leaves)
                  (1 + 4 * calls) evs.
Proof.
  intros Hd Hself box st.
  unfold fetchRetailStoresBounded_body.
  destruct (exec_trace box (log (EvCall depth box) st)) as (evs1 & Ht1 & He1).
  assert (Hhead : forall st1 : State,
             trace st1 = trace (log (EvCall depth box) st) ++ evs1 ->
             exists evs, trace st1 = trace st ++ evs /\
               scan_events depth hi ((if (depth =? hi)%nat then 1 else 0) + 4 * leaves)
                           (1 + 4 * calls) evs).
  { intros st1 H1. exists (EvCall depth box :: evs1). split.
    - rewrite H1. unfold log. cbn [trace]. rewrite <- app_assoc. reflexivity.
    - eapply scan_events_weaken; [| | | apply scan_events_call; eassumption]; lia. }
  destruct (exec box 1 (log (EvCall depth box) st)) as [[fs|error] st1];
    cbn [snd] in Ht1.
  - apply Hhead, Ht1.
  - destruct (is_rate_limit _); [apply Hhead, Ht1|].
    destruct (_ && _).
    + destruct (scan_quadrants_trace (fun q => self q (depth + 1)%nat)
                  (depth + 1) hi leaves calls Hself (quadrants_of box) [] st1)
        as (evs2 & Ht2 & He2).
      exists ((EvCall depth box :: evs1) ++ evs2). split.
      * rewrite Ht2, Ht1. unfold log. cbn [trace]. rewrite <- !app_assoc. reflexivity.
      * apply scan_events_app.
        -- apply scan_events_call; assumption.
        -- eapply scan_events_weaken; [| | | exact He2]; simpl; lia.
    + destruct (0 <? depth)%nat; apply Hhead, Ht1.
Qed.

Lemma bounded_from_trace (budget : nat) :
  forall (box : BBox) (depth : nat) (st : State), exists evs,
    trace (snd (fetchRetailStoresBounded_from sinQ parseFloat fetch random
                  budget box depth st)) = trace st ++ evs /\
    scan_events depth (depth + budget) (4 ^ budget) (tree_size budget) evs.
Proof.
  induction budget as [|b IH]; intros box depth st.
  - change (fetchRetailStoresBounded_from sinQ parseFloat fetch random 0 box depth st)
      with (bounded_body
              (fun _ _ st' => (Throw (mkError "RangeError" "depth budget exceeded"), st'))
              box depth st).
    destruct (bounded_body_trace
                (fun _ _ st' => (Throw (mkError "RangeError" "depth budget exceeded"), st'))
                depth (depth + 0) 0 0 ltac:(lia)) with (box := box) (st := st)
      as (evs & Ht & He).
    + intros q st'. exists []. split;
        [simpl; rewrite app_nil_r; reflexivity | apply scan_events_nil].
    + exists evs. split; [exact Ht|].
      replace (depth =? depth + 0)%nat with true in He
        by (symmetry; apply Nat.eqb_eq; lia).
      exact He.
  - change (fetchRetailStoresBounded_from sinQ parseFloat fetch random (S b) box depth st)
      with (bounded_body (fetchRetailStoresBounded_from sinQ parseFloat fetch random b)
                         box depth st).
    destruct (bounded_body_trace
                (fetchRetailStoresBounded_from sinQ parseFloat fetch random b)
                depth (depth + S b) (4 ^ b) (tree_size b) ltac:(lia))
      with (box := box) (st := st) as (evs & Ht & He).
    + intros q st'. destruct (IH q (depth + 1)%nat st') as (evs & Ht & He).
      exists evs. split; [exact Ht|].
      replace (depth + S b)%nat with (depth + 1 + b)%nat by lia. exact He.
    + exists evs. split; [exact Ht|].
      replace (depth =? depth + S b)%nat with false in He
        by (symmetry; apply Nat.eqb_neq; lia).
      cbn [tree_size]. rewrite Nat.pow_succ_r'. exact He.
Qed.

(** C5.  [fetchRetailStoresBounded] is a total function that satisfies the
    recursive equation of the source, and a call at depth 0 is bounded
    against every endpoint (one that answers 504 for ever included): no call
    lies deeper than depth 2, at most 4^2 = 16 calls are made at depth 2, at
    most 21 calls in all, and each call sends at most six POSTs. *)
Theorem scan_terminates_within_depth_two (box : BBox) (st : State) :
  (forall b d s, bounded b d s = bounded_body bounded b d s) /\
  exists evs,
    trace (snd (bounded box 0 st)) = trace st ++ evs /\
    Forall (fun d => d <= 2)%nat (call_depths evs) /\
    (calls_at 2 evs <= 16)%nat /\
    (List.length (call_depths evs) <= 21)%nat /\
    (count_fetches evs <= 6 * List.length (call_depths evs))%nat.
Proof.
  split; [apply fetchRetailStoresBounded_unfold|].
  destruct (bounded_from_trace 2 box 0 st) as (evs & Ht & (F & L & C & Q)).
  exists evs. split; [exact Ht|]. repeat split; try assumption.
  eapply Forall_impl; [|exact F]. cbv beta. intros d Hd. lia.
Qed.

(** *** A call whose query is answered at once *)


Lemma filter_all {A : Type} (f : A -> bool) (l : list A) :
  forallb f l = true -> filter f l = l.
Proof.
  induction l as [|a l IH]; simpl; [reflexivity|].
  intros H. apply andb_prop in H. destruct H as [Ha Hl].
  rewrite Ha, (IH Hl). reflexivity.
Qed.



End ScannerFacts.

(** C1.  The specification asks for the split on HTTP 502/504 and on a fetch
    timeout.  On 502/504 the code splits ([quadrant_split_on_gateway_failure],
    [gateway_status_splits], [quadrant_pacing]).  On a fetch timeout it does
    not: the timer of line 154 aborts the fetch, which rejects with an
    [AbortError]; after the retries of lines 205-209 this error reaches
    line 268 with a text that holds no [timeout], so the test of line 278
    fails.  Here the endpoint never answers in time and the scenario box is
    scanned at depth 0: the query is sent three times and the scan is
    rejected with the [AbortError]; no quadrant is scanned. *)
Theorem fetch_timeout_is_not_split :
  fetchRetailStoresBounded sin_zero parseFloat_decimal never_answers random_half
    scenario_box 0 initial_state
  = (Throw abort_error,
     {| world := tt;
        trace := [EvCall 0 scenario_box;
                  EvFetch scenario_box 1; EvFetch scenario_box 2; EvFetch scenario_box 3] |})
  /\ is_gateway_or_timeout (error_text abort_error) = false.
Proof.
  split; [|reflexivity].
  destruct (aborted_fetch_is_not_split sin_zero parseFloat_decimal unit never_answers
              random_half scenario_box 0 abort_error initial_state
              eq_refl eq_refl eq_refl
              (fun w => ex_intro _ w eq_refl)) as (st' & He & Ht).
  rewrite He. destruct st' as [[] tr]. cbn [trace initial_state app] in Ht.
  rewrite Ht. reflexivity.
Qed.

(** The split at work: every box answered 504, the scan started at depth 1.
    The query fails after its retries, the four quadrants are scanned at
    depth 2, each of them fails and adds nothing. *)
Lemma quadrant_split_on_gateway_failure_witness :
  exists st1 st',
    executeOverpassQuery sin_zero parseFloat_decimal (always_status 504) random_half
      scenario_box 1 (log (EvCall 1 scenario_box) initial_state)
      = (Throw (mkError "Error" "OSM_ERROR_504"), st1) /\
    fetchRetailStoresBounded sin_zero parseFloat_decimal (always_status 504) random_half
      scenario_box 1 initial_state = (Ok [], st') /\
    call_depths (trace st') = [1; 2; 2; 2; 2]%nat.
Proof.
  eexists. eexists. split; [vm_compute; reflexivity|].
  pose proof (quadrant_split_on_gateway_failure
                sin_zero parseFloat_decimal unit (always_status 504) random_half
                scenario_box 1 initial_state _ (mkError "Error" "OSM_ERROR_504")
                ltac:(vm_compute; reflexivity) eq_refl) as [Hsplit _].
  specialize (Hsplit ltac:(lia) eq_refl). cbv zeta in Hsplit.
  split; [rewrite Hsplit; vm_compute; reflexivity | vm_compute; reflexivity].
Defined.

Lemma rate_limit_retries_then_fatal_witness :
  exists st' jitters,
    fetchRetailStoresBounded sin_zero parseFloat_decimal (always_status 429) random_half
      scenario_box 0 initial_state = (Throw rate_limit_error, st') /\
    trace st' = trace initial_state ++
                EvCall 0 scenario_box :: rate_limited_events scenario_box 1 jitters /\
    List.length jitters = 5%nat /\
    Forall (fun j => 0 <= j < 1000)%Q jitters.
Proof.
  apply (rate_limit_retries_then_fatal
           sin_zero parseFloat_decimal unit (always_status 429) random_half
           scenario_box 0 initial_state).
  - intros w. exists (BodyData None), w. reflexivity.
  - intros w. simpl. split; [discriminate | reflexivity].
Defined.


(** The scenario run on the mocked endpoint: the ids of the twelve features
    and the pauses taken. *)
Example scenario_run :
  let '(res, st') :=
    fetchRetailStoresBounded sin_zero parseFloat_decimal scenario_fetch random_half
      scenario_box 0 initial_state in
  match res with
  | Ok features =>
      map id features =
        ["osm-1"; "osm-2"; "osm-3"; "osm-11"; "osm-12"; "osm-13";
         "osm-21"; "osm-22"; "osm-23"; "osm-31"; "osm-32"; "osm-33"]%string /\
      List.length (sleeps (trace st')) = 6%nat /\
      count_fetches (trace st') = 7%nat
  | Throw _ => False
  end.
Proof. vm_compute. repeat split. Qed.

(** *** Ratings *)

Section RatingFacts.

Variable sinQ : Q -> Q.
Variable parseFloat : string -> jsnum.

Local Notation transform := (transformToGeoFeature sinQ parseFloat).

Lemma rating_property (e : OsmElement) :
  get "rating" (properties (transform e)) = VNum (rating_of sinQ parseFloat e).
Proof. reflexivity. Qed.

Lemma or_zero_parseInt_finite (s : string) :
  exists q, or_zero (parseInt s) = Fin q.
Proof.
  unfold parseInt.
  destruct (match trim_start s with
            | String "-" r => (true, r)
            | String "+" r => (false, r)
            | _ => (false, trim_start s)
            end) as [negative body].
  destruct (fst (span_digits body)); unfold or_zero, JsNum.ofZ; simpl.
  - eauto.
  - destruct (negb _); eauto.
Qed.

(** The arithmetic of lines 96-101 on a finite seed. *)
Lemma rating_range (seed : Q) :
  let rand := (seed + - inject_Z (Qfloor seed))%Q in
  let rating := (3.5 + rand * 1.5)%Q in
  (3.5 <= inject_Z (Qfloor (rating * 10 + (1 # 2))) / 10 <= 5)%Q.
Proof.
  cbv zeta.
  pose proof (Qfloor_le seed) as Hlo.
  pose proof (Qlt_floor seed) as Hhi.
  set (f := inject_Z (Qfloor seed)) in *.
  assert (Hhi' : (seed < f + 1)%Q).
  { unfold f. change 1%Q with (inject_Z 1).
    rewrite <- (inject_Z_plus (Qfloor seed) 1). exact Hhi. }
  set (x := ((3.5 + (seed + - f) * 1.5) * 10 + (1 # 2))%Q).
  assert (Hx1 : (inject_Z 35 <= x)%Q) by (unfold x, inject_Z; lra).
  assert (Hx2 : (x <= inject_Z 50 + (1 # 2))%Q) by (unfold x, inject_Z; lra).
  assert (Hk1 : (35 <= Qfloor x)%Z).
  { rewrite <- (Qfloor_Z 35). apply Qfloor_resp_le. exact Hx1. }
  assert (Hk2 : (Qfloor x <= 50)%Z).
  { assert (H : (Qfloor x < 51)%Z); [|lia].
    apply Z.lt_le_trans with (m := (Qfloor (inject_Z 50 + (1 # 2)) + 1)%Z).
    - pose proof (Qfloor_resp_le _ _ Hx2). lia.
    - vm_compute. discriminate. }
  split.
  - apply Qle_shift_div_l; [reflexivity|].
    apply Qle_trans with (y := inject_Z 35); [vm_compute; discriminate|].
    rewrite <- Zle_Qle. exact Hk1.
  - apply Qle_shift_div_r; [reflexivity|].
    apply Qle_trans with (y := inject_Z 50); [|vm_compute; discriminate].
    rewrite <- Zle_Qle. exact Hk2.
Qed.

Lemma synthetic_rating_range (element_id : Z) :
  exists q, synthetic_rating sinQ element_id = Fin q /\ (3.5 <= q <= 5)%Q.
Proof.
  unfold synthetic_rating.
  destruct (or_zero_parseInt_finite (digits_only (JsString.ofZ element_id))) as [n ->].
  cbn [Math_sin JsNum.mul JsNum.floor JsNum.sub JsNum.add JsNum.neg JsNum.round].
  eexists. split; [reflexivity|]. apply rating_range.
Qed.

(** C9.  For elements that provide no rating (the rating is [undefined]
    after lines 72-84), the rating of the produced feature is a function of
    the element's id alone: two elements with the same id get the same
    rating, whatever else they carry; and the rating is a number in
    [3.5, 5.0]. *)
Theorem synthetic_rating_deterministic (e1 e2 : OsmElement) :
  parsed_rating parseFloat (el_tags e1) = None ->
  parsed_rating parseFloat (el_tags e2) = None ->
  el_id e1 = el_id e2 ->
  get "rating" (properties (transform e1)) = get "rating" (properties (transform e2)) /\
  exists q, get "rating" (properties (transform e1)) = VNum (Fin q) /\
            (3.5 <= q <= 5)%Q.
Proof.
  intros H1 H2 Hid. rewrite !rating_property.
  unfold rating_of. rewrite H1, H2. cbn [normalize_rating].
  rewrite Hid. split; [reflexivity|].
  destruct (synthetic_rating_range (el_id e2)) as (q & Hq & Hr).
  exists q. rewrite Hq. split; [reflexivity | exact Hr].
Qed.

Lemma parsed_rating_first_present (tags : list (string * string)) :
  parsed_rating parseFloat tags =
    match first_present_rating tags with
    | Some s => if isNaN (parseFloat s) then None else Some (parseFloat s)
    | None => None
    end.
Proof.
  unfold parsed_rating, first_present_rating, first_truthy.
  destruct (tag "stars" tags) as [[|c s]|]; cbn [truthy_tag or_else];
    try reflexivity;
    destruct (tag "rating" tags) as [[|c' s']|]; cbn [truthy_tag or_else];
    try reflexivity;
    destruct (tag "addr:rate" tags) as [[|c'' s'']|]; cbn [truthy_tag or_else];
    reflexivity.
Qed.

(** C10, amended.  The first of the keys [stars], [rating], [addr:rate] that
    is present with a non-empty value decides.  When its value parses to a
    number, the rating of the feature is that number, halved if it exceeds
    5, and the synthetic rating is not used; when it does not parse, the
    rating is the synthetic one, whatever the later keys hold. *)
Theorem rating_from_first_present_key (e : OsmElement) (s : string) :
  first_present_rating (el_tags e) = Some s ->
  (isNaN (parseFloat s) = false ->
     get "rating" (properties (transform e)) = VNum (rating_from (parseFloat s))) /\
  (isNaN (parseFloat s) = true ->
     get "rating" (properties (transform e)) = VNum (synthetic_rating sinQ (el_id e))).
Proof.
  intros Hs. rewrite rating_property. unfold rating_of.
  rewrite parsed_rating_first_present, Hs.
  split; intros Hnan; rewrite Hnan; cbn [normalize_rating]; unfold rating_from.
  - destruct (parseFloat s >? Fin 5)%js; reflexivity.
  - reflexivity.
Qed.

End RatingFacts.

(** A node and a way that carry the same id and no rating tag. *)
Lemma synthetic_rating_deterministic_witness :
  get "rating" (properties (transformToGeoFeature sin_zero parseFloat_decimal
                              node_1234567890))
  = get "rating" (properties (transformToGeoFeature sin_zero parseFloat_decimal
                                way_1234567890)) /\
  exists q,
    get "rating" (properties (transformToGeoFeature sin_zero parseFloat_decimal
                                node_1234567890)) = VNum (Fin q) /\
    (3.5 <= q <= 5)%Q.
Proof.
  apply (synthetic_rating_deterministic sin_zero parseFloat_decimal
           node_1234567890 way_1234567890); reflexivity.
Defined.

Lemma rating_from_first_present_key_witness :
  get "rating" (properties (transformToGeoFeature sin_zero parseFloat_decimal
                              eight_stars_node)) = VNum (Fin (8 / 2)).
Proof.
  apply (rating_from_first_present_key sin_zero parseFloat_decimal
           eight_stars_node "8" eq_refl); reflexivity.
Defined.

(** C10 as stated fails: the node's [rating] tag parses (to 2) but its
    [stars] tag, which does not, is the one consulted; the feature gets the
    synthetic rating 3.5. *)
Lemma unparseable_first_key_hides_rating :
  ~ rating_taken_from_tags sin_zero parseFloat_decimal unparseable_stars_node.
Proof.
  unfold rating_taken_from_tags. intros H.
  destruct H as (v & (key & s & Hkey & Htag & Hv & Hnan) & Hrating).
  - exists (Fin 2), "rating"%string, "2"%string.
    repeat split; simpl; auto.
  - simpl in Hkey. destruct Hkey as [<- | [<- | [<- | []]]];
      vm_compute in Htag; inversion Htag; subst s; subst v;
      vm_compute in Hnan; try discriminate;
      vm_compute in Hrating; discriminate.
Qed.

(** *** Store identifiers *)

(** C7.  The specification asks for pairwise distinct ids across all collections,
    the stores included, and for pairwise distinct geocodes within the
    stores.  An answer that holds node 1234567890, node 1234567891 and way
    1234567890 (nodes and ways are numbered apart in OSM) is scanned into
    three stores: the node and the way get the same id, since the id does
    not tell a node from a way, and all three get the same geocode, since
    the geocode keeps six characters of the number. *)
Theorem scanned_stores_share_ids :
  map id scanned_three_shops
    = ["osm-1234567890"; "osm-1234567891"; "osm-1234567890"]%string /\
  map geocode_of scanned_three_shops
    = [VStr "OSM-123456"; VStr "OSM-123456"; VStr "OSM-123456"] /\
  ~ NoDup (map id scanned_three_shops) /\
  ~ NoDup (map geocode_of scanned_three_shops) /\
  ~ uniqueness_invariant [scanned_three_shops].
Proof.
  assert (Hid : map id scanned_three_shops
                = ["osm-1234567890"; "osm-1234567891"; "osm-1234567890"]%string)
    by (vm_compute; reflexivity).
  assert (Hgc : map geocode_of scanned_three_shops
                = [VStr "OSM-123456"; VStr "OSM-123456"; VStr "OSM-123456"])
    by (vm_compute; reflexivity).
  assert (Hnid : ~ NoDup (map id scanned_three_shops)).
  { rewrite Hid. intros H. inversion H as [|x l Hnotin _]. apply Hnotin. simpl. auto. }
  assert (Hngc : ~ NoDup (map geocode_of scanned_three_shops)).
  { rewrite Hgc. intros H. inversion H as [|x l Hnotin _]. apply Hnotin. simpl. auto. }
  repeat split; try assumption.
  intros [Hgeo _]. apply Forall_inv in Hgeo. exact (Hngc Hgeo).
Qed.

End OsmFacts.

(** ** Strings of integers *)

Module StringFacts.
Local Open Scope list_scope.

Lemma ofZ_inj (a b : Z) : JsString.ofZ a = JsString.ofZ b -> a = b.
Proof.
  unfold JsString.ofZ. intros H.
  assert (Hnn : forall z, Z.to_int z <> Decimal.Pos Decimal.Nil /\
                          Z.to_int z <> Decimal.Neg Decimal.Nil).
  { intros [|p|p]; simpl; split; try discriminate;
      intros E; injection E; apply DecimalPos.Unsigned.to_uint_nonnil. }
  assert (E : Some (Z.to_int a) = Some (Z.to_int b)).
  { rewrite <- (NilZero.isi (Z.to_int a)) by apply Hnn.
    rewrite <- (NilZero.isi (Z.to_int b)) by apply Hnn.
    rewrite H. reflexivity. }
  injection E as E.
  rewrite <- (DecimalZ.of_to a), <- (DecimalZ.of_to b), E. reflexivity.
Qed.

Lemma append_inj_l (p a b : string) : (p ++ a = p ++ b)%string -> a = b.
Proof.
  induction p as [|c p IH]; simpl; intros H; [exact H|].
  injection H as H. apply IH, H.
Qed.

Lemma prefixed_ofZ_inj (p : string) (a b : Z) :
  (p ++ JsString.ofZ a = p ++ JsString.ofZ b)%string -> a = b.
Proof. intros H. apply ofZ_inj, (append_inj_l p), H. Qed.

End StringFacts.

(** ** The generated datasets *)

Module GeoFacts.
Import GeoData.
Local Open Scope list_scope.

Section GeneratorFacts.

Variable sqrtQ cosQ sinQ : Q -> Q.
Variable Rand : Type.
Variable random : Rand -> Q * Rand.

Local Notation GenState := (GenState Rand).
Local Notation create := (createVillageFeature sqrtQ cosQ sinQ random).
Local Notation place_real := (place_real sqrtQ cosQ sinQ random).
Local Notation fill_random := (fill_random sqrtQ cosQ sinQ random).
Local Notation placeVillages := (placeVillages sqrtQ cosQ sinQ random).
Local Notation generateVillages := (generateVillages sqrtQ cosQ sinQ random).
Local Notation geoData := (geoData sqrtQ cosQ sinQ random).

(** *** What one call of [createVillageFeature] does to the state *)

Lemma create_spec (name : string) (lat lng : jsnum) (tn dn : string)
    (crops km : option (list string)) (st st' : GenState) (res : option GeoFeature) :
  create name lat lng tn dn crops km st = (res, st') ->
  vId st' = vId st + 1 /\
  villageGeocodeCounter st' = villageGeocodeCounter st + 1 /\
  generatedVillages st' = generatedVillages st /\
  sites st' = sites st /\
  forall f, res = Some f ->
    id f = ("village-" ++ JsString.ofZ (vId st))%string /\
    geocode_of f = VStr ("KAV" ++ JsString.ofZ (villageGeocodeCounter st))%string /\
    get "name" (properties f) = VStr name /\
    get "taluk" (properties f) = VStr tn.
Proof.
  unfold createVillageFeature.
  destruct (generateOrganicPolygon cosQ sinQ random lat lng (Fin 0.005) (rng st))
    as [poly g1].
  destruct (random g1) as [d_pop g2].
  destruct (isValidRing (hd [] poly)).
  - destruct (random g2) as [d3 g3]. destruct (random g3) as [d4 g4].
    destruct (random g4) as [d5 g5]. destruct (random g5) as [d6 g6].
    destruct (random g6) as [d7 g7]. destruct (random g7) as [d8 g8].
    intros H. injection H as <- <-.
    cbn [vId villageGeocodeCounter generatedVillages sites with_rng].
    do 4 (split; [reflexivity|]).
    intros f Hf. injection Hf as <-. repeat split; reflexivity.
  - intros H. injection H as <- <-.
    cbn [vId villageGeocodeCounter generatedVillages sites].
    do 4 (split; [reflexivity|]).
    intros f Hf. discriminate.
Qed.

(** *** Sites: every village has one, and the sampled ones pass the test *)

Lemma push_sites_ok (st : GenState) (f : GeoFeature) (lat lng : jsnum)
    (taluk : TalukMeta) (curated : bool) :
  sites_ok st ->
  (curated = false -> isPointInPolygon (lng, lat) (t_coords taluk) = true) ->
  sites_ok (push_village f (mkSite (id f) lat lng taluk curated) st).
Proof.
  intros [Hids Hin] Hc. split; cbn [push_village sites generatedVillages].
  - rewrite !map_app, Hids. reflexivity.
  - apply Forall_app. split; [exact Hin|].
    constructor; [|constructor]. exact Hc.
Qed.

Lemma create_sites_ok (name : string) (lat lng : jsnum) (tn dn : string)
    (crops km : option (list string)) (st st' : GenState) (res : option GeoFeature) :
  create name lat lng tn dn crops km st = (res, st') ->
  sites_ok st -> sites_ok st'.
Proof.
  intros H [Hids Hin].
  destruct (create_spec _ _ _ _ _ _ _ _ _ _ H) as (_ & _ & Hgv & Hs & _).
  unfold sites_ok. rewrite Hgv, Hs. split; assumption.
Qed.

Lemma with_rng_sites_ok (g : Rand) (st : GenState) :
  sites_ok st -> sites_ok (with_rng g st).
Proof. intros H. exact H. Qed.

Lemma draw_sites_ok (st : GenState) : sites_ok st -> sites_ok (snd (draw random st)).
Proof.
  intros H. unfold draw. destruct (random (rng st)) as [d g]. exact H.
Qed.

Lemma place_real_sites_ok (taluk : TalukMeta) (names : list string) :
  forall (count : nat) (st : GenState),
    sites_ok st -> sites_ok (snd (place_real taluk names count st)).
Proof.
  induction names as [|name rest IH]; intros count st Hok; cbn [GeoData.place_real].
  - exact Hok.
  - destruct (lookup name REAL_VILLAGE_LOCATIONS) as [[lat lng]|]; [|apply IH, Hok].
    destruct (create name lat lng (t_name taluk) (t_district taluk)
                     (t_crops taluk) (t_keyMarkets taluk) st) as [[f|] st1] eqn:Hc.
    + apply IH. apply push_sites_ok; [|discriminate].
      eapply create_sites_ok; eassumption.
    + apply IH. eapply create_sites_ok; eassumption.
Qed.

Lemma fill_random_sites_ok (taluk : TalukMeta) (minLat maxLat minLng maxLng : jsnum) :
  forall (attempts_left count : nat) (st : GenState),
    sites_ok st ->
    sites_ok (snd (fill_random attempts_left taluk minLat maxLat minLng maxLng count st)).
Proof.
  induction attempts_left as [|k IH]; intros count st Hok; cbn [GeoData.fill_random].
  - exact Hok.
  - destruct (count <? 35)%nat; [|exact Hok].
    pose proof (draw_sites_ok st Hok) as H1.
    destruct (draw random st) as [d_lat st1]. cbn [snd] in H1.
    pose proof (draw_sites_ok st1 H1) as H2.
    destruct (draw random st1) as [d_lng st2]. cbn [snd] in H2.
    destruct (isNaN _ || isNaN _); [apply IH, H2|].
    destruct (isPointInPolygon _ (t_coords taluk)) eqn:Hpip; [|apply IH, H2].
    pose proof (draw_sites_ok st2 H2) as H3.
    destruct (draw random st2) as [d_p st3]. cbn [snd] in H3.
    pose proof (draw_sites_ok st3 H3) as H4.
    destruct (draw random st3) as [d_s st4]. cbn [snd] in H4.
    destruct (create _ _ _ _ _ _ _ st4) as [[f|] st5] eqn:Hc.
    + apply IH. apply push_sites_ok; [|intros _; exact Hpip].
      eapply create_sites_ok; eassumption.
    + apply IH. eapply create_sites_ok; eassumption.
Qed.

Lemma placeVillages_sites_ok (st : GenState) (taluk : TalukMeta) :
  sites_ok st -> sites_ok (placeVillages st taluk).
Proof.
  intros Hok. unfold GeoData.placeVillages.
  pose proof (place_real_sites_ok taluk
                match lookup (t_name taluk) REAL_VILLAGE_NAMES with
                | Some names => names
                | None => []
                end 0 st Hok) as H1.
  destruct (place_real taluk _ 0 st) as [count st1]. cbn [snd] in H1.
  apply fill_random_sites_ok, H1.
Qed.

Lemma fold_placeVillages_sites_ok (ts : list TalukMeta) :
  forall st, sites_ok st -> sites_ok (fold_left placeVillages ts st).
Proof.
  induction ts as [|t ts IH]; intros st Hok; simpl.
  - exact Hok.
  - apply IH, placeVillages_sites_ok, Hok.
Qed.

Lemma geoData_villages (voronoi : option (nat -> Cell)) (g : Rand) :
  exists g1,
    villagesData (geoData voronoi g) = generatedVillages (generateVillages g1) /\
    villageSites (geoData voronoi g) = sites (generateVillages g1).
Proof.
  unfold GeoData.geoData.
  destruct (talukFeatures sqrtQ random 0 talukDataRaw g) as [taluks g1].
  destruct (generatePincodes sqrtQ random voronoi _) as [pincodes g2].
  exists g1. split; reflexivity.
Qed.

(** C2, amended.  In every generated dataset each village has its site, in
    the same order, and every village placed by the sampling loop passes
    the ray-casting test on its centre and the polygon of its taluk.  (The
    curated villages are placed without the test.) *)
Theorem sampled_villages_inside_taluk (voronoi : option (nat -> Cell)) (g : Rand) :
  map site_id (villageSites (geoData voronoi g)) = map id (villagesData (geoData voronoi g)) /\
  forall s, In s (villageSites (geoData voronoi g)) ->
            site_curated s = false -> inside_own_taluk s = true.
Proof.
  destruct (geoData_villages voronoi g) as (g1 & -> & ->).
  assert (Hok : sites_ok (generateVillages g1)).
  { apply fold_placeVillages_sites_ok. split; [reflexivity | constructor]. }
  destruct Hok as [Hids Hin]. split; [exact Hids|].
  intros s Hs. apply (proj1 (Forall_forall _ _) Hin s Hs).
Qed.

(** *** No village of the pipeline is dropped *)

Lemma organic_points_finite (n : nat) :
  forall (i sides : Z) (clat clng br : Q) (g : Rand),
    sides <> 0 ->
    List.length (fst (organic_points cosQ sinQ random n i sides
                        (Fin clat) (Fin clng) (Fin br) g)) = n /\
    forallb (fun p => negb (isNaN (fst p)) && negb (isNaN (snd p)))
            (fst (organic_points cosQ sinQ random n i sides
                    (Fin clat) (Fin clng) (Fin br) g)) = true.
Proof.
  induction n as [|n IH]; intros i sides clat clng br g Hs; cbn [organic_points].
  - split; reflexivity.
  - destruct (random g) as [d g1].
    destruct (IH (i + 1) sides clat clng br g1 Hs) as [Hlen Hall].
    destruct (organic_points cosQ sinQ random n (i + 1) sides
                (Fin clat) (Fin clng) (Fin br) g1) as [ps g2].
    cbn [fst] in *. split.
    + simpl. rewrite Hlen. reflexivity.
    + cbn [forallb fst snd]. rewrite Hall.
      unfold Math_PI. cbn [JsNum.mul JsNum.add JsNum.div].
      assert (Hz : Qis_zero (inject_Z sides) = false).
      { unfold Qis_zero, inject_Z. cbn [Qnum]. apply Z.eqb_neq, Hs. }
      rewrite Hz. reflexivity.
Qed.

Lemma floor_scaled_nonneg (d : Q) (n : Z) :
  (0 <= d)%Q -> 0 <= n -> 0 <= floor_scaled d n.
Proof.
  intros Hd Hn. unfold floor_scaled.
  rewrite <- (Qfloor_Z 0). apply Qfloor_resp_le.
  apply Qmult_le_0_compat; [exact Hd|].
  change 0%Q with (inject_Z 0). rewrite <- Zle_Qle. exact Hn.
Qed.

Section InRange.

(** [Math.random] yields numbers in [0, 1). *)
Hypothesis random_range : forall g, (0 <= fst (random g) < 1)%Q.

Lemma generateOrganicPolygon_valid (clat clng : Q) (g : Rand) :
  isValidRing (hd [] (fst (generateOrganicPolygon cosQ sinQ random
                             (Fin clat) (Fin clng) (Fin 0.005) g))) = true.
Proof.
  unfold generateOrganicPolygon.
  pose proof (random_range g) as [Hd _].
  destruct (random g) as [d g1]. cbn [fst] in Hd.
  pose proof (floor_scaled_nonneg d 4 Hd ltac:(lia)) as Hf.
  set (sides := 6 + floor_scaled d 4) in *.
  destruct (organic_points_finite (Z.to_nat sides) 0 sides clat clng 0.005 g1
              ltac:(lia)) as [Hlen Hall].
  destruct (organic_points cosQ sinQ random (Z.to_nat sides) 0 sides
              (Fin clat) (Fin clng) (Fin 0.005) g1) as [points g2].
  cbn [fst hd] in *.
  unfold isValidRing.
  assert (H6 : (6 <= List.length points)%nat) by (rewrite Hlen; lia).
  destruct points as [|p0 ps]; [simpl in H6; lia|].
  assert (Hl : (List.length ((p0 :: ps) ++ [p0]) <? 3)%nat = false).
  { apply Nat.ltb_ge. rewrite length_app. simpl in *. lia. }
  rewrite Hl, forallb_app.
  apply andb_true_intro. split; [exact Hall|].
  cbn [forallb] in *. apply andb_prop in Hall. destruct Hall as [Hp0 _].
  apply andb_true_intro. split; [exact Hp0 | reflexivity].
Qed.

Lemma create_succeeds (name : string) (clat clng : Q) (tn dn : string)
    (crops km : option (list string)) (st : GenState) :
  exists f st', create name (Fin clat) (Fin clng) tn dn crops km st = (Some f, st').
Proof.
  unfold createVillageFeature.
  pose proof (generateOrganicPolygon_valid clat clng (rng st)) as Hv.
  destruct (generateOrganicPolygon cosQ sinQ random (Fin clat) (Fin clng) (Fin 0.005) (rng st))
    as [poly g1].
  cbn [fst] in Hv. rewrite Hv.
  destruct (random g1) as [d_pop g2].
  destruct (random g2) as [d3 g3]. destruct (random g3) as [d4 g4].
  destruct (random g4) as [d5 g5]. destruct (random g5) as [d6 g6].
  destruct (random g6) as [d7 g7]. destruct (random g7) as [d8 g8].
  eexists. eexists. reflexivity.
Qed.

End InRange.

(** *** Properties kept by the whole placement *)

Lemma is_fin_Fin (x : jsnum) : JsNum.is_fin x = true -> exists q, x = Fin q.
Proof. destruct x; try discriminate. eauto. Qed.

Lemma lookup_In {A : Type} (key : string) (table : list (string * A)) (v : A) :
  lookup key table = Some v -> In (key, v) table.
Proof.
  induction table as [|[k a] rest IH]; simpl; [discriminate|].
  destruct (String.eqb_spec k key) as [-> | _].
  - intros H. injection H as ->. left. reflexivity.
  - intros H. right. apply IH, H.
Qed.

Lemma locations_finite (name : string) (lat lng : jsnum) :
  lookup name REAL_VILLAGE_LOCATIONS = Some (lat, lng) ->
  exists clat clng, lat = Fin clat /\ lng = Fin clng.
Proof.
  intros H. apply lookup_In in H.
  assert (Hall : forallb finite_location REAL_VILLAGE_LOCATIONS = true)
    by (vm_compute; reflexivity).
  pose proof (proj1 (forallb_forall _ _) Hall _ H) as Hf.
  unfold finite_location in Hf. cbn [fst snd] in Hf.
  apply andb_prop in Hf. destruct Hf as [H1 H2].
  destruct (is_fin_Fin _ H1) as [a ->]. destruct (is_fin_Fin _ H2) as [b ->].
  eauto.
Qed.

Lemma taluks_have_finite_bounds (t : TalukMeta) :
  In t talukDataRaw -> finite_bounds t = true.
Proof.
  intros H.
  assert (Hall : forallb finite_bounds talukDataRaw = true) by (vm_compute; reflexivity).
  exact (proj1 (forallb_forall _ _) Hall _ H).
Qed.

Section Preservation.

Variable P : GenState -> Prop.

Hypothesis P_rng : forall st g, P st -> P (with_rng g st).

Hypothesis P_create :
  forall name clat clng taluk curated st res st',
    P st ->
    create name (Fin clat) (Fin clng) (t_name taluk) (t_district taluk)
           (t_crops taluk) (t_keyMarkets taluk) st = (res, st') ->
    match res with
    | Some f => P (push_village f (mkSite (id f) (Fin clat) (Fin clng) taluk curated) st')
    | None => P st'
    end.

Lemma P_draw (st : GenState) : P st -> P (snd (draw random st)).
Proof.
  intros H. unfold draw. destruct (random (rng st)) as [d g]. apply P_rng, H.
Qed.

Lemma place_real_keeps (taluk : TalukMeta) (names : list string) :
  forall (count : nat) (st : GenState),
    P st -> P (snd (place_real taluk names count st)).
Proof.
  induction names as [|name rest IH]; intros count st HP; cbn [GeoData.place_real].
  - exact HP.
  - destruct (lookup name REAL_VILLAGE_LOCATIONS) as [[lat lng]|] eqn:Hl; [|apply IH, HP].
    destruct (locations_finite _ _ _ Hl) as (clat & clng & -> & ->).
    destruct (create name (Fin clat) (Fin clng) (t_name taluk) (t_district taluk)
                     (t_crops taluk) (t_keyMarkets taluk) st) as [res st1] eqn:Hc.
    pose proof (P_create name clat clng taluk true st res st1 HP Hc) as H1.
    destruct res as [f|]; apply IH, H1.
Qed.

Lemma fill_random_keeps (taluk : TalukMeta) (a b c d : Q) :
  forall (attempts_left count : nat) (st : GenState),
    P st ->
    P (snd (fill_random attempts_left taluk (Fin a) (Fin b) (Fin c) (Fin d) count st)).
Proof.
  induction attempts_left as [|k IH]; intros count st HP; cbn [GeoData.fill_random].
  - exact HP.
  - destruct (count <? 35)%nat; [|exact HP].
    pose proof (P_draw st HP) as H1.
    destruct (draw random st) as [d_lat st1]. cbn [snd] in H1.
    pose proof (P_draw st1 H1) as H2.
    destruct (draw random st1) as [d_lng st2]. cbn [snd] in H2.
    cbn [JsNum.add JsNum.mul JsNum.sub JsNum.neg isNaN orb].
    destruct (isPointInPolygon _ (t_coords taluk)); [|apply IH, H2].
    pose proof (P_draw st2 H2) as H3.
    destruct (draw random st2) as [d_p st3]. cbn [snd] in H3.
    pose proof (P_draw st3 H3) as H4.
    destruct (draw random st3) as [d_s st4]. cbn [snd] in H4.
    match goal with
    | |- context [create ?n (Fin ?la) (Fin ?ln) _ _ _ _ st4] =>
        destruct (create n (Fin la) (Fin ln) (t_name taluk) (t_district taluk)
                         (t_crops taluk) (t_keyMarkets taluk) st4) as [res st5] eqn:Hc;
        pose proof (P_create n la ln taluk false st4 res st5 H4 Hc) as H5
    end.
    destruct res as [f|]; apply IH, H5.
Qed.

Lemma placeVillages_keeps (st : GenState) (taluk : TalukMeta) :
  In taluk talukDataRaw -> P st -> P (placeVillages st taluk).
Proof.
  intros Hin HP. unfold GeoData.placeVillages.
  pose proof (taluks_have_finite_bounds taluk Hin) as Hb.
  unfold finite_bounds, taluk_bounds in Hb.
  apply andb_prop in Hb. destruct Hb as [Hb Hd].
  apply andb_prop in Hb. destruct Hb as [Hb Hc].
  apply andb_prop in Hb. destruct Hb as [Ha Hb].
  destruct (is_fin_Fin _ Ha) as [a ->]. destruct (is_fin_Fin _ Hb) as [b ->].
  destruct (is_fin_Fin _ Hc) as [c ->]. destruct (is_fin_Fin _ Hd) as [d ->].
  pose proof (place_real_keeps taluk
                match lookup (t_name taluk) REAL_VILLAGE_NAMES with
                | Some names => names
                | None => []
                end 0 st HP) as H1.
  destruct (place_real taluk _ 0 st) as [count st1]. cbn [snd] in H1.
  apply fill_random_keeps, H1.
Qed.

Lemma fold_placeVillages_keeps (ts : list TalukMeta) :
  incl ts talukDataRaw ->
  forall st, P st -> P (fold_left placeVillages ts st).
Proof.
  induction ts as [|t ts IH]; intros Hincl st HP; simpl.
  - exact HP.
  - apply IH.
    + intros x Hx. apply Hincl. right. exact Hx.
    + apply placeVillages_keeps; [apply Hincl; left; reflexivity | exact HP].
Qed.

Lemma generateVillages_keeps (g : Rand) :
  P (initial_gen g) -> P (generateVillages g).
Proof.
  intros H. apply fold_placeVillages_keeps; [apply incl_refl | exact H].
Qed.

End Preservation.

(** *** Numbering *)

Lemma numbered_rng (ks : list Z) (st : GenState) (g : Rand) :
  numbered ks st -> numbered ks (with_rng g st).
Proof. intros H. exact H. Qed.

Lemma numbered_drop (ks : list Z) (name : string) (lat lng : jsnum) (tn dn : string)
    (crops km : option (list string)) (st st' : GenState) :
  numbered ks st ->
  create name lat lng tn dn crops km st = (None, st') ->
  numbered ks st'.
Proof.
  intros (Hid & Hgc & Hb & Hnd & H0 & Hc) Hcr.
  destruct (create_spec _ _ _ _ _ _ _ _ _ _ Hcr) as (Hv & Hk & Hgv & _ & _).
  unfold numbered. rewrite Hgv, Hv, Hk. repeat split; try assumption; try lia.
  eapply Forall_impl; [|exact Hb]. cbv beta. intros k Hk'. lia.
Qed.

Lemma numbered_push (ks : list Z) (name : string) (lat lng : jsnum) (tn dn : string)
    (crops km : option (list string)) (st st' : GenState) (f : GeoFeature) (site : Site) :
  numbered ks st ->
  create name lat lng tn dn crops km st = (Some f, st') ->
  numbered (ks ++ [vId st]) (push_village f site st').
Proof.
  intros (Hid & Hgc & Hb & Hnd & H0 & Hc) Hcr.
  destruct (create_spec _ _ _ _ _ _ _ _ _ _ Hcr) as (Hv & Hk & Hgv & _ & Hf).
  destruct (Hf f eq_refl) as (Hfid & Hfgc & _).
  unfold numbered. cbn [push_village generatedVillages vId villageGeocodeCounter].
  rewrite Hgv, Hv, Hk, !map_app, Hid, Hgc. cbn [map].
  rewrite Hfid, Hfgc, Hc. repeat split; try lia.
  - apply Forall_app. split.
    + eapply Forall_impl; [|exact Hb]. cbv beta. intros k Hk'. lia.
    + constructor; [lia | constructor].
  - apply NoDup_app; [exact Hnd | constructor; [intros [] | constructor] |].
    intros k Hin [<- | []].
    pose proof (proj1 (Forall_forall _ _) Hb _ Hin) as Hlt. cbv beta in Hlt. lia.
Qed.

Lemma numbered_initial (g : Rand) : numbered [] (initial_gen g).
Proof. repeat split; try constructor; simpl; lia. Qed.

(** Whatever [Math.random] yields, the villages carry pairwise distinct
    numbers. *)
Lemma generateVillages_numbered (g : Rand) :
  exists ks, numbered ks (generateVillages g).
Proof.
  apply (generateVillages_keeps (fun st => exists ks, numbered ks st)).
  - intros st g' [ks H]. exists ks. exact H.
  - intros name clat clng taluk curated st res st' [ks H] Hc.
    destruct res as [f|].
    + exists (ks ++ [vId st]). eapply numbered_push; eassumption.
    + exists ks. eapply numbered_drop; eassumption.
  - exists []. apply numbered_initial.
Qed.

Lemma upto_S (n : nat) : upto (S n) = upto n ++ [Z.of_nat n].
Proof. unfold upto. rewrite seq_S, map_app. reflexivity. Qed.

Lemma nth_error_upto (n i : nat) (k : Z) :
  nth_error (upto n) i = Some k -> k = Z.of_nat i.
Proof.
  unfold upto. intros H.
  rewrite nth_error_map in H.
  destruct (nth_error (seq 0 n) i) as [j|] eqn:Hj; [|discriminate].
  injection H as <-.
  assert (Hi : (i < List.length (seq 0 n))%nat) by (apply nth_error_Some; congruence).
  rewrite length_seq in Hi.
  rewrite (nth_error_nth' _ 0%nat) in Hj by (rewrite length_seq; exact Hi).
  rewrite seq_nth in Hj by exact Hi. injection Hj as <-. reflexivity.
Qed.

Section Sequential.

Hypothesis random_range : forall g, (0 <= fst (random g) < 1)%Q.

(** With [Math.random] in its range no call is dropped, and the numbers
    are consecutive. *)
Lemma generateVillages_sequential (g : Rand) : sequential (generateVillages g).
Proof.
  apply (generateVillages_keeps (fun st => sequential st)).
  - intros st g' H. exact H.
  - intros name clat clng taluk curated st res st' [Hn Hv] Hc.
    destruct (create_succeeds random_range name clat clng (t_name taluk) (t_district taluk)
                (t_crops taluk) (t_keyMarkets taluk) st) as (f & st1 & Hs).
    rewrite Hs in Hc. injection Hc as <- <-.
    split.
    + cbn [push_village generatedVillages].
      destruct (create_spec _ _ _ _ _ _ _ _ _ _ Hs) as (_ & _ & Hgv & _ & _).
      rewrite Hgv, length_app. cbn [List.length].
      replace (List.length (generatedVillages st) + 1)%nat
        with (S (List.length (generatedVillages st))) by lia.
      rewrite upto_S, <- Hv.
      eapply numbered_push; eassumption.
    + cbn [push_village generatedVillages vId].
      destruct (create_spec _ _ _ _ _ _ _ _ _ _ Hs) as (Hv1 & _ & Hgv & _ & _).
      rewrite Hgv, Hv1, Hv, length_app. simpl. lia.
  - split; [apply numbered_initial | reflexivity].
Qed.

(** C8.  The counter starts at 1001.  With [Math.random] in [0, 1) no call
    of [createVillageFeature] made by the generation is dropped, so the
    counter advances exactly once per created village, across all taluks:
    when the generation ends it stands at 1001 plus the number of villages,
    and the village at position i of the collection (counted from 0 across
    all taluks) carries the geocode KAV<1001 + i> and the id village-<i>. *)
Theorem village_geocodes_sequential (voronoi : option (nat -> Cell)) (g : Rand) :
  villageGeocodeCounter (initial_gen g) = 1001 /\
  villageGeocodeCounter (generateVillages g)
    = 1001 + Z.of_nat (List.length (generatedVillages (generateVillages g))) /\
  (forall i f,
      nth_error (villagesData (geoData voronoi g)) i = Some f ->
      geocode_of f = VStr ("KAV" ++ JsString.ofZ (1001 + Z.of_nat i))%string /\
      id f = ("village-" ++ JsString.ofZ (Z.of_nat i))%string).
Proof.
  split; [reflexivity|split].
  - destruct (generateVillages_sequential g) as [(_ & _ & _ & _ & _ & Hc) Hv].
    rewrite Hc, Hv. reflexivity.
  - intros i f Hi.
    destruct (geoData_villages voronoi g) as (g1 & Hvd & _). rewrite Hvd in Hi.
    destruct (generateVillages_sequential g1) as [(Hid & Hgc & _) _].
    pose proof (map_nth_error id _ _ Hi) as H1.
    pose proof (map_nth_error geocode_of _ _ Hi) as H2.
    rewrite Hid in H1. rewrite Hgc in H2.
    rewrite nth_error_map in H1, H2.
    destruct (nth_error (upto _) i) as [k|] eqn:Hk; [|discriminate].
    apply nth_error_upto in Hk. subst k.
    injection H1 as E1. injection H2 as E2.
    split; [symmetry; exact E2 | symmetry; exact E1].
Qed.

End Sequential.

(** *** Taluks and pincodes *)

Lemma talukFeatures_ids (ts : list TalukMeta) :
  forall (i : nat) (g : Rand),
    map id (fst (talukFeatures sqrtQ random i ts g))
      = map taluk_id (seq i (List.length ts)) /\
    map geocode_of (fst (talukFeatures sqrtQ random i ts g))
      = map (fun k => VStr (taluk_geocode k)) (seq i (List.length ts)).
Proof.
  induction ts as [|t ts IH]; intros i g; cbn [talukFeatures].
  - split; reflexivity.
  - unfold talukFeature.
    destruct (random g) as [d1 g1]. destruct (random g1) as [d2 g2].
    destruct (random g2) as [d3 g3].
    destruct (IH (S i) g3) as [H1 H2].
    destruct (talukFeatures sqrtQ random (S i) ts g3) as [fs g4].
    cbn [fst] in *. cbn [map List.length seq]. rewrite H1, H2. split; reflexivity.
Qed.

Lemma pincodeLoop_codes (cellPolygon : nat -> Cell) (defs : list PincodeDef) :
  forall (i : nat) (g : Rand) (acc : list GeoFeature),
  exists ps,
    incl ps defs /\
    (NoDup (map p_code defs) -> NoDup (map p_code ps)) /\
    map id (fst (pincodeLoop sqrtQ random cellPolygon i defs g acc))
      = map id acc ++ map (fun p => pin_id (p_code p)) ps /\
    map geocode_of (fst (pincodeLoop sqrtQ random cellPolygon i defs g acc))
      = map geocode_of acc ++ map (fun p => VStr (pin_geocode (p_code p))) ps.
Proof.
  induction defs as [|p rest IH]; intros i g acc; cbn [pincodeLoop].
  - exists []. split; [intros x []|]. split; [intros _; constructor|].
    split; cbn; rewrite app_nil_r; reflexivity.
  - assert (Hskip : forall g', exists ps,
              incl ps (p :: rest) /\
              (NoDup (map p_code (p :: rest)) -> NoDup (map p_code ps)) /\
              map id (fst (pincodeLoop sqrtQ random cellPolygon (S i) rest g' acc))
                = map id acc ++ map (fun p => pin_id (p_code p)) ps /\
              map geocode_of (fst (pincodeLoop sqrtQ random cellPolygon (S i) rest g' acc))
                = map geocode_of acc ++ map (fun p => VStr (pin_geocode (p_code p))) ps).
    { intros g'. destruct (IH (S i) g' acc) as (ps & Hi & Hn & H1 & H2).
      exists ps. repeat split; try assumption.
      - apply incl_tl, Hi.
      - intros Hnd. apply Hn. cbn [map] in Hnd. apply NoDup_cons_iff in Hnd. apply Hnd. }
    destruct (cellPolygon i) as [|poly].
    + exists []. split; [intros x []|]. split; [intros _; constructor|].
      split; cbn; rewrite app_nil_r; reflexivity.
    + destruct (random g) as [d_pop g1]. destruct (random g1) as [d_head g2].
      destruct (Qlt_le_dec 0.8 d_head).
      * destruct poly as [r|]; [|apply Hskip].
        destruct (isValidRing r); [|apply Hskip].
        destruct (random g2) as [d4 g4]. destruct (random g4) as [d5 g5].
        destruct (random g5) as [d6 g6].
        match goal with
        | |- context [pincodeLoop _ _ _ _ _ _ (acc ++ [?f])] =>
            destruct (IH (S i) g6 (acc ++ [f])) as (ps & Hi & Hn & H1 & H2)
        end.
        exists (p :: ps). repeat split.
        -- apply incl_cons; [left; reflexivity | apply incl_tl, Hi].
        -- intros Hnd. cbn [map] in *. apply NoDup_cons_iff in Hnd.
           destruct Hnd as [Hnot Hnd]. constructor; [|apply Hn, Hnd].
           intros Hin. apply Hnot. apply in_map_iff in Hin.
           destruct Hin as (pd & Hq & Hqin). apply in_map_iff. exists pd.
           split; [exact Hq | apply Hi, Hqin].
        -- rewrite H1, map_app, <- app_assoc. reflexivity.
        -- rewrite H2, map_app, <- app_assoc. reflexivity.
      * destruct (random g2) as [d_sub g2'].
        destruct poly as [r|]; [|apply Hskip].
        destruct (isValidRing r); [|apply Hskip].
        destruct (random g2') as [d4 g4]. destruct (random g4) as [d5 g5].
        destruct (random g5) as [d6 g6].
        match goal with
        | |- context [pincodeLoop _ _ _ _ _ _ (acc ++ [?f])] =>
            destruct (IH (S i) g6 (acc ++ [f])) as (ps & Hi & Hn & H1 & H2)
        end.
        exists (p :: ps). repeat split.
        -- apply incl_cons; [left; reflexivity | apply incl_tl, Hi].
        -- intros Hnd. cbn [map] in *. apply NoDup_cons_iff in Hnd.
           destruct Hnd as [Hnot Hnd]. constructor; [|apply Hn, Hnd].
           intros Hin. apply Hnot. apply in_map_iff in Hin.
           destruct Hin as (pd & Hq & Hqin). apply in_map_iff. exists pd.
           split; [exact Hq | apply Hi, Hqin].
        -- rewrite H1, map_app, <- app_assoc. reflexivity.
        -- rewrite H2, map_app, <- app_assoc. reflexivity.
Qed.

(** *** Distinct geocodes and ids *)

Lemma mem_In (x : string) (l : list string) : JsString.mem x l = true <-> In x l.
Proof.
  unfold JsString.mem. rewrite existsb_exists. split.
  - intros (y & Hy & E). apply String.eqb_eq in E. subst y. exact Hy.
  - intros H. exists x. split; [exact H | apply String.eqb_refl].
Qed.

Lemma nodupb_sound (l : list string) : nodupb l = true -> NoDup l.
Proof.
  induction l as [|x l IH]; cbn [nodupb]; intros H; constructor.
  - apply andb_prop in H. destruct H as [H _].
    intros Hin. apply mem_In in Hin. rewrite Hin in H. discriminate.
  - apply IH. apply andb_prop in H. apply H.
Qed.

Lemma VStr_inj (a b : string) : VStr a = VStr b -> a = b.
Proof. intros H. injection H as H. exact H. Qed.

Lemma NoDup_map_VStr (l : list string) : NoDup l -> NoDup (map VStr l).
Proof. apply Injective_map_NoDup. intros a b H. apply VStr_inj, H. Qed.

Lemma NoDup_app_by_first_char (c : ascii) (l1 l2 : list string) :
  NoDup l1 -> NoDup l2 ->
  Forall (fun s => first_char s = Some c) l1 ->
  Forall (fun s => first_char s <> Some c) l2 ->
  NoDup (l1 ++ l2).
Proof.
  intros H1 H2 F1 F2. apply NoDup_app; try assumption.
  intros s Hin1 Hin2.
  apply (proj1 (Forall_forall _ _) F2 s Hin2).
  apply (proj1 (Forall_forall _ _) F1 s Hin1).
Qed.

Lemma first_char_map (c : ascii) {A : Type} (f : A -> string) (l : list A) :
  (forall a, first_char (f a) = Some c) ->
  Forall (fun s => first_char s = Some c) (map f l).
Proof.
  intros H. apply Forall_forall. intros s Hs.
  apply in_map_iff in Hs. destruct Hs as (a & <- & _). apply H.
Qed.

Lemma first_char_other (c c' : ascii) (l : list string) :
  c <> c' ->
  Forall (fun s => first_char s = Some c') l ->
  Forall (fun s => first_char s <> Some c) l.
Proof.
  intros Hne H. eapply Forall_impl; [|exact H].
  cbv beta. intros s E E'. rewrite E in E'. injection E' as E'. congruence.
Qed.

Lemma taluks_ids (g : Rand) :
  map id (fst (talukFeatures sqrtQ random 0 talukDataRaw g))
    = map taluk_id (seq 0 8) /\
  map geocode_of (fst (talukFeatures sqrtQ random 0 talukDataRaw g))
    = map VStr (map taluk_geocode (seq 0 8)).
Proof.
  destruct (talukFeatures_ids talukDataRaw 0 g) as [H1 H2].
  rewrite H1, H2, map_map. split; reflexivity.
Qed.

Lemma villages_ids (g : Rand) :
  NoDup (map id (generatedVillages (generateVillages g))) /\
  NoDup (map geocode_of (generatedVillages (generateVillages g))) /\
  Forall (fun s => first_char s = Some "v"%char)
         (map id (generatedVillages (generateVillages g))).
Proof.
  destruct (generateVillages_numbered g) as (ks & Hid & Hgc & _ & Hnd & _).
  rewrite Hid, Hgc. repeat split.
  - apply Injective_map_NoDup; [|exact Hnd].
    intros a b H. apply (StringFacts.prefixed_ofZ_inj "village-"), H.
  - apply Injective_map_NoDup; [|exact Hnd].
    intros a b H. unfold village_geocode in H.
    apply VStr_inj, StringFacts.prefixed_ofZ_inj in H. lia.
  - apply first_char_map. reflexivity.
Qed.

Lemma pincodes_ids (voronoi : option (nat -> Cell)) (g : Rand) :
  NoDup (map id (fst (generatePincodes sqrtQ random voronoi g))) /\
  NoDup (map geocode_of (fst (generatePincodes sqrtQ random voronoi g))) /\
  Forall (fun s => first_char s = Some "p"%char)
         (map id (fst (generatePincodes sqrtQ random voronoi g))).
Proof.
  unfold generatePincodes. destruct voronoi as [cellPolygon|].
  - destruct (pincodeLoop_codes cellPolygon REAL_PINCODES 0 g [])
      as (ps & _ & Hn & H1 & H2).
    rewrite H1, H2. cbn [map app].
    assert (Hcodes : NoDup (map p_code ps)).
    { apply Hn, nodupb_sound. vm_compute. reflexivity. }
    repeat split.
    + rewrite <- (map_map p_code pin_id).
      apply Injective_map_NoDup; [|exact Hcodes].
      intros a b H. apply (StringFacts.append_inj_l "pin-"), H.
    + rewrite <- (map_map p_code (fun c => VStr (pin_geocode c))).
      apply Injective_map_NoDup; [|exact Hcodes].
      intros a b H. apply VStr_inj in H.
      apply (StringFacts.append_inj_l "KAP"), H.
    + apply first_char_map. reflexivity.
  - repeat split; constructor.
Qed.

(** The generated collections.  In every generated dataset the geocodes
    are pairwise distinct within each of the four collections (districts,
    taluks, villages, pincodes) and the ids are pairwise distinct across
    them; no store id equals one of these ids.  Among stores, two features
    have the same id exactly when their elements carry the same id number,
    and the same geocode exactly when the first six characters of the two
    ids agree. *)
Theorem generated_collections_unique (voronoi : option (nat -> Cell)) (g : Rand) :
  let d := geoData voronoi g in
  uniqueness_invariant [districtsData d; taluksData d; villagesData d; pincodesData d] /\
  (forall sinQ' parseFloat e,
      ~ In (id (Osm.transformToGeoFeature sinQ' parseFloat e))
           (map id (districtsData d ++ taluksData d ++ villagesData d ++ pincodesData d))) /\
  (forall sinQ' parseFloat e1 e2,
      id (Osm.transformToGeoFeature sinQ' parseFloat e1)
      = id (Osm.transformToGeoFeature sinQ' parseFloat e2)
      <-> Osm.el_id e1 = Osm.el_id e2) /\
  (forall sinQ' parseFloat e1 e2,
      geocode_of (Osm.transformToGeoFeature sinQ' parseFloat e1)
      = geocode_of (Osm.transformToGeoFeature sinQ' parseFloat e2)
      <-> JsString.take 6 (JsString.ofZ (Osm.el_id e1))
          = JsString.take 6 (JsString.ofZ (Osm.el_id e2))).
Proof.
  cbv zeta. unfold GeoData.geoData.
  pose proof (taluks_ids g) as [Tid Tgc].
  destruct (talukFeatures sqrtQ random 0 talukDataRaw g) as [taluks g1].
  cbn [fst] in Tid, Tgc.
  pose proof (villages_ids g1) as (Vid & Vgc & Vfc).
  pose proof (pincodes_ids voronoi (rng (generateVillages g1))) as (Pid & Pgc & Pfc).
  destruct (generatePincodes sqrtQ random voronoi (rng (generateVillages g1)))
    as [pincodes g2].
  cbn [fst districtsData taluksData villagesData pincodesData] in *.
  assert (Did : NoDup (map id districtFeatures))
    by (apply nodupb_sound; vm_compute; reflexivity).
  assert (Dfc : Forall (fun s => first_char s = Some "d"%char) (map id districtFeatures))
    by (repeat constructor).
  assert (Tnd : NoDup (map id taluks))
    by (rewrite Tid; apply nodupb_sound; vm_compute; reflexivity).
  assert (Tfc : Forall (fun s => first_char s = Some "t"%char) (map id taluks))
    by (rewrite Tid; apply first_char_map; reflexivity).
  assert (Hall : NoDup (map id (districtFeatures ++ taluks
                                ++ generatedVillages (generateVillages g1) ++ pincodes))).
  { rewrite !map_app.
    apply (NoDup_app_by_first_char "d"); [exact Did | | exact Dfc |].
    - apply (NoDup_app_by_first_char "t"); [exact Tnd | | exact Tfc |].
      + apply (NoDup_app_by_first_char "v"); [exact Vid | exact Pid | exact Vfc |].
        apply (first_char_other "v" "p"); [discriminate | exact Pfc].
      + apply Forall_app. split.
        * apply (first_char_other "t" "v"); [discriminate | exact Vfc].
        * apply (first_char_other "t" "p"); [discriminate | exact Pfc].
    - repeat (apply Forall_app; split).
      + apply (first_char_other "d" "t"); [discriminate | exact Tfc].
      + apply (first_char_other "d" "v"); [discriminate | exact Vfc].
      + apply (first_char_other "d" "p"); [discriminate | exact Pfc]. }
  split; [split|split; [|split]].
  - constructor; [|constructor; [|constructor; [|constructor; [|constructor]]]].
    + change (map geocode_of districtFeatures) with (map VStr ["KAD01"; "KAD02"]%string).
      apply NoDup_map_VStr, nodupb_sound. reflexivity.
    + rewrite Tgc. apply NoDup_map_VStr, nodupb_sound. vm_compute. reflexivity.
    + exact Vgc.
    + exact Pgc.
  - cbn [List.concat]. rewrite app_nil_r. exact Hall.
  - intros sinQ' parseFloat e Hin.
    rewrite !map_app in Hin.
    assert (Hfc : Forall (fun s => first_char s <> Some "o"%char)
                    (map id districtFeatures ++ map id taluks
                     ++ map id (generatedVillages (generateVillages g1))
                     ++ map id pincodes)).
    { repeat (apply Forall_app; split).
      - apply (first_char_other "o" "d"); [discriminate | exact Dfc].
      - apply (first_char_other "o" "t"); [discriminate | exact Tfc].
      - apply (first_char_other "o" "v"); [discriminate | exact Vfc].
      - apply (first_char_other "o" "p"); [discriminate | exact Pfc]. }
    apply (proj1 (Forall_forall _ _) Hfc _ Hin). reflexivity.
  - intros sinQ' parseFloat e1 e2. cbn [Osm.transformToGeoFeature id]. split.
    + intros H. apply (StringFacts.prefixed_ofZ_inj "osm-"), H.
    + intros ->. reflexivity.
  - intros sinQ' parseFloat e1 e2. unfold geocode_of.
    cbn [Osm.transformToGeoFeature properties]. cbn [get String.eqb Ascii.eqb Bool.eqb].
    split.
    + intros H. apply VStr_inj in H. apply (StringFacts.append_inj_l "OSM-"), H.
    + intros ->. reflexivity.
Qed.

End GeneratorFacts.

(** *** The example dataset *)

Lemma lcg_range (seed : Z) : (0 <= fst (lcg seed) < 1)%Q.
Proof.
  unfold lcg. cbn [fst].
  pose proof (Z.mod_pos_bound (1103515245 * seed + 12345) 2147483648 eq_refl) as [H0 H1].
  unfold Qle, Qlt. cbn [Qnum Qden]. split; lia.
Qed.

(** C2 as stated fails: in the example dataset thirteen curated villages lie
    outside the polygon of their taluk. *)
Lemma curated_villages_outside_taluk : ~ villages_inside_taluk example_dataset.
Proof.
  intros H.
  assert (Hall : forallb inside_own_taluk (villageSites example_dataset) = true).
  { apply forallb_forall. intros s Hs. apply H, Hs. }
  vm_compute in Hall. discriminate.
Qed.

(** One of them: Neriga is placed for Anekal at latitude 12.92, north of
    every vertex of Anekal's polygon, whatever [Math.random] yields. *)
Example neriga_outside_anekal :
  lookup "Neriga" REAL_VILLAGE_LOCATIONS = Some (Fin 12.920, Fin 77.760) /\
  In "Neriga"%string
     (match lookup "Anekal" REAL_VILLAGE_NAMES with Some l => l | None => [] end) /\
  isPointInPolygon (Fin 77.760, Fin 12.920) COORDS_ANEKAL = false /\
  option_map (fun s => (site_lat s, site_lng s, t_name (site_taluk s),
                        site_curated s, inside_own_taluk s))
             (site_of "village-251" example_dataset)
  = Some (Fin 12.920, Fin 77.760, "Anekal"%string, true, false).
Proof.
  split; [reflexivity|]. split; [simpl; tauto|]. split; vm_compute; reflexivity.
Qed.

(** Village 251 of the example dataset, a village of the eighth taluk, the
    counter not having restarted for any taluk: its geocode is KAV1252. *)
Lemma village_geocodes_sequential_witness :
  exists f,
    nth_error (villagesData example_dataset) 251 = Some f /\
    geocode_of f = VStr ("KAV" ++ JsString.ofZ (1001 + Z.of_nat 251))%string /\
    id f = ("village-" ++ JsString.ofZ (Z.of_nat 251))%string.
Proof.
  unfold example_dataset.
  pose proof (proj2 (proj2 (village_geocodes_sequential sqrt_floor cos_one sin_zero Z lcg
                              lcg_range (Some rectangle_cells) 42)) 251%nat) as H.
  destruct (nth_error (villagesData (geoData sqrt_floor cos_one sin_zero lcg
                                      (Some rectangle_cells) 42)) 251) as [f|] eqn:E.
  - exists f. split; [reflexivity | exact (H f eq_refl)].
  - exfalso. vm_compute in E. discriminate.
Defined.

(** A sampled village of the example dataset: village-11 was placed by the
    sampling loop and lies inside its taluk. *)
Lemma sampled_villages_inside_taluk_witness :
  exists s,
    site_of "village-11" example_dataset = Some s /\
    site_curated s = false /\
    inside_own_taluk s = true.
Proof.
  unfold site_of, example_dataset.
  pose proof (proj2 (sampled_villages_inside_taluk sqrt_floor cos_one sin_zero Z lcg
                       (Some rectangle_cells) 42)) as H.
  destruct (find (fun s => String.eqb (site_id s) "village-11")
                 (villageSites (geoData sqrt_floor cos_one sin_zero lcg
                                  (Some rectangle_cells) 42))) as [s|] eqn:E.
  - pose proof (proj1 (find_some _ _ E)) as Hin.
    assert (Hc : site_curated s = false).
    { vm_compute in E. injection E as <-. reflexivity. }
    exists s. split; [reflexivity|]. split; [exact Hc | exact (H s Hin Hc)].
  - exfalso. vm_compute in E. discriminate.
Defined.

(** The example dataset satisfies the invariant on its four collections; a
    node and a way that carry the same id number yield the same store id. *)
Lemma generated_collections_unique_witness :
  uniqueness_invariant [districtsData example_dataset; taluksData example_dataset;
                        villagesData example_dataset; pincodesData example_dataset] /\
  id (Osm.transformToGeoFeature Osm.sin_zero JsString.parseFloat_decimal Osm.node_1234567890)
  = id (Osm.transformToGeoFeature Osm.sin_zero JsString.parseFloat_decimal Osm.way_1234567890).
Proof.
  unfold example_dataset.
  pose proof (generated_collections_unique sqrt_floor cos_one sin_zero Z lcg
                (Some rectangle_cells) 42) as H.
  cbv zeta in H. destruct H as (Hinv & _ & Hid & _).
  split; [exact Hinv|].
  exact (proj2 (Hid Osm.sin_zero JsString.parseFloat_decimal
                  Osm.node_1234567890 Osm.way_1234567890) eq_refl).
Defined.

Example example_dataset_sizes :
  List.length (districtsData example_dataset) = 2%nat /\
  List.length (taluksData example_dataset) = 8%nat /\
  List.length (villagesData example_dataset) = 280%nat /\
  List.length (pincodesData example_dataset) = 101%nat.
Proof. vm_compute. repeat split. Qed.

End GeoFacts.

(** ** Tabular export and import *)

Module CsvFacts.
Import Csv.
Local Open Scope list_scope.

(** *** Objects *)

Lemma get_set_prop (k key : string) (v : jsval) (obj : list (string * jsval)) :
  get k (set_prop key v obj) = if String.eqb key k then v else get k obj.
Proof.
  induction obj as [|[k0 v0] rest IH]; cbn [set_prop get].
  - destruct (String.eqb key k); reflexivity.
  - destruct (String.eqb_spec k0 key) as [-> | Hne]; cbn [get].
    + destruct (String.eqb key k); reflexivity.
    + rewrite IH. destruct (String.eqb_spec key k) as [-> | Hne'].
      * apply String.eqb_neq in Hne. rewrite Hne. reflexivity.
      * reflexivity.
Qed.

Lemma get_absent (k : string) (obj : list (string * jsval)) :
  ~ In k (map fst obj) -> get k obj = VUndefined.
Proof.
  induction obj as [|[k0 v0] rest IH]; cbn [get map fst]; intros H; [reflexivity|].
  destruct (String.eqb_spec k0 k) as [-> | Hne].
  - exfalso. apply H. left. reflexivity.
  - apply IH. intros Hin. apply H. right. exact Hin.
Qed.

Lemma get_defined_key (k : string) (obj : list (string * jsval)) :
  get k obj <> VUndefined -> In k (map fst obj).
Proof.
  intros H. destruct (in_dec string_dec k (map fst obj)) as [Hin | Hout]; [exact Hin|].
  exfalso. apply H, get_absent, Hout.
Qed.

(** With distinct keys in [b], [{...a, ...b}] reads from [b] where [b] has
    the key and from [a] elsewhere. *)
Lemma get_spread (k : string) (b : list (string * jsval)) :
  NoDup (map fst b) ->
  forall a, get k (spread a b) = if mem k (map fst b) then get k b else get k a.
Proof.
  unfold spread. induction b as [|[k0 v0] rest IH]; intros Hnd a; cbn [fold_left].
  - reflexivity.
  - cbn [map fst] in Hnd. apply NoDup_cons_iff in Hnd. destruct Hnd as [Hnot Hnd].
    cbn [fst snd]. rewrite (IH Hnd). cbn [map fst get]. unfold mem. cbn [existsb].
    rewrite (String.eqb_sym k k0).
    destruct (String.eqb_spec k0 k) as [-> | Hne]; cbn [orb].
    + assert (Hm : existsb (String.eqb k) (map fst rest) = false).
      { destruct (existsb (String.eqb k) (map fst rest)) eqn:E; [|reflexivity].
        exfalso. apply Hnot. apply (GeoFacts.mem_In k), E. }
      rewrite Hm, get_set_prop, String.eqb_refl. reflexivity.
    + destruct (existsb (String.eqb k) (map fst rest)); [reflexivity|].
      rewrite get_set_prop. apply String.eqb_neq in Hne. rewrite Hne. reflexivity.
Qed.

(** *** The keys of a collection *)

Lemma add_key_spec (keys : list string) (k x : string) :
  In x (add_key keys k) <-> In x keys \/ x = k.
Proof.
  unfold add_key. destruct (mem k keys) eqn:E.
  - apply GeoFacts.mem_In in E. split; [auto|]. intros [H | ->]; assumption.
  - rewrite in_app_iff. cbn [In]. split; intros [H | H]; auto.
    + destruct H as [<- | []]. auto.
Qed.

Lemma add_key_NoDup (keys : list string) (k : string) :
  NoDup keys -> NoDup (add_key keys k).
Proof.
  intros H. unfold add_key. destruct (mem k keys) eqn:E; [exact H|].
  apply NoDup_app; [exact H | constructor; [intros [] | constructor] |].
  intros x Hin [<- | []].
  apply GeoFacts.mem_In in Hin. rewrite Hin in E. discriminate.
Qed.

Lemma fold_add_key (ks : list string) :
  forall keys,
    NoDup keys ->
    NoDup (fold_left add_key ks keys) /\
    forall x, In x (fold_left add_key ks keys) <-> In x keys \/ In x ks.
Proof.
  induction ks as [|k ks IH]; intros keys Hnd; cbn [fold_left].
  - split; [exact Hnd|]. intros x. cbn [In]. tauto.
  - destruct (IH (add_key keys k) (add_key_NoDup keys k Hnd)) as [H1 H2].
    split; [exact H1|]. intros x. rewrite H2, add_key_spec. cbn [In].
    split; intros H; intuition auto.
Qed.

Lemma fold_all_keys (fs : list GeoFeature) :
  forall keys,
    NoDup keys ->
    NoDup (fold_left (fun acc f => fold_left add_key (map fst (properties f)) acc) fs keys) /\
    forall x,
      In x (fold_left (fun acc f => fold_left add_key (map fst (properties f)) acc) fs keys)
      <-> In x keys \/ exists f, In f fs /\ In x (map fst (properties f)).
Proof.
  induction fs as [|f fs IH]; intros keys Hnd; cbn [fold_left].
  - split; [exact Hnd|]. intros x. split; [auto|]. intros [H | (f & [] & _)]. exact H.
  - destruct (fold_add_key (map fst (properties f)) keys Hnd) as [H1 H2].
    destruct (IH _ H1) as [H3 H4].
    split; [exact H3|]. intros x. rewrite H4, H2. split.
    + intros [[H | H] | (g & Hg & Hx)].
      * left. exact H.
      * right. exists f. split; [left; reflexivity | exact H].
      * right. exists g. split; [right; exact Hg | exact Hx].
    + intros [H | (g & [<- | Hg] & Hx)].
      * left. left. exact H.
      * left. right. exact Hx.
      * right. exists g. split; assumption.
Qed.

Lemma all_keys_NoDup (fs : list GeoFeature) : NoDup (all_keys fs).
Proof. apply (fold_all_keys fs []). constructor. Qed.

Lemma all_keys_spec (fs : list GeoFeature) (x : string) :
  In x (all_keys fs) <-> exists f, In f fs /\ In x (map fst (properties f)).
Proof.
  unfold all_keys. rewrite (proj2 (fold_all_keys fs [] (NoDup_nil _))).
  cbn [In]. tauto.
Qed.


(** *** Lists *)

Lemma combine_fst_seq (hs : list string) :
  forall start, map fst (combine hs (seq start (List.length hs))) = hs.
Proof.
  induction hs as [|h hs IH]; intros start; cbn; [reflexivity|].
  rewrite IH. reflexivity.
Qed.

Lemma Forall2_map_r {A B : Type} (P : A -> B -> Prop) (F : A -> B) (l : list A) :
  (forall a, In a l -> P a (F a)) -> Forall2 P l (map F l).
Proof.
  induction l as [|a l IH]; intros H; cbn [map]; constructor.
  - apply H. left. reflexivity.
  - apply IH. intros b Hb. apply H. right. exact Hb.
Qed.

Lemma filter_keeps_all {A : Type} (p : A -> bool) (l : list A) :
  (forall a, In a l -> p a = true) -> filter p l = l.
Proof.
  intros H. apply OsmFacts.filter_all. apply forallb_forall. exact H.
Qed.

Lemma convertToCSV_nonempty (num_to_string : jsnum -> string) (fs : list GeoFeature) :
  fs <> [] ->
  convertToCSV num_to_string fs
  = join (String LF EmptyString)
         (join "," (headers_of fs)
          :: map (fun f => join "," (map (cell num_to_string f) (headers_of fs))) fs).
Proof. destruct fs; [contradiction | reflexivity]. Qed.

(** *** The round trip of the districts *)

(** C3.  The specification asks that export, import and merge give back every
    attribute.  [convertToCSV] puts a field that holds a comma between
    double quotes (line 314, and lines 308 and 318), as CSV has it; the
    import cuts every line at every comma (line 546) and knows no quotes.
    On the districts of the source the round trip does not preserve the
    attributes: [economicFocus], which holds commas, comes back as its
    text up to the first comma with the opening quote in front, and the
    columns after it are shifted, so that the attribute [geometry] holds a
    piece of [economicFocus]. *)
Theorem districts_do_not_survive_roundtrip :
  ~ roundtrip_preserves show_decimal Number_decimal GeoData.districtFeatures /\
  map (fun f => get "economicFocus" (properties f))
      (roundtrip show_decimal Number_decimal GeoData.districtFeatures)
  = [VStr (String dquote "Agriculture"); VStr (String dquote "IT/BT")] /\
  map (fun f => get "geometry" (properties f))
      (roundtrip show_decimal Number_decimal GeoData.districtFeatures)
  = [VStr "Textiles"; VStr "Services"].
Proof.
  split; [|vm_compute; split; reflexivity].
  unfold roundtrip_preserves. intros H.
  remember (roundtrip show_decimal Number_decimal GeoData.districtFeatures) as r eqn:Hr.
  vm_compute in Hr. subst r. unfold GeoData.districtFeatures in H.
  inversion H as [|f f' l l' Hp _]; subst.
  destruct Hp as (_ & _ & Hk & _).
  specialize (Hk "economicFocus"%string ltac:(discriminate)).
  vm_compute in Hk. discriminate.
Qed.

End CsvFacts.
(* ================================================================== *)
(** ** Further properties of the retail scanner *)
(* ================================================================== *)

Module ScanFacts.
Import Osm Scan.
Local Open Scope list_scope.

(** The text of an HTTP error other than 429, 502 and 504 is neither taken
    for a rate limit nor for a gateway failure. *)
Lemma plain_status_text (status : Z) :
  100 <= status <= 599 ->
  status <> 429 -> status <> 502 -> status <> 504 ->
  is_rate_limit ("OSM_ERROR_" ++ JsString.ofZ status)%string = false /\
  is_gateway_or_timeout ("OSM_ERROR_" ++ JsString.ofZ status)%string = false.
Proof.
  intros Hr H429 H502 H504.
  pose (check := fun n : nat =>
          let s := Z.of_nat n in
          (s =? 429) || (s =? 502) || (s =? 504) ||
          (negb (is_rate_limit ("OSM_ERROR_" ++ JsString.ofZ s)%string) &&
           negb (is_gateway_or_timeout ("OSM_ERROR_" ++ JsString.ofZ s)%string))).
  assert (Hall : forallb check (seq 100 500) = true) by (vm_compute; reflexivity).
  assert (Hin : In (Z.to_nat status) (seq 100 500)) by (apply in_seq; lia).
  pose proof (proj1 (forallb_forall check (seq 100 500)) Hall _ Hin) as Hc.
  unfold check in Hc. cbv zeta in Hc. rewrite Z2Nat.id in Hc by lia.
  apply Z.eqb_neq in H429, H502, H504. rewrite H429, H502, H504 in Hc.
  cbn [orb] in Hc. apply andb_prop in Hc. destruct Hc as [Ha Hb].
  apply negb_true_iff in Ha, Hb. split; assumption.
Qed.

Section Queries.

Variable sinQ : Q -> Q.
Variable parseFloat : string -> jsnum.
Variable World : Type.
Variable fetch : BBox -> World -> FetchOutcome * World.
Variable random : World -> Q * World.

Local Notation State := (State World).
Local Notation exec := (executeOverpassQuery sinQ parseFloat fetch random).
Local Notation exec_body := (executeOverpassQuery_body sinQ parseFloat fetch random).
Local Notation bounded := (fetchRetailStoresBounded sinQ parseFloat fetch random).
Local Notation bounded_body := (fetchRetailStoresBounded_body sinQ parseFloat fetch random).
Local Notation exec_unfold :=
  (OsmFacts.executeOverpassQuery_unfold sinQ parseFloat World fetch random).
Local Notation bounded_unfold :=
  (OsmFacts.fetchRetailStoresBounded_unfold sinQ parseFloat World fetch random).

(** X1.  Against an endpoint that answers a query with 504 (or with 502)
    every time, [executeOverpassQuery] sends the query three times, pauses
    2000 ms after the first and after the second answer, and rejects with
    the error [OSM_ERROR_504] (or [OSM_ERROR_502]). *)
Theorem gateway_error_retried_twice (box : BBox) (status : Z) (st : State) :
  status = 504 \/ status = 502 ->
  (forall w, exists body w', fetch box w = (Response status body, w')) ->
  exists st',
    exec box 1 st =
      (Throw (mkError "Error" ("OSM_ERROR_" ++ JsString.ofZ status)%string), st') /\
    trace st' = trace st ++ [EvFetch box 1; EvSleep (Fin 2000);
                             EvFetch box 2; EvSleep (Fin 2000);
                             EvFetch box 3].
Proof.
  intros Hs Hall.
  exact (OsmFacts.exec_gateway sinQ parseFloat World fetch random box status st Hs Hall).
Qed.

(** One query that is answered with a plain HTTP error. *)
Lemma exec_plain_error (box : BBox) (attempt : nat) (st : State)
    (status : Z) (body : JsonBody) (w' : World) :
  fetch box (world st) = (Response status body, w') ->
  response_ok status = false ->
  status <> 429 -> status <> 502 -> status <> 504 ->
  exec box attempt st =
    (Throw (mkError "Error" ("OSM_ERROR_" ++ JsString.ofZ status)%string),
     {| world := w'; trace := trace st ++ [EvFetch box attempt] |}).
Proof.
  intros Hf Hok H429 H502 H504.
  rewrite exec_unfold. unfold executeOverpassQuery_body, do_fetch.
  rewrite Hf, Hok.
  apply Z.eqb_neq in H429, H502, H504. rewrite H429, H502, H504.
  reflexivity.
Qed.

(** X2.  An HTTP error other than 429, 502 and 504 is not retried: the query
    is sent once and rejected with [OSM_ERROR_<status>]; the scan of the
    box does not split: at depth 0 it is rejected with that error, at a
    depth above 0 it is fulfilled with the empty list. *)
Theorem other_status_not_retried (box : BBox) (st : State)
    (status : Z) (body : JsonBody) (w' : World) :
  fetch box (world st) = (Response status body, w') ->
  100 <= status <= 599 ->
  response_ok status = false ->
  status <> 429 -> status <> 502 -> status <> 504 ->
  let error := mkError "Error" ("OSM_ERROR_" ++ JsString.ofZ status)%string in
  exec box 1 st = (Throw error, {| world := w'; trace := trace st ++ [EvFetch box 1] |}) /\
  bounded box 0 st =
    (Throw error, {| world := w'; trace := trace st ++ [EvCall 0 box; EvFetch box 1] |}) /\
  (forall depth, (0 < depth)%nat ->
     bounded box depth st =
       (Ok [], {| world := w'; trace := trace st ++ [EvCall depth box; EvFetch box 1] |})).
Proof.
  intros Hf Hr Hok H429 H502 H504 error.
  destruct (plain_status_text status Hr H429 H502 H504) as [Hrl Hgw].
  assert (Hbody : forall depth,
             bounded box depth st =
               (if (0 <? depth)%nat then Ok [] else Throw error,
                {| world := w'; trace := trace st ++ [EvCall depth box; EvFetch box 1] |})).
  { intros depth. rewrite bounded_unfold. unfold fetchRetailStoresBounded_body.
    rewrite (exec_plain_error box 1 (log (EvCall depth box) st) status body w'
               Hf Hok H429 H502 H504).
    change (error_text (mkError "Error" ("OSM_ERROR_" ++ JsString.ofZ status)%string))
      with ("OSM_ERROR_" ++ JsString.ofZ status)%string.
    rewrite Hrl, Hgw, andb_false_r.
    unfold log. cbn [trace world]. rewrite <- app_assoc.
    destruct (0 <? depth)%nat; reflexivity. }
  split; [|split].
  - apply (exec_plain_error box 1 st status body w'); assumption.
  - rewrite Hbody. reflexivity.
  - intros depth Hd. rewrite Hbody. apply Nat.ltb_lt in Hd. rewrite Hd. reflexivity.
Qed.

(** X3.  A fetch that is rejected.  When the rejection is an [AbortError]
    (the 120 s timer) and the endpoint keeps timing out, the query is sent
    three times, without any pause in between, and is rejected with the
    [AbortError]; a rejection of any other name is not retried. *)
Theorem rejected_fetch_retries (box : BBox) (e : JsError) (st : State) :
  (err_name e = "AbortError"%string ->
   (forall w, exists w', fetch box w = (Rejected e, w')) ->
   exists st',
     exec box 1 st = (Throw e, st') /\
     trace st' = trace st ++ [EvFetch box 1; EvFetch box 2; EvFetch box 3]) /\
  (err_name e <> "AbortError"%string ->
   forall w', fetch box (world st) = (Rejected e, w') ->
     exec box 1 st = (Throw e, {| world := w'; trace := trace st ++ [EvFetch box 1] |})).
Proof.
  split.
  - intros Hn Hall.
    exact (OsmFacts.exec_aborted sinQ parseFloat World fetch random box e st Hn Hall).
  - intros Hn w' Hf.
    apply (OsmFacts.exec_rejected_final sinQ parseFloat World fetch random box 1 st e w');
      [exact Hf | left; exact Hn].
Qed.

(** X4.  A call that splits is fulfilled, whatever happens in its
    quadrants: when the query of a call at depth below 2 fails with a
    gateway or timeout error, the call does not reject; and when each of
    its four quadrants rejects (a rate limit included), the call is
    fulfilled with the empty list. *)
Theorem split_call_is_fulfilled
    (box : BBox) (depth : nat) (st st1 : State) (error : JsError) :
  exec box 1 (log (EvCall depth box) st) = (Throw error, st1) ->
  is_rate_limit (error_text error) = false ->
  (depth < 2)%nat ->
  is_gateway_or_timeout (error_text error) = true ->
  (exists features st', bounded box depth st = (Ok features, st')) /\
  ((forall q s, In q (quadrants_of box) ->
      exists e s', bounded q (depth + 1) s = (Throw e, s')) ->
   exists st', bounded box depth st = (Ok [], st')).
Proof.
  intros Hq Hrate Hd Hgw.
  rewrite (OsmFacts.split_into_quadrants sinQ parseFloat World fetch random
             box depth st st1 error Hq Hrate Hd Hgw).
  split.
  - apply OsmFacts.scan_quadrants_fulfilled.
  - intros Hrej.
    assert (Hgen : forall qs s, (forall q, In q qs -> In q (quadrants_of box)) ->
              exists s', scan_quadrants (fun q => bounded q (depth + 1)) qs [] s = (Ok [], s')).
    { induction qs as [|q qs IH]; intros s Hsub.
      - simpl. eauto.
      - cbn [scan_quadrants].
        destruct (Hrej q s (Hsub q (or_introl eq_refl))) as (e & s' & He).
        rewrite He. apply IH. intros q' Hq'. apply Hsub. right. exact Hq'. }
    apply Hgen. intros q Hin. exact Hin.
Qed.

(** *** A query that is rate-limited for a while *)

Lemma exec_rate_limited_prefix (n : nat) :
  forall (attempt : nat) (box : BBox) (st : State) (draws : list Q) (w1 : World),
    (attempt + n <= 6)%nat ->
    rate_limited_run fetch random box n (world st) = Some (draws, w1) ->
    exec box attempt st =
      exec box (attempt + n)
           {| world := w1;
              trace := trace st ++ backoff_events box attempt (jitters_of draws) |} /\
    List.length draws = n /\
    Forall (fun r => exists w, r = fst (random w)) draws.
Proof.
  induction n as [|n IH]; intros attempt box st draws w1 Hle Hrun;
    cbn [rate_limited_run] in Hrun.
  - injection Hrun as <- <-. cbn [jitters_of map backoff_events].
    rewrite app_nil_r, Nat.add_0_r. destruct st. repeat split. constructor.
  - destruct (fetch box (world st)) as [[status body|e] wa] eqn:Hf; [|discriminate].
    destruct (status =? 429) eqn:Hs; [|discriminate].
    apply Z.eqb_eq in Hs. subst status.
    pose proof (OsmFacts.exec_step_429 sinQ parseFloat World fetch random box attempt st
                  body wa Hf ltac:(lia)) as Hstep.
    destruct (random wa) as [r w2] eqn:Hr. cbn [fst snd] in Hstep.
    destruct (rate_limited_run fetch random box n w2) as [[ds w']|] eqn:Hrest; [|discriminate].
    injection Hrun as <- <-.
    set (st1 := {| world := w2; trace := _ |}) in Hstep.
    destruct (IH (attempt + 1)%nat box st1 ds w' ltac:(lia) Hrest) as (He & Hl & Hd).
    split; [|split].
    + rewrite Hstep, He. subst st1. cbn [trace jitters_of map backoff_events].
      replace (attempt + 1 + n)%nat with (attempt + S n)%nat by lia.
      replace (attempt + 1)%nat with (S attempt) by lia.
      rewrite <- app_assoc. reflexivity.
    + simpl. rewrite Hl. reflexivity.
    + constructor; [exists wa; rewrite Hr; reflexivity | exact Hd].
Qed.

Lemma jitters_in_range (draws : list Q) :
  (forall w, 0 <= fst (random w) < 1)%Q ->
  Forall (fun r => exists w, r = fst (random w)) draws ->
  Forall (fun j => 0 <= j < 1000)%Q (jitters_of draws).
Proof.
  intros Hrand Hd. unfold jitters_of. apply Forall_map.
  eapply Forall_impl; [|exact Hd].
  cbv beta. intros r [w ->]. destruct (Hrand w). split; lra.
Qed.

(** X5.  A query that is rate-limited [n] times, [n] at most 5, and then
    answered, against any endpoint and any [Math.random]: it is fulfilled
    with the features of the answer after [n + 1] POSTs; the pause after
    the k-th 429 is 3000 * 2^(k-1) ms plus the jitter, which is the draw of
    [Math.random] times 1000 and lies in [0, 1000) when the draws lie in
    [0, 1). *)
Theorem rate_limited_then_answered (n : nat) (box : BBox) (st : State)
    (draws : list Q) (w1 w2 : World) (status : Z) (elements : option (list OsmElement)) :
  (n <= 5)%nat ->
  rate_limited_run fetch random box n (world st) = Some (draws, w1) ->
  fetch box w1 = (Response status (BodyData elements), w2) ->
  response_ok status = true ->
  exec box 1 st =
    (Ok (map (transformToGeoFeature sinQ parseFloat)
             (filter has_coordinates
                     match elements with Some els => els | None => [] end)),
     {| world := w2;
        trace := trace st ++ backoff_events box 1 (jitters_of draws)
                 ++ [EvFetch box (1 + n)] |}) /\
  List.length draws = n /\
  ((forall w, 0 <= fst (random w) < 1)%Q ->
   Forall (fun j => 0 <= j < 1000)%Q (jitters_of draws)).
Proof.
  intros Hn Hrun Hf Hok.
  destruct (exec_rate_limited_prefix n 1 box st draws w1 ltac:(lia) Hrun) as (He & Hl & Hd).
  split; [|split; [exact Hl|]].
  - rewrite He.
    rewrite (OsmFacts.exec_success sinQ parseFloat World fetch random box (1 + n)
               {| world := w1;
                  trace := trace st ++ backoff_events box 1 (jitters_of draws) |}
               status elements w2 Hf Hok).
    cbn [trace]. rewrite <- app_assoc. reflexivity.
  - intros Hrand. apply jitters_in_range; assumption.
Qed.

(** X6.  The retries share one attempt counter, against any endpoint and
    any [Math.random]: a 504 (or 502) that follows two to five rate-limited
    attempts is not retried, and the query is rejected at once with
    [OSM_ERROR_504] (or [OSM_ERROR_502]). *)
Theorem gateway_error_after_rate_limits_is_final (n : nat) (box : BBox) (st : State)
    (draws : list Q) (w1 w2 : World) (status : Z) (body : JsonBody) :
  (2 <= n <= 5)%nat ->
  rate_limited_run fetch random box n (world st) = Some (draws, w1) ->
  fetch box w1 = (Response status body, w2) ->
  status = 504 \/ status = 502 ->
  exec box 1 st =
    (Throw (mkError "Error" ("OSM_ERROR_" ++ JsString.ofZ status)%string),
     {| world := w2;
        trace := trace st ++ backoff_events box 1 (jitters_of draws)
                 ++ [EvFetch box (1 + n)] |}).
Proof.
  intros Hn Hrun Hf Hs.
  destruct (exec_rate_limited_prefix n 1 box st draws w1 ltac:(lia) Hrun) as (He & _ & _).
  rewrite He.
  rewrite (OsmFacts.exec_give_up_gateway sinQ parseFloat World fetch random box (1 + n)
             {| world := w1;
                trace := trace st ++ backoff_events box 1 (jitters_of draws) |}
             status body w2 Hf Hs ltac:(lia)).
  cbn [trace]. rewrite <- app_assoc. reflexivity.
Qed.

End Queries.

(** *** The same on concrete endpoints *)

Lemma gateway_error_retried_twice_witness :
  exists st',
    executeOverpassQuery sin_zero parseFloat_decimal (always_status 504) random_half
      scenario_box 1 initial_state
      = (Throw (mkError "Error" ("OSM_ERROR_" ++ JsString.ofZ 504)%string), st') /\
    trace st' = trace initial_state
                ++ [EvFetch scenario_box 1; EvSleep (Fin 2000);
                    EvFetch scenario_box 2; EvSleep (Fin 2000);
                    EvFetch scenario_box 3].
Proof.
  apply (gateway_error_retried_twice sin_zero parseFloat_decimal unit
           (always_status 504) random_half scenario_box 504 initial_state).
  - left. reflexivity.
  - intros w. exists (BodyData None), w. reflexivity.
Defined.

Lemma other_status_not_retried_witness :
  fetchRetailStoresBounded sin_zero parseFloat_decimal (always_status 500) random_half
    scenario_box 0 initial_state
  = (Throw (mkError "Error" ("OSM_ERROR_" ++ JsString.ofZ 500)%string),
     {| world := tt;
        trace := trace initial_state ++ [EvCall 0 scenario_box; EvFetch scenario_box 1] |}).
Proof.
  apply (other_status_not_retried sin_zero parseFloat_decimal unit
           (always_status 500) random_half scenario_box initial_state
           500 (BodyData None) tt eq_refl);
    try reflexivity; try discriminate; lia.
Defined.

Lemma rejected_fetch_retries_witness :
  exists st',
    executeOverpassQuery sin_zero parseFloat_decimal
      (always_rejected (mkError "AbortError" "The operation was aborted.")) random_half
      scenario_box 1 initial_state
      = (Throw (mkError "AbortError" "The operation was aborted."), st') /\
    trace st' = trace initial_state
                ++ [EvFetch scenario_box 1; EvFetch scenario_box 2; EvFetch scenario_box 3].
Proof.
  apply (proj1 (rejected_fetch_retries sin_zero parseFloat_decimal unit
                  (always_rejected (mkError "AbortError" "The operation was aborted."))
                  random_half scenario_box
                  (mkError "AbortError" "The operation was aborted.") initial_state)).
  - reflexivity.
  - intros w. exists w. reflexivity.
Defined.

(** The whole box answered 504 and every quadrant rate-limited: the scan is
    fulfilled with no store at all; the rate limit does not reach the
    caller. *)
Lemma split_call_is_fulfilled_witness :
  exists st',
    fetchRetailStoresBounded sin_zero parseFloat_decimal busy_quadrants random_half
      scenario_box 0 initial_state = (Ok [], st').
Proof.
  assert (Hq : exists st1,
             executeOverpassQuery sin_zero parseFloat_decimal busy_quadrants random_half
               scenario_box 1 (log (EvCall 0 scenario_box) initial_state)
             = (Throw (mkError "Error" "OSM_ERROR_504"), st1)).
  { eexists. vm_compute. reflexivity. }
  destruct Hq as [st1 Hq].
  apply (proj2 (split_call_is_fulfilled sin_zero parseFloat_decimal unit
                  busy_quadrants random_half scenario_box 0 initial_state st1
                  (mkError "Error" "OSM_ERROR_504") Hq eq_refl ltac:(lia) eq_refl)).
  intros q s Hin. simpl in Hin.
  destruct s as [[] tr].
  destruct Hin as [<- | [<- | [<- | [<- | []]]]];
    eexists; eexists; vm_compute; reflexivity.
Defined.

(** Two rate-limited attempts of a scripted endpoint, with a [Math.random]
    that draws one half: pauses of 3500 ms and 6500 ms. *)
Lemma rate_limited_then_answered_witness :
  executeOverpassQuery sin_zero parseFloat_decimal scripted steady scenario_box 1
    {| world := [rate_limited; rate_limited;
                 Response 200 (BodyData (Some [node_1234567890]))];
       trace := [] |}
  = (Ok (map (transformToGeoFeature sin_zero parseFloat_decimal)
             (filter has_coordinates [node_1234567890])),
     {| world := [];
        trace := [] ++ backoff_events scenario_box 1 (jitters_of [1 # 2; 1 # 2])
                 ++ [EvFetch scenario_box (1 + 2)] |}).
Proof.
  apply (rate_limited_then_answered sin_zero parseFloat_decimal Script scripted steady
           2 scenario_box
           {| world := [rate_limited; rate_limited;
                        Response 200 (BodyData (Some [node_1234567890]))];
              trace := [] |}
           [1 # 2; 1 # 2] [Response 200 (BodyData (Some [node_1234567890]))] []
           200 (Some [node_1234567890]));
    [lia | reflexivity | reflexivity | reflexivity].
Defined.

Lemma gateway_error_after_rate_limits_is_final_witness :
  executeOverpassQuery sin_zero parseFloat_decimal scripted steady scenario_box 1
    {| world := [rate_limited; rate_limited; Response 504 (BodyData None)];
       trace := [] |}
  = (Throw (mkError "Error" ("OSM_ERROR_" ++ JsString.ofZ 504)%string),
     {| world := [];
        trace := [] ++ backoff_events scenario_box 1 (jitters_of [1 # 2; 1 # 2])
                 ++ [EvFetch scenario_box (1 + 2)] |}).
Proof.
  apply (gateway_error_after_rate_limits_is_final sin_zero parseFloat_decimal Script
           scripted steady 2 scenario_box
           {| world := [rate_limited; rate_limited; Response 504 (BodyData None)];
              trace := [] |}
           [1 # 2; 1 # 2] [Response 504 (BodyData None)] [] 504 (BodyData None));
    [lia | reflexivity | reflexivity | left; reflexivity].
Defined.

End ScanFacts.
(* ================================================================== *)
(** ** Stores and the scan of the regions *)
(* ================================================================== *)

Module StoreFacts.
Import Osm Scan.
Local Open Scope list_scope.

(** Every category is one of the fifteen the application knows. *)
Lemma getCategory_range (shopType : string) :
  In (getCategory shopType)
     ["Groceries"; "Food & Beverages"; "Fashion"; "Accessories"; "Electronics";
      "Home & Living"; "Hardware & DIY"; "Health"; "Beauty"; "Automotive";
      "Books & Stationery"; "Gifts & Hobbies"; "Liquor & Tobacco";
      "Department Stores"; "General Retail"]%string.
Proof.
  unfold getCategory. cbv zeta.
  repeat match goal with
         | |- In (if ?c then _ else _) _ => destruct c
         end; simpl; tauto.
Qed.

Lemma or_else_nonempty (v : option string) (default : string) :
  default <> EmptyString -> or_else v default <> EmptyString.
Proof.
  intros Hd. destruct v as [[|c s]|]; simpl; try exact Hd. discriminate.
Qed.

(** A text that starts with a digit, signed or not, reads as a number. *)
Lemma parseInt_digit_head (c : ascii) (s : string) :
  is_digit c = true ->
  (exists q, parseInt (String c s) = Fin q) /\
  (exists q, parseInt (String "-" (String c s)) = Fin q).
Proof.
  intros Hc.
  destruct c as [[] [] [] [] [] [] [] []]; try discriminate Hc;
    unfold parseInt; simpl; destruct (span_digits s); simpl;
    unfold JsNum.ofZ; split; eexists; reflexivity.
Qed.

(** The decimal text of an integer reads back as a number. *)
Lemma parseInt_ofZ_finite (z : Z) : exists q, parseInt (JsString.ofZ z) = Fin q.
Proof.
  assert (Hd : forall d, d <> Decimal.Nil ->
             exists c s, NilZero.string_of_uint d = String c s /\ is_digit c = true).
  { intros d Hn. destruct d; try (exfalso; apply Hn; reflexivity);
      simpl; eexists; eexists; split; reflexivity. }
  unfold JsString.ofZ.
  destruct z as [|p|p]; cbn [Z.to_int].
  - vm_compute. eauto.
  - destruct (Hd (Pos.to_uint p) (DecimalPos.Unsigned.to_uint_nonnil p)) as (c & s & Hs & Hc).
    cbn [NilZero.string_of_int]. rewrite Hs.
    apply (parseInt_digit_head c s Hc).
  - destruct (Hd (Pos.to_uint p) (DecimalPos.Unsigned.to_uint_nonnil p)) as (c & s & Hs & Hc).
    cbn [NilZero.string_of_int]. rewrite Hs.
    apply (parseInt_digit_head c s Hc).
Qed.

Section Stores.

Variable sinQ : Q -> Q.
Variable parseFloat : string -> jsnum.

Local Notation transform := (transformToGeoFeature sinQ parseFloat).

(** X7.  Every store has a name, a sub-category and a vicinity that are not
    empty; its category is the category of its sub-category and one of the
    fifteen categories of the application; its key markets are the
    sub-category and the category. *)
Theorem store_attributes_present (e : OsmElement) :
  exists name sub vicinity,
    get "name" (properties (transform e)) = VStr name /\ name <> EmptyString /\
    get "subCategory" (properties (transform e)) = VStr sub /\ sub <> EmptyString /\
    get "vicinity" (properties (transform e)) = VStr vicinity /\ vicinity <> EmptyString /\
    get "category" (properties (transform e)) = VStr (getCategory sub) /\
    get "keyMarkets" (properties (transform e)) = VStrings [sub; getCategory sub] /\
    In (getCategory sub)
       ["Groceries"; "Food & Beverages"; "Fashion"; "Accessories"; "Electronics";
        "Home & Living"; "Hardware & DIY"; "Health"; "Beauty"; "Automotive";
        "Books & Stationery"; "Gifts & Hobbies"; "Liquor & Tobacco";
        "Department Stores"; "General Retail"]%string.
Proof.
  eexists. eexists. eexists.
  split; [reflexivity|]. split; [apply or_else_nonempty; discriminate|].
  split; [reflexivity|]. split; [apply or_else_nonempty; discriminate|].
  split; [reflexivity|]. split; [apply or_else_nonempty; discriminate|].
  split; [reflexivity|]. split; [reflexivity|].
  apply getCategory_range.
Qed.

(** X8.  With a sine between -1 and 1, the number of user ratings made up
    for a store is an integer between 5 and 505. *)
Theorem user_ratings_total_range (e : OsmElement) :
  (forall x, -1 <= sinQ x <= 1)%Q ->
  exists n : Z,
    get "userRatingsTotal" (properties (transform e)) = VNum (Fin (inject_Z n + 5)) /\
    0 <= n <= 500.
Proof.
  intros Hsin.
  change (get "userRatingsTotal" (properties (transform e)))
    with (VNum (JsNum.floor (JsNum.abs (Math_sin sinQ (parseInt (JsString.ofZ (el_id e)))
                                        * Fin 500))
                + Fin 5)%js).
  destruct (parseInt_ofZ_finite (el_id e)) as [q ->].
  cbn [Math_sin JsNum.mul JsNum.abs JsNum.floor JsNum.add].
  exists (Qfloor (Qabs (sinQ q * 500))). split; [reflexivity|].
  assert (Ha : (0 <= Qabs (sinQ q * 500) <= 500)%Q).
  { split; [apply Qabs_nonneg|].
    apply Qabs_Qle_condition. specialize (Hsin q). split; lra. }
  destruct Ha as [Ha0 Ha1]. split.
  - rewrite <- (Qfloor_Z 0). apply Qfloor_resp_le. exact Ha0.
  - rewrite <- (Qfloor_Z 500). apply Qfloor_resp_le. exact Ha1.
Qed.

(** X9.  The coordinates of a store follow the type of its element: a way
    takes them from its [center], any other element from its own [lat] and
    [lon].  The filter of the scanner accepts either pair whatever the
    type, so a way that carries [lat] and [lon] but no [center] passes the
    filter and becomes a store without coordinates. *)
Theorem coordinates_follow_element_type (e : OsmElement) :
  (el_type e = "way"%string ->
   geometry (transform e) =
     Point (match el_center e with Some c => snd c | None => None end)
           (match el_center e with Some c => fst c | None => None end)) /\
  (el_type e <> "way"%string ->
   geometry (transform e) = Point (el_lon e) (el_lat e)) /\
  (el_type e = "way"%string -> el_center e = None ->
   truthy_opt (el_lat e) = true -> truthy_opt (el_lon e) = true ->
   has_coordinates e = true /\ geometry (transform e) = Point None None).
Proof.
  assert (Hgeo : geometry (transform e) =
            Point (if String.eqb (el_type e) "way"
                   then match el_center e with Some c => snd c | None => None end
                   else el_lon e)
                  (if String.eqb (el_type e) "way"
                   then match el_center e with Some c => fst c | None => None end
                   else el_lat e)) by reflexivity.
  split; [|split].
  - intros Hw. rewrite Hgeo. apply String.eqb_eq in Hw. rewrite Hw. reflexivity.
  - intros Hw. rewrite Hgeo. apply String.eqb_neq in Hw. rewrite Hw. reflexivity.
  - intros Hw Hc Hlat Hlon. split.
    + unfold has_coordinates. rewrite Hlat, Hlon. reflexivity.
    + rewrite Hgeo. apply String.eqb_eq in Hw. rewrite Hw, Hc. reflexivity.
Qed.

End Stores.

Section Regions.

Variable sinQ : Q -> Q.
Variable parseFloat : string -> jsnum.
Variable World : Type.
Variable fetch : BBox -> World -> FetchOutcome * World.
Variable random : World -> Q * World.

Local Notation State := (State World).
Local Notation bounded := (fetchRetailStoresBounded sinQ parseFloat fetch random).
Local Notation scan_regions := (scan_regions sinQ parseFloat fetch random).
Local Notation handleScanStores := (handleScanStores sinQ parseFloat fetch random).

Lemma scan_regions_app (pre post : list BBox) :
  forall (allStores : list GeoFeature) (st : State),
    scan_regions (pre ++ post) allStores st =
    match scan_regions pre allStores st with
    | (Ok collected, st1) => scan_regions post collected st1
    | (Throw e, st1) => (Throw e, st1)
    end.
Proof.
  induction pre as [|r pre IH]; intros allStores st.
  - reflexivity.
  - cbn [app Scan.scan_regions].
    destruct (bounded r 0 st) as [[results|e] st1]; [apply IH | reflexivity].
Qed.

(** X10.  A scan of several regions is all or nothing: when the scan of one
    region is rejected, the regions after it are not scanned, the features
    collected from the regions before it are dropped, the stores and the
    filter bar stay as they were, and the failure is reported. *)
Theorem failed_scan_keeps_stores
    (scanRegions : list BBox) (selectedRegionIndices : list nat) (confirmed : bool)
    (stores : list GeoFeature) (showFilterBar : bool) (st : State)
    (pre post : list BBox) (region : BBox)
    (collected : list GeoFeature) (st1 st2 : State) (e : JsError) :
  regions_to_scan scanRegions selectedRegionIndices confirmed
    = Some (pre ++ region :: post) ->
  scan_regions pre [] st = (Ok collected, st1) ->
  bounded region 0 st1 = (Throw e, st2) ->
  handleScanStores scanRegions selectedRegionIndices confirmed stores showFilterBar st =
    ({| stores_after := stores;
        filter_bar := showFilterBar;
        alert := Some "Scan failed. Check network connection or try again later."%string |},
     st2).
Proof.
  intros Hregions Hpre Hfail.
  unfold Scan.handleScanStores. rewrite Hregions.
  rewrite scan_regions_app, Hpre. cbn [Scan.scan_regions]. rewrite Hfail.
  reflexivity.
Qed.

(** X11.  Whatever the endpoint does, the scan of [n] regions makes at most
    21 n calls of [fetchRetailStoresBounded], none deeper than depth 2, and
    sends at most 126 n POSTs. *)
Theorem region_scan_budget (regions : list BBox) :
  forall (allStores : list GeoFeature) (st : State),
  exists evs,
    trace (snd (scan_regions regions allStores st)) = trace st ++ evs /\
    Forall (fun d => d <= 2)%nat (call_depths evs) /\
    (List.length (call_depths evs) <= 21 * List.length regions)%nat /\
    (count_fetches evs <= 126 * List.length regions)%nat.
Proof.
  induction regions as [|r regions IH]; intros allStores st.
  - exists []. cbn. rewrite app_nil_r. repeat split; auto.
  - cbn [Scan.scan_regions].
    destruct (OsmFacts.bounded_from_trace sinQ parseFloat World fetch random 2 r 0 st)
      as (evs1 & Ht1 & (F1 & _ & C1 & Q1)).
    change (fetchRetailStoresBounded_from sinQ parseFloat fetch random 2 r 0 st)
      with (bounded r 0 st) in Ht1.
    cbn [tree_size] in C1.
    assert (F1' : Forall (fun d => d <= 2)%nat (call_depths evs1)).
    { eapply Forall_impl; [|exact F1]. cbv beta. intros d Hd. lia. }
    destruct (bounded r 0 st) as [[results|e] st1]; cbn [snd] in Ht1 |- *.
    + destruct (IH (allStores ++ results) st1) as (evs2 & Ht2 & F2 & C2 & Q2).
      exists (evs1 ++ evs2). rewrite Ht2, Ht1, <- app_assoc.
      split; [reflexivity|].
      rewrite OsmFacts.call_depths_app, OsmFacts.count_fetches_app, length_app.
      cbn [List.length].
      split; [apply Forall_app; split; assumption|]. split; lia.
    + exists evs1. split; [exact Ht1|].
      cbn [List.length]. split; [exact F1'|]. split; lia.
Qed.

End Regions.

(** *** The same on concrete inputs *)

Lemma user_ratings_total_range_witness :
  exists n : Z,
    get "userRatingsTotal"
        (properties (transformToGeoFeature sin_zero parseFloat_decimal node_1234567890))
    = VNum (Fin (inject_Z n + 5)) /\
    0 <= n <= 500.
Proof.
  apply (user_ratings_total_range sin_zero parseFloat_decimal node_1234567890).
  intros x. unfold sin_zero. split; discriminate.
Defined.

Lemma coordinates_follow_element_type_witness :
  has_coordinates way_without_center = true /\
  geometry (transformToGeoFeature sin_zero parseFloat_decimal way_without_center)
  = Point None None.
Proof.
  apply (proj2 (proj2 (coordinates_follow_element_type sin_zero parseFloat_decimal
                         way_without_center)));
    reflexivity.
Defined.

(** Two regions, the first answered with a shop, the second with a 500:
    the shop of the first region is not kept. *)
Lemma failed_scan_keeps_stores_witness :
  fst (handleScanStores sin_zero parseFloat_decimal scripted steady
         [scenario_box; mkBBox (Fin 13) (Fin 77) (Fin 14) (Fin 78)] [] true [] false
         {| world := [Response 200 (BodyData (Some [node_1234567890]));
                      Response 500 (BodyData None)];
            trace := [] |})
  = {| stores_after := [];
       filter_bar := false;
       alert := Some "Scan failed. Check network connection or try again later."%string |}.
Proof.
  erewrite (failed_scan_keeps_stores sin_zero parseFloat_decimal Script scripted steady
              [scenario_box; mkBBox (Fin 13) (Fin 77) (Fin 14) (Fin 78)] [] true [] false
              _ [scenario_box] [] (mkBBox (Fin 13) (Fin 77) (Fin 14) (Fin 78)));
    [reflexivity | reflexivity | vm_compute; reflexivity | vm_compute; reflexivity].
Defined.

End StoreFacts.
(* ================================================================== *)
(** ** Further properties of the generated datasets *)
(* ================================================================== *)

Module GeoMore.
Import GeoData GeoProps.
Local Open Scope list_scope.

(** *** Comparisons of finite numbers *)

Lemma ltb_Fin (p q : Q) : (Fin p <? Fin q)%js = true <-> (p < q)%Q.
Proof.
  cbn [JsNum.ltb]. rewrite negb_true_iff. split.
  - intros H. apply Qnot_le_lt. intros Hle.
    apply Qle_bool_iff in Hle. congruence.
  - intros H. destruct (Qle_bool q p) eqn:E; [|reflexivity].
    apply Qle_bool_iff in E. exfalso. apply (Qlt_not_le _ _ H E).
Qed.

Lemma ltb_Fin_false (p q : Q) : (Fin p <? Fin q)%js = false <-> (q <= p)%Q.
Proof.
  cbn [JsNum.ltb]. rewrite negb_false_iff. apply Qle_bool_iff.
Qed.

Lemma Qis_zero_false (q : Q) : ~ (q == 0)%Q -> Qis_zero q = false.
Proof.
  intros H. unfold Qis_zero. apply Z.eqb_neq. intros E. apply H.
  unfold Qeq. cbn. rewrite E. reflexivity.
Qed.

(** *** The ray-casting test *)

(** The loop leaves [inside] alone when no edge is counted. *)
Lemma ray_cast_quiet (x y : jsnum) (P : point -> Prop) :
  (forall vi vj, P vi -> P vj ->
     negb (Bool.eqb (snd vi >? y)%js (snd vj >? y)%js)
     && (x <? (fst vj - fst vi) * (y - snd vi) / (snd vj - snd vi) + fst vi)%js = false) ->
  forall (vs : list point) (vj : point) (inside : bool),
    P vj -> Forall P vs -> ray_cast x y vj vs inside = inside.
Proof.
  intros Hedge. induction vs as [|vi vs IH]; intros vj inside Hj Hall.
  - reflexivity.
  - inversion Hall as [|? ? Hi Hrest]; subst.
    cbn [ray_cast]. destruct vi as [xi yi]. destruct vj as [xj yj].
    pose proof (Hedge (xi, yi) (xj, yj) Hi Hj) as He. cbn [fst snd] in He.
    rewrite He. apply IH; assumption.
Qed.

Lemma last_In {A : Type} (l : list A) (d : A) : l <> [] -> In (last l d) l.
Proof.
  intros Hne. destruct (exists_last Hne) as (l' & a & E).
  rewrite E, last_last. apply in_or_app. right. left. reflexivity.
Qed.

Lemma ray_cast_level (x y : jsnum) (b : bool) (vs : list point) :
  Forall (fun v => (snd v >? y)%js = b) vs ->
  isPointInPolygon (x, y) vs = false.
Proof.
  intros Hall. unfold isPointInPolygon. destruct vs as [|v0 vs']; [reflexivity|].
  apply (ray_cast_quiet (fst (x, y)) (snd (x, y)) (fun v => (snd v >? y)%js = b)).
  - intros vi vj Hi Hj. cbn [fst snd]. rewrite Hi, Hj, Bool.eqb_reflx. reflexivity.
  - apply (proj1 (Forall_forall _ _) Hall). apply last_In. discriminate.
  - exact Hall.
Qed.

(** X12.  The test never takes a point above or below a polygon for a
    point inside it: when no vertex lies above the height of the point
    (the comparison [yi > y] of line 24 fails for every vertex), or when
    every vertex does, the point is outside, whatever the abscissas are.
    A point with a [NaN] coordinate is outside every polygon. *)
Theorem point_above_or_below_is_outside (vs : list point) (x y : jsnum) :
  (Forall (fun v => (snd v >? y)%js = false) vs \/
   Forall (fun v => (snd v >? y)%js = true) vs ->
   isPointInPolygon (x, y) vs = false) /\
  isPointInPolygon (x, NaN) vs = false /\
  isPointInPolygon (NaN, y) vs = false.
Proof.
  split; [|split].
  - intros [Hup | Hdown].
    + apply (ray_cast_level x y false), Hup.
    + apply (ray_cast_level x y true), Hdown.
  - apply (ray_cast_level x NaN false).
    apply Forall_forall. intros [xi yi] _. cbn [snd]. unfold JsNum.gtb.
    reflexivity.
  - unfold isPointInPolygon. destruct vs as [|v0 vs']; [reflexivity|].
    apply (ray_cast_quiet (fst (NaN, y)) (snd (NaN, y)) (fun _ => True)).
    + intros vi vj _ _. cbn [fst snd]. apply andb_false_r.
    + exact I.
    + apply Forall_forall. intros v _. exact I.
Qed.

(** A point north of the clipping rectangle of the pincodes. *)
Lemma point_above_or_below_is_outside_witness :
  isPointInPolygon (Fin 77.6, Fin 14)
    (map fin_point [(77.10, 12.50); (78.10, 12.50); (78.10, 13.65); (77.10, 13.65);
                    (77.10, 12.50)]%Q) = false.
Proof.
  apply (proj1 (point_above_or_below_is_outside
                  (map fin_point [(77.10, 12.50); (78.10, 12.50); (78.10, 13.65);
                                  (77.10, 13.65); (77.10, 12.50)]%Q)
                  (Fin 77.6) (Fin 14))).
  left. repeat constructor.
Defined.

(** *** Rectangles *)

Lemma ltb_Fin_compat (x a b : Q) :
  (a == b)%Q -> (Fin x <? Fin a)%js = (Fin x <? Fin b)%js.
Proof.
  intros E. destruct (Fin x <? Fin b)%js eqn:Hb.
  - apply ltb_Fin. apply ltb_Fin in Hb. rewrite E. exact Hb.
  - apply ltb_Fin_false. apply ltb_Fin_false in Hb. rewrite E. exact Hb.
Qed.

(** An edge that runs along the height ([yi = yj]) is never counted; an
    upright edge at [c] is counted when its ends lie on either side of the
    point's height and the point is to the left of [c]. *)
Lemma edge_level (x y : jsnum) (xi xj yi : jsnum) :
  negb (Bool.eqb (yi >? y)%js (yi >? y)%js)
  && (x <? (xj - xi) * (y - yi) / (yi - yi) + xi)%js = false.
Proof. rewrite Bool.eqb_reflx. reflexivity. Qed.

Lemma edge_upright (x y c yi yj : Q) :
  negb (Bool.eqb (Fin yi >? Fin y)%js (Fin yj >? Fin y)%js)
  && (Fin x <? (Fin c - Fin c) * (Fin y - Fin yi) / (Fin yj - Fin yi) + Fin c)%js
  = xorb (Fin yi >? Fin y)%js (Fin yj >? Fin y)%js && (Fin x <? Fin c)%js.
Proof.
  destruct (negb (Bool.eqb (Fin yi >? Fin y)%js (Fin yj >? Fin y)%js)) eqn:Hs.
  - assert (Hx : xorb (Fin yi >? Fin y)%js (Fin yj >? Fin y)%js = true)
      by (destruct (Fin yi >? Fin y)%js, (Fin yj >? Fin y)%js; try discriminate; reflexivity).
    rewrite Hx. cbn [andb].
    assert (Hd : ~ (yj + - yi == 0)%Q).
    { unfold JsNum.gtb in Hs.
      destruct (Fin y <? Fin yi)%js eqn:Ei; destruct (Fin y <? Fin yj)%js eqn:Ej;
        try discriminate Hs.
      - apply ltb_Fin in Ei. apply ltb_Fin_false in Ej. lra.
      - apply ltb_Fin_false in Ei. apply ltb_Fin in Ej. lra. }
    cbn [JsNum.sub JsNum.neg JsNum.add JsNum.mul JsNum.div].
    rewrite (Qis_zero_false _ Hd). cbn [JsNum.add].
    apply ltb_Fin_compat. field. exact Hd.
  - assert (Hx : xorb (Fin yi >? Fin y)%js (Fin yj >? Fin y)%js = false)
      by (destruct (Fin yi >? Fin y)%js, (Fin yj >? Fin y)%js; try discriminate; reflexivity).
    rewrite Hx. reflexivity.
Qed.

(** X13.  On a rectangle with its sides along the axes the test is exact,
    the west and south sides included, the east and north sides not: the
    point is inside exactly when x0 <= x < x1 and y0 <= y < y1. *)
Theorem rectangle_test_is_exact (x0 y0 x1 y1 x y : Q) :
  (x0 < x1)%Q -> (y0 < y1)%Q ->
  (isPointInPolygon (Fin x, Fin y)
     (map fin_point [(x0, y0); (x1, y0); (x1, y1); (x0, y1); (x0, y0)]) = true
   <-> (x0 <= x < x1)%Q /\ (y0 <= y < y1)%Q).
Proof.
  intros Hx Hy.
  unfold isPointInPolygon. cbn [map fin_point fst snd last ray_cast].
  rewrite !edge_level, !edge_upright.
  unfold JsNum.gtb.
  destruct (Fin y <? Fin y0)%js eqn:E0; destruct (Fin y <? Fin y1)%js eqn:E1;
    destruct (Fin x <? Fin x0)%js eqn:F0; destruct (Fin x <? Fin x1)%js eqn:F1;
    cbn [xorb andb negb];
    repeat match goal with
           | H : (Fin _ <? Fin _)%js = true |- _ => apply ltb_Fin in H
           | H : (Fin _ <? Fin _)%js = false |- _ => apply ltb_Fin_false in H
           end;
    split; intros H; try discriminate H; try reflexivity;
    try (split; split; lra); try (exfalso; lra).
Qed.

Lemma rectangle_test_is_exact_witness :
  isPointInPolygon (Fin 77.6, Fin 13)
    (map fin_point [(77.10, 12.50); (78.10, 12.50); (78.10, 13.65); (77.10, 13.65);
                    (77.10, 12.50)]%Q) = true.
Proof.
  apply (rectangle_test_is_exact 77.10 12.50 78.10 13.65 77.6 13);
    [reflexivity | reflexivity |].
  repeat split; try discriminate; reflexivity.
Defined.

(** *** Distances and the nearest station *)

Lemma Qsquare_nonneg (u : Q) : (0 <= u * u)%Q.
Proof. unfold Qle. simpl. rewrite Z.mul_1_r. apply Z.square_nonneg. Qed.

Section Distances.

Variable sqrtQ : Q -> Q.

Local Notation getDistanceKm := (getDistanceKm sqrtQ).
Local Notation getNearestStation := (getNearestStation sqrtQ).

Lemma getDistanceKm_finite (lat1 lng1 lat2 lng2 : Q) :
  getDistanceKm (Fin lat1) (Fin lng1) (Fin lat2) (Fin lng2) =
  Fin (sqrtQ ((lat2 + - lat1) * (lat2 + - lat1) + (lng2 + - lng1) * (lng2 + - lng1)) * 111).
Proof.
  unfold GeoData.getDistanceKm.
  cbn [JsNum.sub JsNum.neg JsNum.add JsNum.mul Math_sqrt].
  assert (H : Qle_bool 0 ((lat2 + - lat1) * (lat2 + - lat1)
                          + (lng2 + - lng1) * (lng2 + - lng1)) = true)
    by (apply Qle_bool_iff;
        apply (Qplus_le_compat 0 _ 0 _); apply Qsquare_nonneg).
  rewrite H. reflexivity.
Qed.

(** The running minimum of lines 74-80 over a list of stations. *)
Lemma running_minimum (dist : Landmark -> jsnum) (l : list Landmark) :
  (forall x, In x l -> exists q, dist x = Fin q) ->
  forall (m0 : jsnum) (s0 : Landmark),
    let step (acc : jsnum * Landmark) (station : Landmark) :=
      if (dist station <? fst acc)%js then (dist station, station) else acc in
    let r := fold_left step l (m0, s0) in
    (forall x, In x l -> (dist x <? fst r)%js = false) /\
    (forall a, (Fin a <? m0)%js = false -> (Fin a <? fst r)%js = false) /\
    (r = (m0, s0) \/ In (snd r) l /\ fst r = dist (snd r)).
Proof.
  assert (Hord : forall a b m, (Fin a <? m)%js = false -> (Fin b <? m)%js = true ->
                               (Fin a <? Fin b)%js = false).
  { intros a b [| [] | c] Ha Hb; try discriminate.
    apply ltb_Fin_false. apply ltb_Fin_false in Ha. apply ltb_Fin in Hb. lra. }
  induction l as [|x l IH]; intros Hfin m0 s0; cbv zeta.
  - cbn [fold_left fst snd]. split; [intros x []|]. split; [auto | left; reflexivity].
  - cbn [fold_left].
    destruct (Hfin x (or_introl eq_refl)) as [q Hq].
    assert (Hfin' : forall y, In y l -> exists q', dist y = Fin q')
      by (intros y Hy; apply Hfin; right; exact Hy).
    cbn [fst].
    destruct (dist x <? m0)%js eqn:Hlt.
    + destruct (IH Hfin' (dist x) x) as (A & B & C). cbv zeta in A, B, C.
      split; [|split].
      * intros y [<- | Hy]; [|apply A, Hy].
        rewrite Hq at 1. apply B. rewrite Hq. apply ltb_Fin_false. lra.
      * intros a Ha. apply B. rewrite Hq. rewrite Hq in Hlt.
        exact (Hord a q m0 Ha Hlt).
      * right. destruct C as [-> | [C1 C2]].
        -- cbn [fst snd]. split; [left; reflexivity | reflexivity].
        -- split; [right; exact C1 | exact C2].
    + destruct (IH Hfin' m0 s0) as (A & B & C). cbv zeta in A, B, C.
      split; [|split].
      * intros y [<- | Hy]; [|apply A, Hy].
        rewrite Hq at 1. apply B. rewrite <- Hq. exact Hlt.
      * exact B.
      * destruct C as [C | [C1 C2]]; [left; exact C | right].
        split; [right; exact C1 | exact C2].
Qed.

(** X14.  For a finite position, [getNearestStation] yields the name of a
    station of the table together with its distance, and no station of the
    table is nearer. *)
Theorem nearest_station_is_nearest (lat lng : Q) :
  exists s,
    In s RAILWAY_STATIONS /\
    getNearestStation (Fin lat) (Fin lng) =
      (lm_name s, getDistanceKm (Fin lat) (Fin lng) (lm_lat s) (lm_lng s)) /\
    forall s', In s' RAILWAY_STATIONS ->
      (getDistanceKm (Fin lat) (Fin lng) (lm_lat s') (lm_lng s')
       <? getDistanceKm (Fin lat) (Fin lng) (lm_lat s) (lm_lng s))%js = false.
Proof.
  set (dist := fun s => getDistanceKm (Fin lat) (Fin lng) (lm_lat s) (lm_lng s)).
  assert (Hfin : forall x, In x RAILWAY_STATIONS -> exists q, dist x = Fin q).
  { intros x Hx.
    assert (Hall : forallb (fun s => JsNum.is_fin (lm_lat s) && JsNum.is_fin (lm_lng s))
                           RAILWAY_STATIONS = true) by (vm_compute; reflexivity).
    pose proof (proj1 (forallb_forall _ _) Hall x Hx) as Hs. cbv beta in Hs.
    apply andb_prop in Hs. destruct Hs as [H1 H2].
    destruct (GeoFacts.is_fin_Fin _ H1) as [a Ha].
    destruct (GeoFacts.is_fin_Fin _ H2) as [b Hb].
    unfold dist. rewrite Ha, Hb, getDistanceKm_finite. eauto. }
  pose proof (running_minimum dist RAILWAY_STATIONS Hfin (Inf false)
                (hd (mkLandmark NaN NaN EmptyString) RAILWAY_STATIONS)) as H.
  cbv zeta in H.
  unfold GeoData.getNearestStation.
  fold dist.
  match type of H with
  | context [fold_left ?f ?l ?a] =>
      change (fold_left f l a)
        with (fold_left
                (fun (acc : jsnum * Landmark) (station : Landmark) =>
                   let d := getDistanceKm (Fin lat) (Fin lng) (lm_lat station) (lm_lng station) in
                   if (d <? fst acc)%js then (d, station) else acc) l a) in H
  end.
  destruct (fold_left _ RAILWAY_STATIONS _) as [m s] eqn:E.
  cbn [fst snd] in H. destruct H as (A & _ & C).
  destruct C as [C | [C1 C2]].
  - exfalso. injection C as Cm _.
    assert (H0 : In (hd (mkLandmark NaN NaN EmptyString) RAILWAY_STATIONS) RAILWAY_STATIONS)
      by (left; reflexivity).
    pose proof (A _ H0) as Hc. destruct (Hfin _ H0) as [q Hq].
    rewrite Hq, Cm in Hc. discriminate.
  - exists s. split; [exact C1|]. split.
    + rewrite C2. reflexivity.
    + intros s' Hs'. fold (dist s'). fold (dist s). rewrite <- C2. apply A, Hs'.
Qed.

End Distances.

(** *** Draws and what is made of them *)

(** [Math.floor(Math.random() * n)] is one of 0, ..., n - 1. *)
Lemma floor_scaled_range (d : Q) (n : Z) :
  (0 <= d < 1)%Q -> 0 < n -> 0 <= floor_scaled d n < n.
Proof.
  intros [Hd0 Hd1] Hn. unfold floor_scaled. split.
  - rewrite <- (Qfloor_Z 0). apply Qfloor_resp_le.
    apply Qmult_le_0_compat; [exact Hd0|].
    change 0%Q with (inject_Z 0). rewrite <- Zle_Qle. lia.
  - rewrite Zlt_Qlt. eapply Qle_lt_trans; [apply Qfloor_le|].
    assert (Hq : (0 < inject_Z n)%Q)
      by (change 0%Q with (inject_Z 0); rewrite <- Zlt_Qlt; exact Hn).
    nra.
Qed.

(** *** The polygon of a village *)

Section Polygons.

Variable cosQ sinQ : Q -> Q.
Variable Rand : Type.
Variable random : Rand -> Q * Rand.

Hypothesis random_range : forall g, (0 <= fst (random g) < 1)%Q.
Hypothesis cos_range : forall x, (-1 <= cosQ x <= 1)%Q.
Hypothesis sin_range : forall x, (-1 <= sinQ x <= 1)%Q.

Lemma organic_points_near (n : nat) :
  forall (i sides : Z) (clat clng br : Q) (g : Rand),
    sides <> 0 -> (0 <= br)%Q ->
    Forall (near clat clng (1.02 * br) (1.2 * br))
           (fst (organic_points cosQ sinQ random n i sides
                   (Fin clat) (Fin clng) (Fin br) g)).
Proof.
  induction n as [|n IH]; intros i sides clat clng br g Hs Hbr; cbn [organic_points].
  - constructor.
  - pose proof (random_range g) as Hd.
    destruct (random g) as [d g1]. cbn [fst] in Hd.
    pose proof (IH (i + 1) sides clat clng br g1 Hs Hbr) as Hrest.
    destruct (organic_points cosQ sinQ random n (i + 1) sides
                (Fin clat) (Fin clng) (Fin br) g1) as [ps g2].
    cbn [fst] in *. constructor; [|exact Hrest].
    unfold Math_PI. cbn [JsNum.mul JsNum.add JsNum.div].
    assert (Hz : Qis_zero (inject_Z sides) = false).
    { unfold Qis_zero, inject_Z. cbn [Qnum]. apply Z.eqb_neq, Hs. }
    rewrite Hz. cbn [Math_cos Math_sin JsNum.mul JsNum.add].
    set (angle := (inject_Z i * 2 * 3.141592653589793 / inject_Z sides)%Q).
    set (r := (br * (0.8 + d * 0.4))%Q).
    assert (Hr : (0 <= r <= 1.2 * br)%Q) by (unfold r; split; nra).
    pose proof (cos_range angle) as Hc. pose proof (sin_range angle) as Hsn.
    eexists. eexists. split; [reflexivity|]. destruct Hr as [Hr0 Hr1]. split.
    + apply Qabs_Qle_condition. split; nra.
    + apply Qabs_Qle_condition. split; nra.
Qed.

Lemma generateOrganicPolygon_ring (clat clng br : Q) (g : Rand) :
  (0 <= br)%Q ->
  exists r,
    fst (generateOrganicPolygon cosQ sinQ random (Fin clat) (Fin clng) (Fin br) g) = [r] /\
    closed_ring r /\
    (7 <= List.length r <= 10)%nat /\
    isValidRing r = true /\
    Forall (near clat clng (1.02 * br) (1.2 * br)) r.
Proof.
  intros Hbr. unfold generateOrganicPolygon.
  pose proof (random_range g) as Hd.
  destruct (random g) as [d g1]. cbn [fst] in Hd.
  pose proof (floor_scaled_range d 4 Hd ltac:(lia)) as Hf.
  set (sides := 6 + floor_scaled d 4) in *.
  destruct (GeoFacts.organic_points_finite cosQ sinQ Rand random (Z.to_nat sides) 0 sides
              clat clng br g1 ltac:(lia)) as [Hlen Hall].
  pose proof (organic_points_near (Z.to_nat sides) 0 sides clat clng br g1
                ltac:(lia) Hbr) as Hnear.
  destruct (organic_points cosQ sinQ random (Z.to_nat sides) 0 sides
              (Fin clat) (Fin clng) (Fin br) g1) as [points g2].
  cbn [fst] in *.
  destruct points as [|p0 ps]; [simpl in Hlen; lia|].
  eexists. split; [reflexivity|].
  assert (Hl : List.length ((p0 :: ps) ++ [p0]) = S (Z.to_nat sides))
    by (rewrite length_app, Hlen; simpl; lia).
  split; [exists p0, ps; reflexivity|].
  split; [rewrite Hl; lia|]. split.
  - unfold isValidRing.
    assert (H3 : (List.length ((p0 :: ps) ++ [p0]) <? 3)%nat = false)
      by (apply Nat.ltb_ge; rewrite Hl; lia).
    rewrite H3, forallb_app. apply andb_true_intro. split; [exact Hall|].
    cbn [forallb] in *. apply andb_prop in Hall. destruct Hall as [Hp0 _].
    rewrite Hp0. reflexivity.
  - apply Forall_app. split; [exact Hnear|].
    constructor; [|constructor]. inversion Hnear; assumption.
Qed.

Lemma organic_points_length (n : nat) :
  forall (i sides : Z) (centerLat centerLng baseRadius : jsnum) (g : Rand),
    List.length (fst (organic_points cosQ sinQ random n i sides
                        centerLat centerLng baseRadius g)) = n.
Proof.
  induction n as [|n IH]; intros i sides centerLat centerLng baseRadius g;
    cbn [organic_points].
  - reflexivity.
  - destruct (random g) as [d g1].
    pose proof (IH (i + 1) sides centerLat centerLng baseRadius g1) as Hlen.
    destruct (organic_points cosQ sinQ random n (i + 1) sides
                centerLat centerLng baseRadius g1) as [ps g2].
    cbn [fst] in *. simpl. rewrite Hlen. reflexivity.
Qed.

(** X15.  With [Math.random] in [0, 1), whatever the centre and the radius
    are ([NaN] and the infinities included), [generateOrganicPolygon]
    returns exactly one ring; the ring has 7 to 10 positions, one for each
    of its 6 to 9 sides and one more that closes it, and this last position
    is the first one again. *)
Theorem organic_polygon_shape (centerLat centerLng baseRadius : jsnum) (g : Rand) :
  exists r,
    fst (generateOrganicPolygon cosQ sinQ random centerLat centerLng baseRadius g) = [r] /\
    closed_ring r /\
    (7 <= List.length r <= 10)%nat.
Proof.
  unfold generateOrganicPolygon.
  pose proof (random_range g) as Hd.
  destruct (random g) as [d g1]. cbn [fst] in Hd.
  pose proof (floor_scaled_range d 4 Hd ltac:(lia)) as Hf.
  set (sides := 6 + floor_scaled d 4) in *.
  pose proof (organic_points_length (Z.to_nat sides) 0 sides
                centerLat centerLng baseRadius g1) as Hlen.
  destruct (organic_points cosQ sinQ random (Z.to_nat sides) 0 sides
              centerLat centerLng baseRadius g1) as [points g2].
  cbn [fst] in *.
  destruct points as [|p0 ps]; [simpl in Hlen; lia|].
  eexists. split; [reflexivity|].
  split; [exists p0, ps; reflexivity|].
  rewrite length_app, Hlen. simpl. lia.
Qed.

End Polygons.

Lemma organic_polygon_shape_witness :
  exists r,
    fst (generateOrganicPolygon cos_one sin_zero lcg (Fin 12.9) (Fin 77.5) (Fin 0.005) 42)
      = [r] /\
    closed_ring r /\
    (7 <= List.length r <= 10)%nat.
Proof.
  apply (organic_polygon_shape cos_one sin_zero Z lcg GeoFacts.lcg_range).
Defined.

(** *** Villages and the places they were given *)

Section Villages.

Variable sqrtQ cosQ sinQ : Q -> Q.
Variable Rand : Type.
Variable random : Rand -> Q * Rand.

Local Notation GenState := (GenState Rand).
Local Notation create := (createVillageFeature sqrtQ cosQ sinQ random).
Local Notation place_real := (place_real sqrtQ cosQ sinQ random).
Local Notation fill_random := (fill_random sqrtQ cosQ sinQ random).
Local Notation placeVillages := (placeVillages sqrtQ cosQ sinQ random).
Local Notation generateVillages := (generateVillages sqrtQ cosQ sinQ random).
Local Notation geoData := (geoData sqrtQ cosQ sinQ random).
Local Notation create_spec := (GeoFacts.create_spec sqrtQ cosQ sinQ Rand random).

Section Related.

(** A relation between a village and its site that holds whenever a
    village is created for a taluk of the table. *)
Variable R : GeoFeature -> Site -> Prop.

Hypothesis R_create :
  forall name clat clng taluk curated st f st',
    In taluk talukDataRaw ->
    create name (Fin clat) (Fin clng) (t_name taluk) (t_district taluk)
           (t_crops taluk) (t_keyMarkets taluk) st = (Some f, st') ->
    R f (mkSite (id f) (Fin clat) (Fin clng) taluk curated).

Local Notation related := (fun st : GenState => Forall2 R (generatedVillages st) (sites st)).

Lemma related_draw (st : GenState) : related st -> related (snd (draw random st)).
Proof.
  intros H. unfold draw. destruct (random (rng st)) as [d g]. exact H.
Qed.

Lemma related_create (name : string) (clat clng : Q) (taluk : TalukMeta) (curated : bool)
    (st st' : GenState) (res : option GeoFeature) :
  In taluk talukDataRaw ->
  related st ->
  create name (Fin clat) (Fin clng) (t_name taluk) (t_district taluk)
         (t_crops taluk) (t_keyMarkets taluk) st = (res, st') ->
  match res with
  | Some f => related (push_village f (mkSite (id f) (Fin clat) (Fin clng) taluk curated) st')
  | None => related st'
  end.
Proof.
  intros Hin H Hc.
  destruct (create_spec _ _ _ _ _ _ _ _ _ _ Hc) as (_ & _ & Hgv & Hs & _).
  destruct res as [f|].
  - cbn [push_village generatedVillages sites]. rewrite Hgv, Hs.
    apply Forall2_app; [exact H|]. constructor; [|constructor].
    exact (R_create name clat clng taluk curated st f st' Hin Hc).
  - cbv beta. rewrite Hgv, Hs. exact H.
Qed.

Lemma place_real_related (taluk : TalukMeta) (names : list string) :
  In taluk talukDataRaw ->
  forall (count : nat) (st : GenState),
    related st -> related (snd (place_real taluk names count st)).
Proof.
  intros Hin.
  induction names as [|name rest IH]; intros count st HP; cbn [GeoData.place_real].
  - exact HP.
  - destruct (lookup name REAL_VILLAGE_LOCATIONS) as [[lat lng]|] eqn:Hl; [|apply IH, HP].
    destruct (GeoFacts.locations_finite _ _ _ Hl) as (clat & clng & -> & ->).
    destruct (create name (Fin clat) (Fin clng) (t_name taluk) (t_district taluk)
                     (t_crops taluk) (t_keyMarkets taluk) st) as [res st1] eqn:Hc.
    pose proof (related_create name clat clng taluk true st st1 res Hin HP Hc) as H1.
    destruct res as [f|]; apply IH, H1.
Qed.

Lemma fill_random_related (taluk : TalukMeta) (a b c d : Q) :
  In taluk talukDataRaw ->
  forall (attempts_left count : nat) (st : GenState),
    related st ->
    related (snd (fill_random attempts_left taluk (Fin a) (Fin b) (Fin c) (Fin d) count st)).
Proof.
  intros Hin.
  induction attempts_left as [|k IH]; intros count st HP; cbn [GeoData.fill_random].
  - exact HP.
  - destruct (count <? 35)%nat; [|exact HP].
    pose proof (related_draw st HP) as H1.
    destruct (draw random st) as [d_lat st1]. cbn [snd] in H1.
    pose proof (related_draw st1 H1) as H2.
    destruct (draw random st1) as [d_lng st2]. cbn [snd] in H2.
    cbn [JsNum.add JsNum.mul JsNum.sub JsNum.neg isNaN orb].
    destruct (isPointInPolygon _ (t_coords taluk)); [|apply IH, H2].
    pose proof (related_draw st2 H2) as H3.
    destruct (draw random st2) as [d_p st3]. cbn [snd] in H3.
    pose proof (related_draw st3 H3) as H4.
    destruct (draw random st3) as [d_s st4]. cbn [snd] in H4.
    match goal with
    | |- context [create ?n (Fin ?la) (Fin ?ln) _ _ _ _ st4] =>
        destruct (create n (Fin la) (Fin ln) (t_name taluk) (t_district taluk)
                         (t_crops taluk) (t_keyMarkets taluk) st4) as [res st5] eqn:Hc;
        pose proof (related_create n la ln taluk false st4 st5 res Hin H4 Hc) as H5
    end.
    destruct res as [f|]; apply IH, H5.
Qed.

Lemma placeVillages_related (st : GenState) (taluk : TalukMeta) :
  In taluk talukDataRaw -> related st -> related (placeVillages st taluk).
Proof.
  intros Hin HP. unfold GeoData.placeVillages.
  pose proof (GeoFacts.taluks_have_finite_bounds taluk Hin) as Hb.
  unfold finite_bounds, taluk_bounds in Hb.
  apply andb_prop in Hb. destruct Hb as [Hb Hd].
  apply andb_prop in Hb. destruct Hb as [Hb Hc].
  apply andb_prop in Hb. destruct Hb as [Ha Hb].
  destruct (GeoFacts.is_fin_Fin _ Ha) as [a ->]. destruct (GeoFacts.is_fin_Fin _ Hb) as [b ->].
  destruct (GeoFacts.is_fin_Fin _ Hc) as [c ->]. destruct (GeoFacts.is_fin_Fin _ Hd) as [d ->].
  pose proof (place_real_related taluk
                match lookup (t_name taluk) REAL_VILLAGE_NAMES with
                | Some names => names
                | None => []
                end Hin 0 st HP) as H1.
  destruct (place_real taluk _ 0 st) as [count st1]. cbn [snd] in H1.
  apply fill_random_related; [exact Hin | exact H1].
Qed.

Lemma fold_placeVillages_related (ts : list TalukMeta) :
  incl ts talukDataRaw ->
  forall st, related st -> related (fold_left placeVillages ts st).
Proof.
  induction ts as [|t ts IH]; intros Hincl st HP; simpl.
  - exact HP.
  - apply IH.
    + intros x Hx. apply Hincl. right. exact Hx.
    + apply placeVillages_related; [apply Hincl; left; reflexivity | exact HP].
Qed.

(** Every village of a dataset is related to its site. *)
Lemma villages_related (voronoi : option (nat -> Cell)) (g : Rand) :
  Forall2 R (villagesData (geoData voronoi g)) (villageSites (geoData voronoi g)).
Proof.
  destruct (GeoFacts.geoData_villages sqrtQ cosQ sinQ Rand random voronoi g)
    as (g1 & -> & ->).
  apply fold_placeVillages_related; [apply incl_refl | constructor].
Qed.

End Related.

(** *** The hierarchy *)

Lemma created_village_of_taluk (name : string) (clat clng : Q) (taluk : TalukMeta)
    (curated : bool) (st : GenState) (f : GeoFeature) (st' : GenState) :
  In taluk talukDataRaw ->
  create name (Fin clat) (Fin clng) (t_name taluk) (t_district taluk)
         (t_crops taluk) (t_keyMarkets taluk) st = (Some f, st') ->
  village_of_taluk f (mkSite (id f) (Fin clat) (Fin clng) taluk curated).
Proof.
  intros Hin. unfold createVillageFeature.
  destruct (generateOrganicPolygon cosQ sinQ random (Fin clat) (Fin clng) (Fin 0.005) (rng st))
    as [poly g1].
  destruct (random g1) as [d_pop g2].
  destruct (isValidRing (hd [] poly)); [|intros H; discriminate].
  destruct (random g2) as [d3 g3]. destruct (random g3) as [d4 g4].
  destruct (random g4) as [d5 g5]. destruct (random g5) as [d6 g6].
  destruct (random g6) as [d7 g7]. destruct (random g7) as [d8 g8].
  intros H. injection H as <- <-.
  unfold village_of_taluk. cbn [site_id site_taluk id].
  split; [reflexivity|]. split; [exact Hin|]. repeat split; reflexivity.
Qed.

Lemma Forall2_In_left {A B : Type} (R : A -> B -> Prop) (l : list A) (l' : list B) (a : A) :
  Forall2 R l l' -> In a l -> exists b, In b l' /\ R a b.
Proof.
  intros H. induction H as [|x y l l' Hxy _ IH]; intros Hin; [destruct Hin|].
  destruct Hin as [<- | Hin].
  - exists y. split; [left; reflexivity | exact Hxy].
  - destruct (IH Hin) as (b & Hb & Hr). exists b. split; [right; exact Hb | exact Hr].
Qed.

Lemma talukFeatures_of_table (ts : list TalukMeta) :
  forall (i : nat) (g : Rand),
    Forall2 (fun t tf => get "name" (properties tf) = VStr (t_name t) /\
                         get "district" (properties tf) = VStr (t_district t) /\
                         geometry tf = Polygon [t_coords t])
            ts (fst (talukFeatures sqrtQ random i ts g)).
Proof.
  induction ts as [|t ts IH]; intros i g; cbn [talukFeatures].
  - constructor.
  - unfold talukFeature.
    destruct (random g) as [d1 g1]. destruct (random g1) as [d2 g2].
    destruct (random g2) as [d3 g3].
    pose proof (IH (S i) g3) as Hrest.
    destruct (talukFeatures sqrtQ random (S i) ts g3) as [fs g4].
    cbn [fst] in *. constructor; [|exact Hrest].
    repeat split; reflexivity.
Qed.

Lemma taluksData_of_table (voronoi : option (nat -> Cell)) (g : Rand) :
  taluksData (geoData voronoi g) = fst (talukFeatures sqrtQ random 0 talukDataRaw g) /\
  districtsData (geoData voronoi g) = districtFeatures.
Proof.
  unfold GeoData.geoData.
  destruct (talukFeatures sqrtQ random 0 talukDataRaw g) as [taluks g1].
  destruct (generatePincodes sqrtQ random voronoi _) as [pincodes g2].
  split; reflexivity.
Qed.

Lemma taluk_district_exists (t : TalukMeta) :
  In t talukDataRaw ->
  exists df, In df districtFeatures /\ get "name" (properties df) = VStr (t_district t).
Proof.
  intros Hin.
  assert (Hall : forallb (fun t => String.eqb (t_district t) "Bengaluru Rural"
                                   || String.eqb (t_district t) "Bengaluru Urban")
                         talukDataRaw = true) by (vm_compute; reflexivity).
  pose proof (proj1 (forallb_forall _ _) Hall t Hin) as Hd. cbv beta in Hd.
  apply orb_prop in Hd. destruct Hd as [Hd | Hd]; apply String.eqb_eq in Hd; rewrite Hd.
  - eexists. split; [left; reflexivity | reflexivity].
  - eexists. split; [right; left; reflexivity | reflexivity].
Qed.

(** X16.  The hierarchy is consistent: every village of a generated dataset
    names a taluk of the taluk collection and carries the district of that
    taluk, and this district is the name of a feature of the district
    collection. *)
Theorem villages_name_their_taluk (voronoi : option (nat -> Cell)) (g : Rand)
    (f : GeoFeature) :
  In f (villagesData (geoData voronoi g)) ->
  exists taluk district tf df,
    get "taluk" (properties f) = VStr taluk /\
    get "district" (properties f) = VStr district /\
    In tf (taluksData (geoData voronoi g)) /\
    get "name" (properties tf) = VStr taluk /\
    get "district" (properties tf) = VStr district /\
    In df (districtsData (geoData voronoi g)) /\
    get "name" (properties df) = VStr district.
Proof.
  intros Hf.
  destruct (Forall2_In_left _ _ _ f
              (villages_related village_of_taluk created_village_of_taluk voronoi g) Hf)
    as (s & _ & (_ & Hin & Ht & Hd & _)).
  destruct (taluksData_of_table voronoi g) as [-> ->].
  destruct (Forall2_In_left _ _ _ (site_taluk s)
              (talukFeatures_of_table talukDataRaw 0 g) Hin)
    as (tf & Htf & (Hn & Hdist & _)).
  destruct (taluk_district_exists (site_taluk s) Hin) as (df & Hdf & Hdn).
  exists (t_name (site_taluk s)), (t_district (site_taluk s)), tf, df.
  repeat split; assumption.
Qed.

(** *** How many villages *)

(** The curated names of a taluk, and those that have a place. *)
Local Notation realNames_of taluk :=
  (match lookup (t_name taluk) REAL_VILLAGE_NAMES with
   | Some names => names
   | None => []
   end).
Local Notation located names :=
  (filter (fun name => match lookup name REAL_VILLAGE_LOCATIONS with
                       | Some _ => true
                       | None => false
                       end) names).

Lemma list_sum_cons (a : nat) (l : list nat) : list_sum (a :: l) = (a + list_sum l)%nat.
Proof. reflexivity. Qed.

Lemma create_keeps_villages (name : string) (lat lng : jsnum) (tn dn : string)
    (crops km : option (list string)) (st st' : GenState) (res : option GeoFeature) :
  create name lat lng tn dn crops km st = (res, st') ->
  generatedVillages st' = generatedVillages st.
Proof.
  intros H. destruct (create_spec _ _ _ _ _ _ _ _ _ _ H) as (_ & _ & Hgv & _). exact Hgv.
Qed.

Lemma place_real_count (taluk : TalukMeta) (names : list string) :
  forall (count : nat) (st : GenState),
    (List.length (generatedVillages (snd (place_real taluk names count st))) + count
     = List.length (generatedVillages st) + fst (place_real taluk names count st))%nat /\
    (fst (place_real taluk names count st) <= count + List.length names)%nat.
Proof.
  induction names as [|name rest IH]; intros count st; cbn [GeoData.place_real].
  - cbn [fst snd List.length]. lia.
  - destruct (lookup name REAL_VILLAGE_LOCATIONS) as [[lat lng]|].
    + destruct (create name lat lng (t_name taluk) (t_district taluk)
                       (t_crops taluk) (t_keyMarkets taluk) st) as [[f|] st1] eqn:Hc;
        pose proof (create_keeps_villages _ _ _ _ _ _ _ _ _ _ Hc) as Hgv.
      * destruct (IH (S count) (push_village f (mkSite (id f) lat lng taluk true) st1))
          as [H1 H2].
        cbn [push_village generatedVillages] in H1. rewrite length_app, Hgv in H1.
        cbn [List.length] in *. lia.
      * destruct (IH count st1) as [H1 H2]. rewrite Hgv in H1. cbn [List.length]. lia.
    + destruct (IH count st) as [H1 H2]. cbn [List.length]. lia.
Qed.

Lemma draw_keeps_villages (st : GenState) :
  generatedVillages (snd (draw random st)) = generatedVillages st.
Proof. unfold draw. destruct (random (rng st)) as [d g]. reflexivity. Qed.

Lemma fill_random_count (taluk : TalukMeta) (minLat maxLat minLng maxLng : jsnum) :
  forall (attempts_left count : nat) (st : GenState),
    (List.length (generatedVillages
                    (snd (fill_random attempts_left taluk minLat maxLat minLng maxLng count st)))
     + count
     = List.length (generatedVillages st)
       + fst (fill_random attempts_left taluk minLat maxLat minLng maxLng count st))%nat /\
    (count <= fst (fill_random attempts_left taluk minLat maxLat minLng maxLng count st)
     <= Nat.max count 35)%nat.
Proof.
  induction attempts_left as [|k IH]; intros count st; cbn [GeoData.fill_random].
  - cbn [fst snd]. lia.
  - destruct (count <? 35)%nat eqn:Hlt; [|cbn [fst snd]; lia].
    apply Nat.ltb_lt in Hlt.
    pose proof (draw_keeps_villages st) as G1.
    destruct (draw random st) as [d_lat st1]. cbn [snd] in G1.
    pose proof (draw_keeps_villages st1) as G2.
    destruct (draw random st1) as [d_lng st2]. cbn [snd] in G2.
    assert (Hskip : forall st', generatedVillages st' = generatedVillages st ->
              (List.length (generatedVillages
                 (snd (fill_random k taluk minLat maxLat minLng maxLng count st'))) + count
               = List.length (generatedVillages st)
                 + fst (fill_random k taluk minLat maxLat minLng maxLng count st'))%nat /\
              (count <= fst (fill_random k taluk minLat maxLat minLng maxLng count st')
               <= Nat.max count 35)%nat).
    { intros st' E. destruct (IH count st') as [H1 H2]. rewrite E in H1. lia. }
    destruct (isNaN _ || isNaN _); [apply Hskip; congruence|].
    destruct (isPointInPolygon _ (t_coords taluk)); [|apply Hskip; congruence].
    pose proof (draw_keeps_villages st2) as G3.
    destruct (draw random st2) as [d_p st3]. cbn [snd] in G3.
    pose proof (draw_keeps_villages st3) as G4.
    destruct (draw random st3) as [d_s st4]. cbn [snd] in G4.
    destruct (create _ _ _ _ _ _ _ st4) as [[f|] st5] eqn:Hc;
      pose proof (create_keeps_villages _ _ _ _ _ _ _ _ _ _ Hc) as Hgv.
    + match goal with
      | |- context [fill_random k taluk _ _ _ _ (S count) ?s] =>
          destruct (IH (S count) s) as [H1 H2]
      end.
      cbn [push_village generatedVillages] in H1. rewrite length_app in H1.
      cbn [List.length] in H1.
      assert (E : List.length (generatedVillages st5) = List.length (generatedVillages st))
        by congruence.
      lia.
    + apply Hskip. congruence.
Qed.

Lemma placeVillages_count (st : GenState) (taluk : TalukMeta) :
  (List.length (generatedVillages (placeVillages st taluk))
   <= List.length (generatedVillages st)
      + Nat.max (List.length (realNames_of taluk)) 35)%nat.
Proof.
  unfold GeoData.placeVillages.
  pose proof (place_real_count taluk (realNames_of taluk) 0 st) as [H1 H2].
  destruct (place_real taluk _ 0 st) as [count st1]. cbn [fst snd] in *.
  match goal with
  | |- context [fill_random 400 taluk ?a ?b ?c ?d count st1] =>
      pose proof (fill_random_count taluk a b c d 400 count st1) as [H3 H4]
  end.
  lia.
Qed.

Lemma fold_placeVillages_count (ts : list TalukMeta) :
  forall st,
    (List.length (generatedVillages (fold_left placeVillages ts st))
     <= List.length (generatedVillages st)
        + list_sum (map (fun t => Nat.max (List.length (realNames_of t)) 35) ts))%nat.
Proof.
  induction ts as [|t ts IH]; intros st; cbn [fold_left map].
  - cbn. lia.
  - rewrite list_sum_cons.
    pose proof (IH (placeVillages st t)) as H1.
    pose proof (placeVillages_count st t) as H2. lia.
Qed.

(** *** The attributes drawn at random *)

Lemma at_index_in_range {A : Type} (arr : list A) (i : Z) :
  0 <= i < Z.of_nat (List.length arr) ->
  exists a, at_index arr i = Some a /\ In a arr.
Proof.
  intros [H0 H1]. unfold at_index.
  assert (Hi : (i <? 0) = false) by (apply Z.ltb_ge; exact H0).
  rewrite Hi.
  destruct (nth_error arr (Z.to_nat i)) as [a|] eqn:E.
  - exists a. split; [reflexivity | eapply nth_error_In; exact E].
  - exfalso. apply nth_error_None in E. lia.
Qed.

Lemma floor_of_quotient (x c : Q) :
  (0 < c)%Q ->
  (inject_Z (Qfloor (x / c)) * c <= x < (inject_Z (Qfloor (x / c)) + 1) * c)%Q.
Proof.
  intros Hc.
  pose proof (Qfloor_le (x / c)) as Hlo.
  pose proof (Qlt_floor (x / c)) as Hhi.
  rewrite inject_Z_plus in Hhi. change (inject_Z 1) with 1%Q in Hhi.
  assert (Hx : (x / c * c == x)%Q) by (field; lra).
  set (q := (x / c)%Q) in *. set (k := inject_Z (Qfloor q)) in *.
  split; nra.
Qed.

Section InRange.

Hypothesis random_range : forall g, (0 <= fst (random g) < 1)%Q.

Lemma created_village_attributes (name : string) (clat clng : Q) (taluk : TalukMeta)
    (curated : bool) (st : GenState) (f : GeoFeature) (st' : GenState) :
  In taluk talukDataRaw ->
  create name (Fin clat) (Fin clng) (t_name taluk) (t_district taluk)
         (t_crops taluk) (t_keyMarkets taluk) st = (Some f, st') ->
  (fun (f : GeoFeature) (_ : Site) => village_attributes f)
    f (mkSite (id f) (Fin clat) (Fin clng) taluk curated).
Proof.
  intros _. unfold createVillageFeature.
  destruct (generateOrganicPolygon cosQ sinQ random (Fin clat) (Fin clng) (Fin 0.005) (rng st))
    as [poly g1].
  pose proof (random_range g1) as R1. destruct (random g1) as [d_pop g2].
  destruct (isValidRing (hd [] poly)); [|intros H; discriminate].
  pose proof (random_range g2) as R2. destruct (random g2) as [d_area g3].
  pose proof (random_range g3) as R3. destruct (random g3) as [d_lit g4].
  pose proof (random_range g4) as R4. destruct (random g4) as [d_water g5].
  pose proof (random_range g5) as R5. destruct (random g5) as [d_road g6].
  pose proof (random_range g6) as R6. destruct (random g6) as [d_bus g7].
  pose proof (random_range g7) as R7. destruct (random g7) as [d_school g8].
  cbn [fst] in *.
  intros H. injection H as <- <-. cbv beta.
  unfold village_attributes. cbn [properties get String.eqb Ascii.eqb Bool.eqb].
  pose proof (floor_scaled_range d_pop 4000 R1 ltac:(lia)) as Hpop.
  pose proof (floor_scaled_range d_school 3 R7 ltac:(lia)) as Hschool.
  split; [|split; [|split; [|split; [|split; [|split]]]]].
  - exists (500 + floor_scaled d_pop 4000), (Qfloor ((500 + inject_Z (floor_scaled d_pop 4000)) / 4.5)).
    split; [|split; [lia|split]].
    + eexists. split; [reflexivity|]. rewrite inject_Z_plus. reflexivity.
    + eexists. split; [reflexivity|]. reflexivity.
    + rewrite inject_Z_plus. change (inject_Z 500) with 500%Q.
      apply floor_of_quotient. reflexivity.
  - eexists. split; [reflexivity|]. lra.
  - eexists. split; [reflexivity|]. lra.
  - exists (floor_scaled d_school 3). split; [|lia].
    eexists. split; [reflexivity|]. reflexivity.
  - destruct (at_index_in_range waterSources (floor_scaled d_water 4)
                ltac:(pose proof (floor_scaled_range d_water 4 R4 ltac:(lia)); simpl; lia))
      as (a & -> & Ha).
    exists a. split; [reflexivity | exact Ha].
  - destruct (at_index_in_range roads (floor_scaled d_road 4)
                ltac:(pose proof (floor_scaled_range d_road 4 R5 ltac:(lia)); simpl; lia))
      as (a & -> & Ha).
    exists a. split; [reflexivity | exact Ha].
  - destruct (at_index_in_range buses (floor_scaled d_bus 4)
                ltac:(pose proof (floor_scaled_range d_bus 4 R6 ltac:(lia)); simpl; lia))
      as (a & -> & Ha).
    exists a. split; [reflexivity | exact Ha].
Qed.

(** X17.  With [Math.random] in [0, 1), every village of a generated
    dataset has a population that is an integer from 500 to 4499, the
    number of households that is the population divided by 4.5 and rounded
    down, an area from 1 to 3, a literacy rate from 60 to 90 (the bounds
    included), 0 to 2 schools, and a water source, a road condition and a
    bus frequency taken from their lists (none is [undefined]). *)
Theorem village_attributes_in_range (voronoi : option (nat -> Cell)) (g : Rand) :
  Forall village_attributes (villagesData (geoData voronoi g)).
Proof.
  pose proof (villages_related (fun f _ => village_attributes f)
                created_village_attributes voronoi g) as H.
  induction H; constructor; assumption.
Qed.

Hypothesis cos_range : forall x, (-1 <= cosQ x <= 1)%Q.
Hypothesis sin_range : forall x, (-1 <= sinQ x <= 1)%Q.

Lemma near_weaken (clat clng dlat dlng dlat' dlng' : Q) (p : point) :
  (dlat <= dlat')%Q -> (dlng <= dlng')%Q ->
  near clat clng dlat dlng p -> near clat clng dlat' dlng' p.
Proof.
  intros Hlat Hlng (px & py & -> & Hx & Hy).
  exists px, py. split; [reflexivity|]. split.
  - eapply Qle_trans; [exact Hx | exact Hlng].
  - eapply Qle_trans; [exact Hy | exact Hlat].
Qed.

Lemma created_village_polygon (name : string) (clat clng : Q) (taluk : TalukMeta)
    (curated : bool) (st : GenState) (f : GeoFeature) (st' : GenState) :
  In taluk talukDataRaw ->
  create name (Fin clat) (Fin clng) (t_name taluk) (t_district taluk)
         (t_crops taluk) (t_keyMarkets taluk) st = (Some f, st') ->
  village_polygon f (mkSite (id f) (Fin clat) (Fin clng) taluk curated).
Proof.
  intros _. unfold createVillageFeature.
  destruct (generateOrganicPolygon_ring cosQ sinQ Rand random random_range cos_range sin_range
              clat clng 0.005 (rng st) ltac:(discriminate))
    as (r & Hr & Hclosed & Hlen & _ & Hnear).
  destruct (generateOrganicPolygon cosQ sinQ random (Fin clat) (Fin clng) (Fin 0.005) (rng st))
    as [poly g1].
  cbn [fst] in Hr. subst poly.
  destruct (random g1) as [d_pop g2].
  destruct (isValidRing (hd [] [r])); [|intros H; discriminate].
  destruct (random g2) as [d3 g3]. destruct (random g3) as [d4 g4].
  destruct (random g4) as [d5 g5]. destruct (random g5) as [d6 g6].
  destruct (random g6) as [d7 g7]. destruct (random g7) as [d8 g8].
  intros H. injection H as <- <-.
  exists clat, clng, r. cbn [site_lat site_lng geometry].
  repeat split; try reflexivity; try assumption; try apply Hlen.
  eapply Forall_impl; [|exact Hnear].
  intros p. apply near_weaken; discriminate.
Qed.

(** X18.  With [Math.random] in [0, 1) and sine and cosine between -1 and
    1, the polygon of every village of a generated dataset is one closed
    ring of 7 to 10 finite positions, each of them within two base radii
    (0.01 degrees) of the centre the village was placed at, in latitude
    and in longitude. *)
Theorem village_polygons_around_centres (voronoi : option (nat -> Cell)) (g : Rand) :
  Forall2 village_polygon
          (villagesData (geoData voronoi g)) (villageSites (geoData voronoi g)).
Proof.
  exact (villages_related village_polygon created_village_polygon voronoi g).
Qed.

(** With [Math.random] in [0, 1) every curated name that has a place
    yields a village. *)
Lemma place_real_all (taluk : TalukMeta) (names : list string) :
  forall (count : nat) (st : GenState),
    fst (place_real taluk names count st) = (count + List.length (located names))%nat.
Proof.
  induction names as [|name rest IH]; intros count st; cbn [GeoData.place_real filter].
  - cbn [fst List.length]. lia.
  - destruct (lookup name REAL_VILLAGE_LOCATIONS) as [[lat lng]|] eqn:Hl.
    + destruct (GeoFacts.locations_finite _ _ _ Hl) as (clat & clng & -> & ->).
      destruct (GeoFacts.create_succeeds sqrtQ cosQ sinQ Rand random random_range
                  name clat clng (t_name taluk) (t_district taluk)
                  (t_crops taluk) (t_keyMarkets taluk) st) as (f & st1 & Hc).
      rewrite Hc, IH. cbn [List.length]. lia.
    + apply IH.
Qed.

Lemma placeVillages_at_least (st : GenState) (taluk : TalukMeta) :
  (List.length (generatedVillages st) + List.length (located (realNames_of taluk))
   <= List.length (generatedVillages (placeVillages st taluk)))%nat.
Proof.
  unfold GeoData.placeVillages.
  pose proof (place_real_count taluk (realNames_of taluk) 0 st) as [H1 _].
  pose proof (place_real_all taluk (realNames_of taluk) 0 st) as H2.
  destruct (place_real taluk _ 0 st) as [count st1]. cbn [fst snd] in *.
  match goal with
  | |- context [fill_random 400 taluk ?a ?b ?c ?d count st1] =>
      pose proof (fill_random_count taluk a b c d 400 count st1) as [H3 H4]
  end.
  lia.
Qed.

Lemma fold_placeVillages_at_least (ts : list TalukMeta) :
  forall st,
    (List.length (generatedVillages st)
     + list_sum (map (fun t => List.length (located (realNames_of t))) ts)
     <= List.length (generatedVillages (fold_left placeVillages ts st)))%nat.
Proof.
  induction ts as [|t ts IH]; intros st; cbn [fold_left map].
  - cbn. lia.
  - rewrite list_sum_cons.
    pose proof (IH (placeVillages st t)) as H1.
    pose proof (placeVillages_at_least st t) as H2. lia.
Qed.

(** X19.  A generated dataset never has more than 280 villages, 35 for
    each of the 8 taluks, and with [Math.random] in [0, 1) it has at least
    87, one for each curated name. *)
Theorem village_count_bounds (voronoi : option (nat -> Cell)) (g : Rand) :
  (87 <= List.length (villagesData (geoData voronoi g)) <= 280)%nat.
Proof.
  destruct (GeoFacts.geoData_villages sqrtQ cosQ sinQ Rand random voronoi g)
    as (g1 & -> & _).
  unfold GeoData.generateVillages. split.
  - pose proof (fold_placeVillages_at_least talukDataRaw (initial_gen g1)) as H.
    cbn [initial_gen generatedVillages List.length] in H.
    assert (E : list_sum (map (fun t => List.length (located (realNames_of t))) talukDataRaw)
                = 87%nat) by (vm_compute; reflexivity).
    rewrite E in H. exact H.
  - pose proof (fold_placeVillages_count talukDataRaw (initial_gen g1)) as H.
    cbn [initial_gen generatedVillages List.length] in H.
    assert (E : list_sum (map (fun t => Nat.max (List.length (realNames_of t)) 35)
                              talukDataRaw) = 280%nat) by (vm_compute; reflexivity).
    rewrite E in H. exact H.
Qed.

End InRange.

(** *** Pincodes *)

Section Pincodes.

Variable cellPolygon : nat -> Cell.

Lemma pincodeFeature_of_entry (p : PincodeDef) (r : ring) (population : jsnum)
    (poStatus : string) (d_area d_lit d_delivery : Q) :
  pincode_of_entry (p, r)
    (pincodeFeature sqrtQ p r population poStatus d_area d_lit d_delivery).
Proof. unfold pincode_of_entry. repeat split; reflexivity. Qed.

Lemma pincodeFeature_attributes (p : PincodeDef) (r : ring)
    (d_pop d_area d_lit d_delivery : Q) (poStatus : string) :
  (0 <= d_pop < 1)%Q -> (0 <= d_area < 1)%Q -> (0 <= d_lit < 1)%Q ->
  In poStatus ["Head Post Office"; "Sub Post Office"; "Branch Post Office"]%string ->
  pincode_attributes
    (pincodeFeature sqrtQ p r (Fin 20000 + JsNum.ofZ (floor_scaled d_pop 80000))%js
                    poStatus d_area d_lit d_delivery).
Proof.
  intros Rp Ra Rl Hst.
  pose proof (floor_scaled_range d_pop 80000 Rp ltac:(lia)) as Hpop.
  unfold pincode_attributes, pincodeFeature.
  cbn [properties get String.eqb Ascii.eqb Bool.eqb].
  split; [|split; [|split; [|split]]].
  - exists (20000 + floor_scaled d_pop 80000),
           (Qfloor ((20000 + inject_Z (floor_scaled d_pop 80000)) / 4)).
    split; [|split; [lia|split]].
    + eexists. split; [reflexivity|]. rewrite inject_Z_plus. reflexivity.
    + eexists. split; [reflexivity|]. reflexivity.
    + rewrite inject_Z_plus. change (inject_Z 20000) with 20000%Q.
      apply floor_of_quotient. reflexivity.
  - eexists. split; [reflexivity|]. lra.
  - eexists. split; [reflexivity|]. lra.
  - destruct (Qlt_le_dec 0.05 d_delivery); eexists; (split; [reflexivity|]); simpl; auto.
  - exists (p_areaName p).
    destruct Hst as [<- | [<- | [<- | []]]]; eexists; eexists;
      (split; [|split; reflexivity]); simpl; auto.
Qed.

Lemma pincodeLoop_kept (defs : list PincodeDef) :
  forall (i : nat) (g : Rand) (acc : list GeoFeature),
  exists fs,
    fst (pincodeLoop sqrtQ random cellPolygon i defs g acc) = acc ++ fs /\
    Forall2 pincode_of_entry (kept_pincodes cellPolygon i defs) fs /\
    ((forall g', (0 <= fst (random g') < 1)%Q) -> Forall pincode_attributes fs).
Proof.
  induction defs as [|p rest IH]; intros i g acc; cbn [pincodeLoop kept_pincodes].
  - exists []. rewrite app_nil_r. repeat split; constructor.
  - destruct (cellPolygon i) as [|poly].
    + exists []. rewrite app_nil_r. repeat split; constructor.
    + assert (Hskip : forall g', exists fs,
                fst (pincodeLoop sqrtQ random cellPolygon (S i) rest g' acc) = acc ++ fs /\
                Forall2 pincode_of_entry (kept_pincodes cellPolygon (S i) rest) fs /\
                ((forall g', (0 <= fst (random g') < 1)%Q) -> Forall pincode_attributes fs))
        by (intros g'; apply IH).
      assert (Hpush : forall g' f r,
                pincode_of_entry (p, r) f ->
                ((forall g', (0 <= fst (random g') < 1)%Q) -> pincode_attributes f) ->
                exists fs,
                  fst (pincodeLoop sqrtQ random cellPolygon (S i) rest g' (acc ++ [f]))
                    = acc ++ fs /\
                  Forall2 pincode_of_entry ((p, r) :: kept_pincodes cellPolygon (S i) rest) fs /\
                  ((forall g', (0 <= fst (random g') < 1)%Q) -> Forall pincode_attributes fs)).
      { intros g' f r Hf Ha. destruct (IH (S i) g' (acc ++ [f])) as (fs & H1 & H2 & H3).
        exists (f :: fs). split; [rewrite H1, <- app_assoc; reflexivity|].
        split; [constructor; assumption|].
        intros Hr. constructor; [apply Ha, Hr | apply H3, Hr]. }
      pose proof (fun H : forall g', (0 <= fst (random g') < 1)%Q => H g) as R1.
      destruct (random g) as [d_pop g1]. cbn [fst] in R1.
      destruct (random g1) as [d_head g2].
      destruct (Qlt_le_dec 0.8 d_head).
      * destruct poly as [r|]; [|apply Hskip].
        destruct (isValidRing r); [|apply Hskip].
        pose proof (fun H : forall g', (0 <= fst (random g') < 1)%Q => H g2) as R4.
        destruct (random g2) as [d4 g4]. cbn [fst] in R4.
        pose proof (fun H : forall g', (0 <= fst (random g') < 1)%Q => H g4) as R5.
        destruct (random g4) as [d5 g5]. cbn [fst] in R5.
        destruct (random g5) as [d6 g6].
        apply Hpush; [apply pincodeFeature_of_entry|].
        intros Hr. apply pincodeFeature_attributes; auto. simpl. auto.
      * destruct (random g2) as [d_sub g2'].
        destruct poly as [r|]; [|apply Hskip].
        destruct (isValidRing r); [|apply Hskip].
        pose proof (fun H : forall g', (0 <= fst (random g') < 1)%Q => H g2') as R4.
        destruct (random g2') as [d4 g4]. cbn [fst] in R4.
        pose proof (fun H : forall g', (0 <= fst (random g') < 1)%Q => H g4) as R5.
        destruct (random g4) as [d5 g5]. cbn [fst] in R5.
        destruct (random g5) as [d6 g6].
        apply Hpush; [apply pincodeFeature_of_entry|].
        intros Hr. apply pincodeFeature_attributes; auto.
        destruct (Qlt_le_dec 0.4 d_sub); simpl; auto.
Qed.

End Pincodes.

Lemma pincodesData_of_loop (voronoi : option (nat -> Cell)) (g : Rand) :
  exists g', pincodesData (geoData voronoi g)
             = fst (generatePincodes sqrtQ random voronoi g').
Proof.
  unfold GeoData.geoData.
  destruct (talukFeatures sqrtQ random 0 talukDataRaw g) as [taluks g1].
  exists (rng (generateVillages g1)).
  destruct (generatePincodes sqrtQ random voronoi _) as [pincodes g2].
  reflexivity.
Qed.

(** X20.  Which pincodes a dataset has depends on the Voronoi cells alone,
    not on [Math.random]: there is one feature, in the order of the table,
    for each entry before the first cell that throws whose cell is a valid
    ring; it carries the id [pin-<code>], the geocode [KAP<code>], the
    name, district and markets of its entry and the cell as its polygon.
    When the tessellation itself throws there is no pincode at all. *)
Theorem pincodes_follow_cells (voronoi : option (nat -> Cell)) (g : Rand) :
  Forall2 pincode_of_entry
          (match voronoi with
           | Some cellPolygon => kept_pincodes cellPolygon 0 REAL_PINCODES
           | None => []
           end)
          (pincodesData (geoData voronoi g)).
Proof.
  destruct (pincodesData_of_loop voronoi g) as [g' ->].
  unfold generatePincodes. destruct voronoi as [cellPolygon|]; [|constructor].
  destruct (pincodeLoop_kept cellPolygon REAL_PINCODES 0 g' []) as (fs & -> & H & _).
  exact H.
Qed.

(** X21.  With [Math.random] in [0, 1), every pincode of a generated
    dataset has a population that is an integer from 20000 to 99999, the
    number of households that is the population divided by 4 and rounded
    down, an area from 10 to 30, a literacy rate from 75 to 95 (the bounds
    included), one of the two delivery statuses, and a post office whose
    name ends in the abbreviation of its status. *)
Theorem pincode_attributes_in_range (voronoi : option (nat -> Cell)) (g : Rand) :
  (forall g', (0 <= fst (random g') < 1)%Q) ->
  Forall pincode_attributes (pincodesData (geoData voronoi g)).
Proof.
  intros Hr.
  destruct (pincodesData_of_loop voronoi g) as [g' ->].
  unfold generatePincodes. destruct voronoi as [cellPolygon|]; [|constructor].
  destruct (pincodeLoop_kept cellPolygon REAL_PINCODES 0 g' []) as (fs & -> & _ & H).
  apply H, Hr.
Qed.

End Villages.

(** *** The same on the example dataset *)

Lemma cos_one_range (x : Q) : (-1 <= cos_one x <= 1)%Q.
Proof. unfold cos_one. split; discriminate. Qed.

Lemma sin_zero_range (x : Q) : (-1 <= sin_zero x <= 1)%Q.
Proof. unfold sin_zero. split; discriminate. Qed.

Lemma villages_name_their_taluk_witness :
  exists f taluk district tf df,
    nth_error (villagesData example_dataset) 0 = Some f /\
    get "taluk" (properties f) = VStr taluk /\
    get "district" (properties f) = VStr district /\
    In tf (taluksData example_dataset) /\
    get "name" (properties tf) = VStr taluk /\
    get "district" (properties tf) = VStr district /\
    In df (districtsData example_dataset) /\
    get "name" (properties df) = VStr district.
Proof.
  unfold example_dataset.
  pose proof (villages_name_their_taluk sqrt_floor cos_one sin_zero Z lcg
                (Some rectangle_cells) 42) as H.
  destruct (nth_error (villagesData (geoData sqrt_floor cos_one sin_zero lcg
                                       (Some rectangle_cells) 42)) 0) as [f|] eqn:E.
  - destruct (H f (nth_error_In _ _ E)) as (taluk & district & tf & df & Hrest).
    exists f, taluk, district, tf, df. split; [reflexivity | exact Hrest].
  - exfalso. vm_compute in E. discriminate.
Defined.

Lemma village_attributes_in_range_witness :
  Forall village_attributes (villagesData example_dataset).
Proof.
  unfold example_dataset.
  exact (village_attributes_in_range sqrt_floor cos_one sin_zero Z lcg GeoFacts.lcg_range
           (Some rectangle_cells) 42).
Defined.

Lemma village_polygons_around_centres_witness :
  Forall2 village_polygon (villagesData example_dataset) (villageSites example_dataset).
Proof.
  unfold example_dataset.
  exact (village_polygons_around_centres sqrt_floor cos_one sin_zero Z lcg GeoFacts.lcg_range
           cos_one_range sin_zero_range (Some rectangle_cells) 42).
Defined.

Lemma village_count_bounds_witness :
  (87 <= List.length (villagesData example_dataset) <= 280)%nat.
Proof.
  unfold example_dataset.
  exact (village_count_bounds sqrt_floor cos_one sin_zero Z lcg GeoFacts.lcg_range
           (Some rectangle_cells) 42).
Defined.

Lemma pincode_attributes_in_range_witness :
  Forall pincode_attributes (pincodesData example_dataset).
Proof.
  unfold example_dataset.
  exact (pincode_attributes_in_range sqrt_floor cos_one sin_zero Z lcg
           (Some rectangle_cells) 42 GeoFacts.lcg_range).
Defined.

End GeoMore.
(* ================================================================== *)
(** ** Further properties of the export and the import *)
(* ================================================================== *)

Module CsvMore.
Import Csv CsvProps.
Local Open Scope list_scope.

(** *** Objects *)

Lemma set_prop_keys (k : string) (v : jsval) (obj : list (string * jsval)) :
  forall x, In x (map fst (set_prop k v obj)) <-> In x (map fst obj) \/ x = k.
Proof.
  induction obj as [|[k0 v0] rest IH]; intros x; cbn [set_prop map fst In].
  - split; [intros [<- | []]; auto | intros [[] | ->]; auto].
  - destruct (String.eqb_spec k0 k) as [-> | Hne]; cbn [map fst In].
    + split; [tauto|]. intros [H | ->]; [exact H | left; reflexivity].
    + rewrite IH. tauto.
Qed.

Lemma set_prop_NoDup (k : string) (v : jsval) (obj : list (string * jsval)) :
  NoDup (map fst obj) -> NoDup (map fst (set_prop k v obj)).
Proof.
  induction obj as [|[k0 v0] rest IH]; cbn [set_prop map fst]; intros H.
  - constructor; [intros [] | constructor].
  - apply NoDup_cons_iff in H. destruct H as [Hnot Hnd].
    destruct (String.eqb_spec k0 k) as [-> | Hne]; cbn [map fst].
    + constructor; assumption.
    + constructor; [|apply IH, Hnd].
      intros Hin. apply set_prop_keys in Hin. destruct Hin as [Hin | ->]; auto.
Qed.

Lemma set_prop_same (k : string) (v : jsval) (obj : list (string * jsval)) :
  In k (map fst obj) -> get k obj = v -> set_prop k v obj = obj.
Proof.
  induction obj as [|[k0 v0] rest IH]; cbn [set_prop map fst In get]; intros Hin Hv.
  - destruct Hin.
  - destruct (String.eqb_spec k0 k) as [-> | Hne].
    + rewrite Hv. reflexivity.
    + f_equal. apply IH; [|exact Hv]. destruct Hin as [E | Hin]; [contradiction | exact Hin].
Qed.

Lemma spread_snoc (a b : list (string * jsval)) (k : string) (v : jsval) :
  spread a (b ++ [(k, v)]) = set_prop k v (spread a b).
Proof. unfold spread. rewrite fold_left_app. reflexivity. Qed.

(** [{...a, ...b}]: the keys of both, and under each key the last entry of
    [b] that has it, or else what [a] has. *)
Lemma spread_keys (b : list (string * jsval)) :
  forall a x, In x (map fst (spread a b)) <-> In x (map fst a) \/ In x (map fst b).
Proof.
  induction b as [|[k v] rest IH] using rev_ind; intros a x.
  - cbn. tauto.
  - rewrite spread_snoc, set_prop_keys, IH, map_app, in_app_iff. cbn [map fst In].
    intuition (subst; auto).
Qed.

Lemma get_spread_last (k : string) (b : list (string * jsval)) :
  forall a,
    get k (spread a b) = match last_entry k b with
                         | Some v => v
                         | None => get k a
                         end.
Proof.
  unfold last_entry.
  induction b as [|[k0 v0] rest IH] using rev_ind; intros a.
  - reflexivity.
  - rewrite spread_snoc, CsvFacts.get_set_prop, rev_app_distr. cbn [rev app find fst].
    destruct (String.eqb k0 k); [reflexivity | apply IH].
Qed.

Lemma spread_NoDup (b a : list (string * jsval)) :
  NoDup (map fst a) -> NoDup (map fst (spread a b)).
Proof.
  induction b as [|[k v] rest IH] using rev_ind; intros H.
  - exact H.
  - rewrite spread_snoc. apply set_prop_NoDup, IH, H.
Qed.

(** *** The columns of an export *)

(** X22.  The columns of an export are the attribute keys of the features,
    each of them once, followed by the column [geometry]; the document is
    the line of the columns followed by one line for each feature, in
    order, with one field for each column. *)
Theorem export_columns (num_to_string : jsnum -> string) (fs : list GeoFeature) :
  fs <> [] ->
  NoDup (all_keys fs) /\
  (forall k, In k (all_keys fs) <-> exists f, In f fs /\ In k (map fst (properties f))) /\
  convertToCSV num_to_string fs =
    join (String LF EmptyString)
         (join "," (all_keys fs ++ ["geometry"]%string)
          :: map (fun f => join "," (map (cell num_to_string f)
                                         (all_keys fs ++ ["geometry"]%string))) fs).
Proof.
  intros Hne. split; [apply CsvFacts.all_keys_NoDup|].
  split; [apply CsvFacts.all_keys_spec|].
  apply (CsvFacts.convertToCSV_nonempty num_to_string fs Hne).
Qed.

Lemma export_columns_witness :
  NoDup (all_keys two_plain_features) /\
  (forall k, In k (all_keys two_plain_features)
             <-> exists f, In f two_plain_features /\ In k (map fst (properties f))) /\
  convertToCSV show_decimal two_plain_features =
    join (String LF EmptyString)
         (join "," (all_keys two_plain_features ++ ["geometry"]%string)
          :: map (fun f => join "," (map (cell show_decimal f)
                                         (all_keys two_plain_features ++ ["geometry"]%string)))
                 two_plain_features).
Proof.
  apply (export_columns show_decimal two_plain_features). discriminate.
Defined.

(** *** The record of a line *)

Section Records.

Variable Number : string -> jsnum.

Lemma find_app_first {A : Type} (p : A -> bool) (l1 l2 : list A) :
  find p (l1 ++ l2) = match find p l1 with
                      | Some a => Some a
                      | None => find p l2
                      end.
Proof.
  induction l1 as [|a l1 IH]; cbn [app find]; [reflexivity|].
  destruct (p a); [reflexivity | exact IH].
Qed.

(** The columns that make a property of the record: all but those
    headed [__proto__]. *)
Local Notation own := (fun hi : string * nat => negb (String.eqb (fst hi) "__proto__")).

Lemma record_of_spread (hs row : list string) :
  record_of Number hs row =
  spread [] (map (fun hi => (fst hi, field_value Number (nth_error row (snd hi))))
                 (filter own (combine hs (seq 0 (List.length hs))))).
Proof.
  unfold record_of, spread.
  generalize (combine hs (seq 0 (List.length hs))) ([] : list (string * jsval)).
  induction l as [|hi l IH]; intros acc; cbn [filter map fold_left]; [reflexivity|].
  unfold assign at 2.
  destruct (String.eqb (fst hi) "__proto__"); cbn [negb map fold_left fst snd]; apply IH.
Qed.

Lemma own_keys (hs : list string) :
  forall i k,
    In k (map fst (filter own (combine hs (seq i (List.length hs)))))
    <-> In k hs /\ k <> "__proto__"%string.
Proof.
  induction hs as [|h hs IH]; intros i k; cbn [List.length seq combine filter map fst In].
  - tauto.
  - destruct (String.eqb_spec h "__proto__") as [-> | Hne]; cbn [negb map fst In].
    + rewrite IH. split; [tauto|]. intros [[<- | H] Hk]; [contradiction | tauto].
    + rewrite IH. split.
      * intros [<- | [H Hk]]; [split; [left; reflexivity | exact Hne] | tauto].
      * intros [[<- | H] Hk]; [left; reflexivity | right; tauto].
Qed.

Lemma last_entry_of_headers (row : list string) (k : string) (hs : list string) :
  k <> "__proto__"%string ->
  forall i,
    last_entry k (map (fun hi => (fst hi, field_value Number (nth_error row (snd hi))))
                      (filter own (combine hs (seq i (List.length hs)))))
    = option_map (fun j => field_value Number (nth_error row j)) (last_index k hs i).
Proof.
  intros Hk. unfold last_entry.
  induction hs as [|h hs IH]; intros i; cbn [List.length seq combine filter map rev last_index].
  - reflexivity.
  - specialize (IH (S i)). cbn [fst].
    destruct (String.eqb_spec h "__proto__") as [-> | Hne]; cbn [negb].
    + rewrite IH.
      destruct (last_index k hs (S i)) as [j|]; [reflexivity|].
      destruct (String.eqb_spec "__proto__" k) as [E | _]; [|reflexivity].
      exfalso. apply Hk. symmetry. exact E.
    + cbn [map rev]. rewrite find_app_first. cbn [fst snd find].
      destruct (find _ (rev _)) as [kv|]; cbn [option_map] in *.
      * destruct (last_index k hs (S i)) as [j|]; cbn [option_map] in *;
          [exact IH | discriminate].
      * destruct (last_index k hs (S i)) as [j|]; cbn [option_map] in *; [discriminate|].
        destruct (String.eqb h k); reflexivity.
Qed.

(** X23.  The record made of a line has one property for each distinct
    header other than [__proto__]; a column headed [__proto__] makes none.
    Under a header the record holds the field in the column of that
    header, the last such column when the header is repeated, converted to
    a number when it reads as one; it holds [undefined] when the line has
    no field in that column.  Fields beyond the last header are not
    read. *)
Theorem record_fields (hs row : list string) :
  NoDup (map fst (record_of Number hs row)) /\
  (forall k, In k (map fst (record_of Number hs row))
             <-> In k hs /\ k <> "__proto__"%string) /\
  (forall k i,
     k <> "__proto__"%string ->
     last_index k hs 0 = Some i ->
     get k (record_of Number hs row) = field_value Number (nth_error row i)).
Proof.
  rewrite record_of_spread. split; [|split].
  - apply spread_NoDup. constructor.
  - intros k. rewrite spread_keys, map_map. cbn [map fst In].
    change (map (fun x : string * nat => fst x)) with (map (@fst string nat)).
    rewrite own_keys. tauto.
  - intros k i Hk Hi.
    rewrite get_spread_last, (last_entry_of_headers row k hs Hk 0), Hi. reflexivity.
Qed.

End Records.

(** A line read under a repeated header and a header [__proto__]. *)
Lemma record_fields_witness :
  get "geocode" (record_of Number_decimal ["geocode"; "__proto__"; "name"; "geocode"]%string
                           ["G1"; "x"; "Alpha"; "G2"]%string) = VStr "G2".
Proof.
  exact (proj2 (proj2 (record_fields Number_decimal
                         ["geocode"; "__proto__"; "name"; "geocode"]%string
                         ["G1"; "x"; "Alpha"; "G2"]%string))
               "geocode"%string 3%nat ltac:(discriminate) eq_refl).
Defined.

(** *** The merge *)

Local Notation matches f := (fun d => strict_eq (get "geocode" d) (geocode_of f)).

(** X24.  A merge never adds, drops or reorders features, and never touches
    an id or a geometry or removes an attribute key.  A feature whose
    geocode matches no record is left as it is; any other feature takes
    every attribute of the first record that matches, the last entry under
    each key, [undefined] included. *)
Theorem merge_keeps_features (dataToImport : list (list (string * jsval)))
    (fs : list GeoFeature) :
  Forall2 (fun f f' =>
             kept f f' /\
             (find (matches f) dataToImport = None -> f' = f) /\
             (forall record, find (matches f) dataToImport = Some record ->
                forall k, get k (properties f') =
                          match last_entry k record with
                          | Some v => v
                          | None => get k (properties f)
                          end))
          fs (updateCollection dataToImport fs).
Proof.
  unfold updateCollection. apply CsvFacts.Forall2_map_r. intros f _.
  destruct (find (matches f) dataToImport) as [record|].
  - split; [|split].
    + unfold kept. cbn [id geometry properties].
      split; [reflexivity|]. split; [reflexivity|].
      intros k Hk. apply spread_keys. left. exact Hk.
    + discriminate.
    + intros r Hr k. injection Hr as <-. cbn [properties]. apply get_spread_last.
  - split; [|split].
    + unfold kept. split; [reflexivity|]. split; [reflexivity | apply incl_refl].
    + reflexivity.
    + discriminate.
Qed.

Lemma Qeq_bool_trans_l (x c g : Q) :
  Qeq_bool c g = true -> Qeq_bool x c = Qeq_bool x g.
Proof.
  intros H. apply Qeq_bool_iff in H.
  destruct (Qeq_bool x g) eqn:E.
  - apply Qeq_bool_iff. apply Qeq_bool_iff in E. rewrite H. exact E.
  - destruct (Qeq_bool x c) eqn:E'; [|reflexivity].
    apply Qeq_bool_iff in E'. rewrite H in E'. apply Qeq_bool_iff in E'. congruence.
Qed.

Lemma strict_eq_trans_l (x c g : jsval) :
  strict_eq c g = true -> strict_eq x c = strict_eq x g.
Proof.
  destruct c as [|[| | | | |]]; destruct g as [|[| | | | |]]; try discriminate;
    cbn [strict_eq]; intros H.
  - reflexivity.
  - reflexivity.
  - apply Bool.eqb_prop in H. subst. reflexivity.
  - destruct n as [| |p]; destruct n0 as [| |q]; try discriminate H.
    + cbn [JsNum.eqb] in H. apply Bool.eqb_prop in H. subst. reflexivity.
    + cbn [JsNum.eqb] in H.
      destruct x as [|[| |[| |r]| | |]]; cbn [strict_eq JsNum.eqb]; try reflexivity.
      apply Qeq_bool_trans_l, H.
  - apply String.eqb_eq in H. subst. reflexivity.
Qed.

Lemma spread_again (a b : list (string * jsval)) :
  NoDup (map fst b) -> spread (spread a b) b = spread a b.
Proof.
  intros Hnd.
  assert (Hgen : forall b', (forall kv, In kv b' -> In kv b) ->
            spread (spread a b) b' = spread a b).
  { induction b' as [|[k v] rest IH] using rev_ind; intros Hsub; [reflexivity|].
    rewrite spread_snoc, IH by (intros kv Hkv; apply Hsub, in_or_app; left; exact Hkv).
    assert (Hin : In (k, v) b) by (apply Hsub, in_or_app; right; left; reflexivity).
    apply set_prop_same.
    - apply spread_keys. right. apply in_map_iff. exists (k, v). split; [reflexivity | exact Hin].
    - rewrite (CsvFacts.get_spread k b Hnd a).
      assert (Hm : mem k (map fst b) = true).
      { apply GeoFacts.mem_In. apply in_map_iff. exists (k, v). split; [reflexivity | exact Hin]. }
      rewrite Hm. clear - Hnd Hin.
      induction b as [|[k0 v0] b IHb]; [destruct Hin|].
      cbn [map fst] in Hnd. apply NoDup_cons_iff in Hnd. destruct Hnd as [Hnot Hnd].
      cbn [get]. destruct Hin as [E | Hin].
      + injection E as -> ->. rewrite String.eqb_refl. reflexivity.
      + destruct (String.eqb_spec k0 k) as [-> | Hne].
        * exfalso. apply Hnot. apply in_map_iff. exists (k, v). split; [reflexivity | exact Hin].
        * apply IHb; assumption. }
  apply Hgen. auto.
Qed.

Lemma merge_twice (dataToImport : list (list (string * jsval))) (fs : list GeoFeature) :
  Forall (fun d => NoDup (map fst d)) dataToImport ->
  updateCollection dataToImport (updateCollection dataToImport fs)
  = updateCollection dataToImport fs.
Proof.
  intros Hnd. unfold updateCollection. rewrite map_map. apply map_ext. intros f.
  destruct (find (matches f) dataToImport) as [record|] eqn:Hfind.
  - assert (Hrec : NoDup (map fst record)).
    { apply find_some in Hfind. destruct Hfind as [Hin _].
      exact (proj1 (Forall_forall _ _) Hnd record Hin). }
    assert (Hm : strict_eq (get "geocode" record) (geocode_of f) = true)
      by (apply find_some in Hfind; apply Hfind).
    set (f' := {| id := id f; properties := spread (properties f) record;
                  geometry := geometry f |}).
    assert (Hg : strict_eq (geocode_of f') (geocode_of f) = true).
    { unfold f', geocode_of. cbn [properties].
      rewrite (CsvFacts.get_spread "geocode" record Hrec).
      destruct (mem "geocode" (map fst record)) eqn:Hk; [exact Hm|].
      assert (Hu : get "geocode" record = VUndefined).
      { apply CsvFacts.get_absent. intros Hin. apply GeoFacts.mem_In in Hin. congruence. }
      rewrite Hu in Hm. unfold geocode_of in Hm.
      destruct (get "geocode" (properties f)) as [|j]; [reflexivity | discriminate]. }
    assert (Hsame : find (matches f') dataToImport = find (matches f) dataToImport).
    { clear Hfind. induction dataToImport as [|d ds IHd]; [reflexivity|].
      cbn [find]. rewrite (strict_eq_trans_l (get "geocode" d) _ _ Hg).
      destruct (strict_eq (get "geocode" d) (geocode_of f)); [reflexivity|].
      apply IHd. inversion Hnd; assumption. }
    rewrite Hsame, Hfind. unfold f'. cbn [id properties geometry].
    rewrite (spread_again _ _ Hrec). reflexivity.
  - rewrite Hfind. reflexivity.
Qed.

(** X25.  Importing a document a second time changes nothing: the merge of
    the records of a CSV document is idempotent. *)
Theorem import_twice_is_import_once (Number : string -> jsnum) (content : string)
    (fs : list GeoFeature) :
  updateCollection (parseCSV Number content)
                   (updateCollection (parseCSV Number content) fs)
  = updateCollection (parseCSV Number content) fs.
Proof.
  apply merge_twice. unfold parseCSV. apply Forall_map. apply Forall_forall.
  intros line _. rewrite record_of_spread. apply spread_NoDup. constructor.
Qed.

End CsvMore.
(* ================================================================== *)
(** ** Properties of the filters and the selections *)
(* ================================================================== *)

Module FilterFacts.
Import Filters.
Local Open Scope list_scope.

(** *** The rating buckets *)

Lemma geb_Fin (p q : Q) : geb (Fin p) (Fin q) = true <-> (q <= p)%Q.
Proof.
  unfold geb. rewrite negb_true_iff. apply GeoMore.ltb_Fin_false.
Qed.

(** Reaching the smaller of two numbers is reaching one of them. *)
Lemma geb_min2 (r x y : jsnum) :
  isNaN x = false -> isNaN y = false ->
  geb r (JsNum.min2 x y) = geb r x || geb r y.
Proof.
  intros Hx Hy.
  destruct x as [|[]|p]; try discriminate Hx; destruct y as [|[]|q]; try discriminate Hy;
    destruct r as [|[]|c]; cbn [JsNum.min2 JsNum.ltb geb negb orb andb];
    try reflexivity;
    try (destruct (negb (Qle_bool _ _)); reflexivity).
  destruct (negb (Qle_bool p q)) eqn:E.
  - apply negb_true_iff in E.
    cbn [geb JsNum.ltb]. rewrite !negb_involutive.
    destruct (Qle_bool q c) eqn:E1; [rewrite orb_true_r; reflexivity|].
    destruct (Qle_bool p c) eqn:E2; [|reflexivity].
    exfalso. apply Qle_bool_iff in E2.
    assert (Hqc : ~ (q <= c)%Q) by (intros C; apply Qle_bool_iff in C; congruence).
    assert (Hpq : ~ (p <= q)%Q) by (intros C; apply Qle_bool_iff in C; congruence).
    lra.
  - apply negb_false_iff in E. apply Qle_bool_iff in E.
    cbn [geb JsNum.ltb]. rewrite !negb_involutive.
    destruct (Qle_bool p c) eqn:E1; [reflexivity|].
    destruct (Qle_bool q c) eqn:E2; [|reflexivity].
    exfalso. apply Qle_bool_iff in E2.
    assert (Hpc : ~ (p <= c)%Q) by (intros C; apply Qle_bool_iff in C; congruence).
    lra.
Qed.

Lemma min2_not_NaN (x y : jsnum) :
  isNaN x = false -> isNaN y = false -> isNaN (JsNum.min2 x y) = false.
Proof.
  intros Hx Hy. destruct x as [|[]|p]; try discriminate Hx;
    destruct y as [|[]|q]; try discriminate Hy; cbn [JsNum.min2];
    try reflexivity; destruct (_ <? _)%js; reflexivity.
Qed.

Lemma geb_fold_min (r : jsnum) (xs : list jsnum) :
  Forall (fun x => isNaN x = false) xs ->
  forall acc, isNaN acc = false ->
    geb r (fold_left JsNum.min2 xs acc) = geb r acc || existsb (fun stars => geb r stars) xs.
Proof.
  intros Hxs. induction Hxs as [|x xs Hx _ IH]; intros acc Hacc; cbn [fold_left existsb].
  - rewrite orb_false_r. reflexivity.
  - rewrite (IH _ (min2_not_NaN acc x Hacc Hx)), (geb_min2 r acc x Hacc Hx).
    rewrite orb_assoc. reflexivity.
Qed.

Lemma geb_min_list (r : jsnum) (xs : list jsnum) :
  xs <> [] -> Forall (fun x => isNaN x = false) xs ->
  geb r (JsNum.min_list xs) = existsb (fun stars => geb r stars) xs.
Proof.
  intros Hne Hxs. unfold JsNum.min_list.
  rewrite (geb_fold_min r xs Hxs (Inf false) eq_refl).
  destruct (geb r (Inf false)) eqn:E; [|reflexivity].
  cbn [orb]. symmetry.
  destruct xs as [|x xs']; [contradiction|].
  cbn [existsb]. inversion Hxs as [|? ? Hx _]; subst.
  destruct r as [|[]|c]; try discriminate E.
  destruct x as [|[]|p]; try discriminate Hx; reflexivity.
Qed.

(** X26.  Selecting several rating buckets is selecting the lowest of
    them: with at least one bucket selected and no bucket [NaN], the
    filter keeps the same stores as with the least bucket alone. *)
Theorem rating_buckets_are_a_threshold (stores : list GeoFeature)
    (selectedCategories : list string) (selectedRatings : list jsnum) :
  selectedRatings <> [] ->
  Forall (fun stars => isNaN stars = false) selectedRatings ->
  filteredStores stores selectedCategories selectedRatings =
  filteredStores stores selectedCategories [JsNum.min_list selectedRatings].
Proof.
  intros Hne Hnan. unfold filteredStores. apply filter_ext. intros s. f_equal.
  unfold rating_passes.
  destruct selectedRatings as [|x xs]; [contradiction|].
  destruct (rating_of s) as [r|]; [|reflexivity].
  change (existsb (fun stars => geb r stars) [JsNum.min_list (x :: xs)])
    with (geb r (JsNum.min_list (x :: xs)) || false).
  rewrite orb_false_r.
  symmetry. apply (geb_min_list r (x :: xs) Hne Hnan).
Qed.

Lemma rating_buckets_are_a_threshold_witness :
  filteredStores Osm.scanned_three_shops [] [Fin 4; Fin 3; Fin 4.5] =
  filteredStores Osm.scanned_three_shops [] [JsNum.min_list [Fin 4; Fin 3; Fin 4.5]].
Proof.
  apply (rating_buckets_are_a_threshold Osm.scanned_three_shops [] [Fin 4; Fin 3; Fin 4.5]).
  - discriminate.
  - repeat constructor.
Defined.

Lemma filter_twice {A : Type} (f g : A -> bool) (l : list A) :
  filter f (filter g l) = filter (fun x => g x && f x) l.
Proof.
  induction l as [|a l IH]; [reflexivity|]. cbn [filter].
  destruct (g a); cbn [filter andb]; [destruct (f a)|]; rewrite IH; reflexivity.
Qed.

(** X27.  The two filters are independent: with nothing selected every
    store is kept; filtering by category and by rating at once is
    filtering by one and then by the other, in either order; and what is
    kept are stores of the list, in their order. *)
Theorem filters_compose (stores : list GeoFeature)
    (selectedCategories : list string) (selectedRatings : list jsnum) :
  filteredStores stores [] [] = stores /\
  filteredStores (filteredStores stores selectedCategories []) [] selectedRatings
    = filteredStores stores selectedCategories selectedRatings /\
  filteredStores (filteredStores stores [] selectedRatings) selectedCategories []
    = filteredStores stores selectedCategories selectedRatings /\
  (exists keep, filteredStores stores selectedCategories selectedRatings = filter keep stores).
Proof.
  unfold filteredStores. split; [|split; [|split]].
  - apply CsvFacts.filter_keeps_all. intros s _. reflexivity.
  - rewrite filter_twice. apply filter_ext. intros s.
    change (category_passes [] s) with true. change (rating_passes [] s) with true.
    rewrite andb_true_r. reflexivity.
  - rewrite filter_twice. apply filter_ext. intros s.
    change (category_passes [] s) with true. change (rating_passes [] s) with true.
    cbn [andb]. rewrite andb_true_r. apply andb_comm.
  - eexists. reflexivity.
Qed.

(** *** The categories on offer *)

Lemma insert_sorted_In (x y : string) (l : list string) :
  In y (insert_sorted x l) <-> y = x \/ In y l.
Proof.
  induction l as [|a l IH]; cbn [insert_sorted In].
  - intuition auto.
  - destruct (String.leb x a); cbn [In]; [|rewrite IH]; intuition auto.
Qed.

Lemma sort_In (y : string) (l : list string) : In y (sort l) <-> In y l.
Proof.
  unfold sort. induction l as [|a l IH]; cbn [fold_right In]; [tauto|].
  rewrite insert_sorted_In, IH. intuition auto.
Qed.

Lemma insert_sorted_NoDup (x : string) (l : list string) :
  NoDup l -> ~ In x l -> NoDup (insert_sorted x l).
Proof.
  induction l as [|a l IH]; cbn [insert_sorted]; intros Hnd Hx.
  - constructor; [intros [] | constructor].
  - destruct (String.leb x a).
    + constructor; assumption.
    + apply NoDup_cons_iff in Hnd. destruct Hnd as [Ha Hnd]. constructor.
      * intros Hin. apply insert_sorted_In in Hin. destruct Hin as [-> | Hin].
        -- apply Hx. left. reflexivity.
        -- contradiction.
      * apply IH; [exact Hnd|]. intros Hin. apply Hx. right. exact Hin.
Qed.

Lemma sort_NoDup (l : list string) : NoDup l -> NoDup (sort l).
Proof.
  unfold sort. induction l as [|a l IH]; cbn [fold_right]; intros H; [constructor|].
  apply NoDup_cons_iff in H. destruct H as [Ha Hnd].
  apply insert_sorted_NoDup; [apply IH, Hnd|].
  intros Hin. apply Ha. apply (sort_In a l), Hin.
Qed.

Lemma leb_ltb (x y : string) : String.leb x y = true -> x <> y -> String.ltb x y = true.
Proof.
  unfold String.leb, String.ltb. intros H Hne.
  destruct (String.compare x y) eqn:E; try reflexivity; [|discriminate].
  exfalso. apply Hne. apply String.compare_eq_iff, E.
Qed.

Lemma not_leb_ltb (x y : string) : String.leb x y = false -> String.ltb y x = true.
Proof.
  intros H. destruct (String.leb_total x y) as [C | C]; [congruence|].
  apply leb_ltb; [exact C|]. intros ->. congruence.
Qed.

Lemma insert_sorted_ascending (x : string) (l : list string) :
  ascending l -> ~ In x l -> ascending (insert_sorted x l).
Proof.
  induction l as [|a l IH]; cbn [insert_sorted]; intros Hasc Hx.
  - exact I.
  - destruct (String.leb x a) eqn:E.
    + split; [|exact Hasc]. apply leb_ltb; [exact E|].
      intros ->. apply Hx. left. reflexivity.
    + assert (Hax : String.ltb a x = true) by (apply not_leb_ltb, E).
      assert (Hxl : ~ In x l) by (intros Hin; apply Hx; right; exact Hin).
      destruct l as [|b l'].
      * cbn [insert_sorted]. split; [exact Hax | exact I].
      * destruct Hasc as [Hab Hrest].
        specialize (IH Hrest Hxl). cbn [insert_sorted] in *.
        destruct (String.leb x b); (split; [assumption | exact IH]).
Qed.

Lemma sort_ascending (l : list string) : NoDup l -> ascending (sort l).
Proof.
  unfold sort. induction l as [|a l IH]; cbn [fold_right]; intros H; [exact I|].
  apply NoDup_cons_iff in H. destruct H as [Ha Hnd].
  apply insert_sorted_ascending; [apply IH, Hnd|].
  intros Hin. apply Ha. apply (sort_In a l), Hin.
Qed.

Lemma collected_categories (stores : list GeoFeature) :
  forall cats,
    NoDup cats ->
    let collected :=
      fold_left (fun cats s =>
                   match category_of s with
                   | Some (String c rest) => Csv.add_key cats (String c rest)
                   | _ => cats
                   end) stores cats in
    NoDup collected /\
    forall c, In c collected <->
              In c cats \/ (c <> EmptyString /\ exists s, In s stores /\ category_of s = Some c).
Proof.
  induction stores as [|s stores IH]; intros cats Hnd; cbv zeta; cbn [fold_left].
  - split; [exact Hnd|]. intros c. split; [auto|]. intros [H | (_ & s & [] & _)]. exact H.
  - destruct (category_of s) as [[|a rest]|] eqn:Hc.
    + destruct (IH cats Hnd) as [H1 H2]. split; [exact H1|].
      intros c. rewrite H2. split.
      * intros [H | (Hne & s' & Hs' & Hcat)]; [left; exact H|].
        right. split; [exact Hne|]. exists s'. split; [right; exact Hs' | exact Hcat].
      * intros [H | (Hne & s' & [<- | Hs'] & Hcat)]; [left; exact H | |].
        -- rewrite Hc in Hcat. injection Hcat as <-. contradiction.
        -- right. split; [exact Hne|]. exists s'. split; assumption.
    + destruct (IH _ (CsvFacts.add_key_NoDup cats (String a rest) Hnd)) as [H1 H2].
      split; [exact H1|].
      intros c. rewrite H2, CsvFacts.add_key_spec. split.
      * intros [[H | ->] | (Hne & s' & Hs' & Hcat)].
        -- left. exact H.
        -- right. split; [discriminate|]. exists s. split; [left; reflexivity | exact Hc].
        -- right. split; [exact Hne|]. exists s'. split; [right; exact Hs' | exact Hcat].
      * intros [H | (Hne & s' & [<- | Hs'] & Hcat)].
        -- left. left. exact H.
        -- left. right. rewrite Hc in Hcat. injection Hcat as <-. reflexivity.
        -- right. split; [exact Hne|]. exists s'. split; assumption.
    + destruct (IH cats Hnd) as [H1 H2]. split; [exact H1|].
      intros c. rewrite H2. split.
      * intros [H | (Hne & s' & Hs' & Hcat)]; [left; exact H|].
        right. split; [exact Hne|]. exists s'. split; [right; exact Hs' | exact Hcat].
      * intros [H | (Hne & s' & [<- | Hs'] & Hcat)]; [left; exact H | |].
        -- rewrite Hc in Hcat. discriminate.
        -- right. split; [exact Hne|]. exists s'. split; assumption.
Qed.

(** X28.  The categories on offer are the categories of the stores that
    are not empty, each of them once, in strictly ascending order. *)
Theorem available_categories_sorted (stores : list GeoFeature) :
  ascending (availableCategories stores) /\
  NoDup (availableCategories stores) /\
  forall c, In c (availableCategories stores) <->
            c <> EmptyString /\ exists s, In s stores /\ category_of s = Some c.
Proof.
  unfold availableCategories.
  destruct (collected_categories stores [] (NoDup_nil _)) as [Hnd Hin]. cbv zeta in Hnd, Hin.
  split; [apply sort_ascending, Hnd|]. split; [apply sort_NoDup, Hnd|].
  intros c. rewrite sort_In, Hin. cbn [In]. tauto.
Qed.

(** *** Selections *)

Section Toggle.

Variable A : Type.
Variable eqb : A -> A -> bool.
Hypothesis eqb_eq : forall a b, eqb a b = true <-> a = b.

Lemma toggle_spec (selection : list A) (x : A) :
  NoDup selection ->
  NoDup (toggle eqb selection x) /\
  (In x (toggle eqb selection x) <-> ~ In x selection) /\
  (forall y, y <> x -> (In y (toggle eqb selection x) <-> In y selection)).
Proof.
  intros Hnd. unfold toggle.
  destruct (existsb (eqb x) selection) eqn:E.
  - assert (Hx : In x selection).
    { apply existsb_exists in E. destruct E as (y & Hy & Hxy).
      apply eqb_eq in Hxy. subst y. exact Hy. }
    split; [apply NoDup_filter, Hnd|]. split.
    + rewrite filter_In. split; [|contradiction].
      intros [_ H]. apply negb_true_iff in H.
      assert (eqb x x = true) by (apply eqb_eq; reflexivity). congruence.
    + intros y Hy. rewrite filter_In. split; [intros [H _]; exact H|].
      intros H. split; [exact H|]. apply negb_true_iff.
      destruct (eqb x y) eqn:Exy; [|reflexivity].
      apply eqb_eq in Exy. subst y. contradiction.
  - assert (Hx : ~ In x selection).
    { intros Hin.
      assert (existsb (eqb x) selection = true)
        by (apply existsb_exists; exists x; split; [exact Hin | apply eqb_eq; reflexivity]).
      congruence. }
    split; [|split].
    + apply NoDup_app; [exact Hnd | constructor; [intros [] | constructor] |].
      intros y Hy [<- | []]. contradiction.
    + rewrite in_app_iff. cbn [In]. split; [intros _; exact Hx | auto].
    + intros y Hy. rewrite in_app_iff. cbn [In]. split; [|auto].
      intros [H | [H | []]]; [exact H | subst; contradiction].
Qed.

End Toggle.

(** X29.  Toggling a category, or a region, flips its membership in the
    selection and leaves every other member alone; the selection stays
    free of duplicates, and toggling twice gives back a selection with the
    same members. *)
Theorem toggle_flips_membership :
  (forall (selection : list string) (cat : string),
     NoDup selection ->
     NoDup (toggleCategory selection cat) /\
     (In cat (toggleCategory selection cat) <-> ~ In cat selection) /\
     (forall other, other <> cat ->
        (In other (toggleCategory selection cat) <-> In other selection)) /\
     (forall c, In c (toggleCategory (toggleCategory selection cat) cat) <-> In c selection)) /\
  (forall (selection : list nat) (index : nat),
     NoDup selection ->
     NoDup (toggleRegion selection index) /\
     (In index (toggleRegion selection index) <-> ~ In index selection) /\
     (forall other, other <> index ->
        (In other (toggleRegion selection index) <-> In other selection)) /\
     (forall i, In i (toggleRegion (toggleRegion selection index) index) <-> In i selection)).
Proof.
  assert (Hgen : forall (A : Type) (eqb : A -> A -> bool),
            (forall a b, eqb a b = true <-> a = b) ->
            (forall a b : A, {a = b} + {a <> b}) ->
            forall (selection : list A) (x : A),
              NoDup selection ->
              NoDup (toggle eqb selection x) /\
              (In x (toggle eqb selection x) <-> ~ In x selection) /\
              (forall y, y <> x -> (In y (toggle eqb selection x) <-> In y selection)) /\
              (forall y, In y (toggle eqb (toggle eqb selection x) x) <-> In y selection)).
  { intros A eqb Heq Hdec selection x Hnd.
    destruct (toggle_spec A eqb Heq selection x Hnd) as (N1 & X1 & O1).
    destruct (toggle_spec A eqb Heq (toggle eqb selection x) x N1) as (N2 & X2 & O2).
    split; [exact N1|]. split; [exact X1|]. split; [exact O1|].
    intros y. destruct (Hdec y x) as [-> | Hne].
    - rewrite X2, X1. destruct (in_dec Hdec x selection); tauto.
    - rewrite (O2 y Hne). apply O1, Hne. }
  split.
  - intros selection cat. apply (Hgen string String.eqb String.eqb_eq string_dec).
  - intros selection index. apply (Hgen nat Nat.eqb Nat.eqb_eq Nat.eq_dec).
Qed.

Lemma toggle_flips_membership_witness :
  In "Health"%string (toggleCategory ["Fashion"; "Health"]%string "Fashion") /\
  ~ In "Fashion"%string (toggleCategory ["Fashion"; "Health"]%string "Fashion").
Proof.
  assert (Hnd : NoDup ["Fashion"; "Health"]%string).
  { constructor; [intros [E | []]; discriminate|].
    constructor; [intros [] | constructor]. }
  destruct (proj1 toggle_flips_membership ["Fashion"; "Health"]%string "Fashion"%string Hnd)
    as (_ & Hx & Ho & _).
  split.
  - apply Ho; [discriminate|]. right. left. reflexivity.
  - intros Hin. apply Hx in Hin. apply Hin. left. reflexivity.
Defined.

(** *** The box of a scan region *)

Lemma fold_min_finite (xs : list Q) :
  forall acc : Q,
  exists m, fold_left JsNum.min2 (map Fin xs) (Fin acc) = Fin m /\
            (m <= acc)%Q /\ Forall (fun x => m <= x)%Q xs.
Proof.
  induction xs as [|x xs IH]; intros acc; cbn [map fold_left].
  - exists acc. split; [reflexivity|]. split; [apply Qle_refl | constructor].
  - cbn [JsNum.min2].
    destruct (Fin x <? Fin acc)%js eqn:E.
    + apply GeoMore.ltb_Fin in E.
      destruct (IH x) as (m & Hm & Hle & Hall).
      exists m. split; [exact Hm|]. split; [lra|]. constructor; assumption.
    + apply GeoMore.ltb_Fin_false in E.
      destruct (IH acc) as (m & Hm & Hle & Hall).
      exists m. split; [exact Hm|]. split; [exact Hle|]. constructor; [lra | exact Hall].
Qed.

Lemma fold_max_finite (xs : list Q) :
  forall acc : Q,
  exists m, fold_left JsNum.max2 (map Fin xs) (Fin acc) = Fin m /\
            (acc <= m)%Q /\ Forall (fun x => x <= m)%Q xs.
Proof.
  induction xs as [|x xs IH]; intros acc; cbn [map fold_left].
  - exists acc. split; [reflexivity|]. split; [apply Qle_refl | constructor].
  - cbn [JsNum.max2].
    destruct (Fin acc <? Fin x)%js eqn:E.
    + apply GeoMore.ltb_Fin in E.
      destruct (IH x) as (m & Hm & Hle & Hall).
      exists m. split; [exact Hm|]. split; [lra|]. constructor; assumption.
    + apply GeoMore.ltb_Fin_false in E.
      destruct (IH acc) as (m & Hm & Hle & Hall).
      exists m. split; [exact Hm|]. split; [exact Hle|]. constructor; [lra | exact Hall].
Qed.

Lemma min_list_finite (xs : list Q) :
  xs <> [] ->
  exists m, JsNum.min_list (map Fin xs) = Fin m /\ Forall (fun x => m <= x)%Q xs.
Proof.
  intros Hne. destruct xs as [|x xs]; [contradiction|].
  unfold JsNum.min_list. cbn [map fold_left JsNum.min2 JsNum.ltb negb].
  destruct (fold_min_finite xs x) as (m & Hm & Hle & Hall).
  exists m. split; [exact Hm|]. constructor; assumption.
Qed.

Lemma max_list_finite (xs : list Q) :
  xs <> [] ->
  exists m, JsNum.max_list (map Fin xs) = Fin m /\ Forall (fun x => x <= m)%Q xs.
Proof.
  intros Hne. destruct xs as [|x xs]; [contradiction|].
  unfold JsNum.max_list. cbn [map fold_left JsNum.max2 JsNum.ltb negb].
  destruct (fold_max_finite xs x) as (m & Hm & Hle & Hall).
  exists m. split; [exact Hm|]. constructor; assumption.
Qed.

(** X30.  The box of a scan region covers the ring it is made from: for a
    ring of finite positions that is not empty, the four sides are finite
    and every position of the ring lies between south and north and
    between west and east. *)
Theorem region_covers_ring (qs : list (Q * Q)) :
  qs <> [] ->
  exists south west north east,
    region_bbox (map GeoProps.fin_point qs)
      = Osm.mkBBox (Fin south) (Fin west) (Fin north) (Fin east) /\
    Forall (fun v => (west <= fst v <= east)%Q /\ (south <= snd v <= north)%Q) qs.
Proof.
  intros Hne. unfold region_bbox.
  assert (Hlat : map snd (map GeoProps.fin_point qs) = map Fin (map snd qs))
    by (rewrite !map_map; reflexivity).
  assert (Hlng : map fst (map GeoProps.fin_point qs) = map Fin (map fst qs))
    by (rewrite !map_map; reflexivity).
  rewrite Hlat, Hlng.
  assert (Hs : map snd qs <> []) by (destruct qs; [contradiction | discriminate]).
  assert (Hf : map fst qs <> []) by (destruct qs; [contradiction | discriminate]).
  destruct (min_list_finite _ Hs) as (s & -> & Hsouth).
  destruct (max_list_finite _ Hs) as (n & -> & Hnorth).
  destruct (min_list_finite _ Hf) as (w & -> & Hwest).
  destruct (max_list_finite _ Hf) as (e & -> & Heast).
  exists s, w, n, e. split; [reflexivity|].
  apply Forall_forall. intros v Hv.
  pose proof (proj1 (Forall_forall _ _) Hsouth (snd v) (in_map snd _ _ Hv)).
  pose proof (proj1 (Forall_forall _ _) Hnorth (snd v) (in_map snd _ _ Hv)).
  pose proof (proj1 (Forall_forall _ _) Hwest (fst v) (in_map fst _ _ Hv)).
  pose proof (proj1 (Forall_forall _ _) Heast (fst v) (in_map fst _ _ Hv)).
  cbv beta in *. repeat split; assumption.
Qed.

Lemma region_covers_ring_witness :
  exists south west north east,
    region_bbox (map GeoProps.fin_point [(77.52, 12.75); (77.82, 12.80); (77.70, 12.65)]%Q)
      = Osm.mkBBox (Fin south) (Fin west) (Fin north) (Fin east) /\
    Forall (fun v => (west <= fst v <= east)%Q /\ (south <= snd v <= north)%Q)
           [(77.52, 12.75); (77.82, 12.80); (77.70, 12.65)]%Q.
Proof.
  apply (region_covers_ring [(77.52, 12.75); (77.82, 12.80); (77.70, 12.65)]%Q).
  discriminate.
Defined.

End FilterFacts.
